(** * The validation library of week2/Task8, embedded in Rocq

    The development follows the modular implementation of the library:
    [src/types.ts], [src/validators/BaseValidator.ts] and the six validator
    classes under [src/validators/], with the factory of [src/Schema.ts].
    The single-file [schema.ts] is a second implementation of the same
    library; the part of it that differs on date ranges is embedded in
    [Module SchemaTs] and its [validate] in [Module SchemaTsValidate]. A
    third implementation, a version of [schema.ts] whose validators are
    builders that change in place, is embedded in [Module Builders].

    Layout of the definitions: JavaScript values and the host's built-ins;
    the result and rule types of [types.ts]; [BaseValidator] as [validate]
    sees an instance; the six classes and validator trees; the object store
    on which the configuration methods run (allocation, array copy,
    in-place [push] and field assignment); the date validator of
    [schema.ts]; [RegExp] objects with state; a host and the validators of
    the examples; the builder version, [validate] of [schema.ts], fluent
    chains on the store and the notions of the further properties. The
    properties follow.

    What is taken as given: finite numbers are compared as rationals; the
    length of a string is counted in the characters of the model; an input
    object is a plain object or a [Date], read at a key through its own
    properties, each key once, and then through the members that ECMAScript
    gives [Object.prototype] and [Date.prototype]; no schema has the key
    [__proto__], the one key at which an assignment creates no property; a
    pattern is a [RegExp] without the global or sticky flag, except in
    [Module RegExpState]. *)

From Stdlib Require Import QArith Ascii.
From stdpp Require Import base list strings pretty.

Local Open Scope string_scope.
Local Open Scope list_scope.
#[local] Set Warnings "-register-all".

(** ** JavaScript values *)

(** A JavaScript [number]. Every finite double is a rational and the order of
    finite doubles is the order of the rationals they denote, so the finite
    numbers are modelled by [Q]; what is proved for all rationals holds for
    all doubles. The three non-finite numbers are separate constructors. *)
Inductive number : Type :=
| NaN
| PosInfinity
| NegInfinity
| Finite (q : Q).

Definition Qlt_bool (p q : Q) : bool := negb (Qle_bool q p).

(** [x < y] on numbers: every comparison with [NaN] is false. *)
Definition number_lt (x y : number) : bool :=
  match x, y with
  | NaN, _ | _, NaN => false
  | _, NegInfinity => false
  | PosInfinity, _ => false
  | NegInfinity, _ => true
  | Finite _, PosInfinity => true
  | Finite p, Finite q => Qlt_bool p q
  end.

(** [x > y] is [y < x]. *)
Definition number_gt (x y : number) : bool := number_lt y x.

(** [Number.isFinite]. *)
Definition Number_isFinite (x : number) : bool :=
  match x with
  | Finite _ => true
  | _ => false
  end.

Definition number_of_nat (n : nat) : number := Finite (inject_Z (Z.of_nat n)).

Definition number_of_Z (z : Z) : number := Finite (inject_Z z).

(** A [Date] object: its time value is an integral number of milliseconds, or
    [NaN] for an invalid date ([None]). *)
Record Date : Type := mkDate { time : option Z }.

(** [date.getTime()]. *)
Definition getTime (d : Date) : number :=
  match time d with
  | Some t => number_of_Z t
  | None => NaN
  end.

(** A [RegExp], seen through its [test] method (a regular expression without
    the global or sticky flag, whose [test] keeps no state). *)
Record RegExp : Type := mkRegExp { test : string -> bool }.

(** A JavaScript object used as a record: its own enumerable string-keyed
    properties in enumeration order. A key occurs once. *)
Definition obj (A : Type) : Type := list (string * A).

(** [o[key]] on own properties. *)
Fixpoint obj_get {A : Type} (key : string) (o : obj A) : option A :=
  match o with
  | [] => None
  | (k, x) :: rest => if decide (k = key) then Some x else obj_get key rest
  end.

(** [o[key] = x] for a key other than [__proto__]: replaces the property
    when it exists, appends it otherwise. *)
Fixpoint obj_set {A : Type} (key : string) (x : A) (o : obj A) : obj A :=
  match o with
  | [] => [(key, x)]
  | (k, y) :: rest =>
      if decide (k = key) then (k, x) :: rest else (k, y) :: obj_set key x rest
  end.

(** [Object.keys(o)]. *)
Definition obj_keys {A : Type} (o : obj A) : list string := map fst o.

(** The values [validate] can receive ([unknown] in the source). An object
    is a plain object, one whose prototype is [Object.prototype], given by
    its own enumerable properties; a [Date] has no own properties. A
    function is a value of its own, without a record of which function it
    is: no type check accepts one, so none is ever returned as data.
    Symbols and bigints are left out. Arrays are dense. *)
Inductive value : Type :=
| VUndefined
| VNull
| VBoolean (b : bool)
| VNumber (n : number)
| VString (s : string)
| VDate (d : Date)
| VArray (items : list value)
| VObject (props : obj value)
| VFunction.

(** [value === null || value === undefined]. *)
Definition is_absent (v : value) : bool :=
  match v with
  | VUndefined | VNull => true
  | _ => false
  end.

(** The string keys of [Object.prototype] in ECMAScript 2025, those of
    its annex B included; every plain object inherits them. *)
Definition Object_prototype_members : list string :=
  ["constructor"; "__defineGetter__"; "__defineSetter__"; "hasOwnProperty";
   "__lookupGetter__"; "__lookupSetter__"; "isPrototypeOf";
   "propertyIsEnumerable"; "toString"; "valueOf"; "__proto__";
   "toLocaleString"].

(** The string keys of [Date.prototype] in ECMAScript 2025, those of its
    annex B included. *)
Definition Date_prototype_members : list string :=
  ["constructor"; "toString"; "toDateString"; "toTimeString"; "toISOString";
   "toUTCString"; "toGMTString"; "getDate"; "setDate"; "getDay";
   "getFullYear"; "setFullYear"; "getHours"; "setHours"; "getMilliseconds";
   "setMilliseconds"; "getMinutes"; "setMinutes"; "getMonth"; "setMonth";
   "getSeconds"; "setSeconds"; "getTime"; "setTime"; "getTimezoneOffset";
   "getUTCDate"; "setUTCDate"; "getUTCDay"; "getUTCFullYear";
   "setUTCFullYear"; "getUTCHours"; "setUTCHours"; "getUTCMilliseconds";
   "setUTCMilliseconds"; "getUTCMinutes"; "setUTCMinutes"; "getUTCMonth";
   "setUTCMonth"; "getUTCSeconds"; "setUTCSeconds"; "valueOf"; "getYear";
   "setYear"; "toJSON"; "toLocaleString"; "toLocaleDateString";
   "toLocaleTimeString"].

(** What a plain object without an own property [key] reads at [key], which
    is [Object.prototype[key]] with the object as receiver: a method for
    every member but [__proto__], whose getter returns the prototype, of
    which the model keeps that it is an object without enumerable
    properties; [undefined] for any other key. *)
Definition Object_prototype (key : string) : value :=
  if decide (key = "__proto__") then VObject []
  else if decide (key ∈ Object_prototype_members) then VFunction
  else VUndefined.

(** What a [Date] reads at [key]: a member of [Date.prototype], and behind
    it what [Object.prototype] gives. *)
Definition Date_prototype (key : string) : value :=
  if decide (key ∈ Date_prototype_members) then VFunction
  else Object_prototype key.

(** [objectValue[key]], read as JavaScript reads a property: an own property
    when there is one, the prototype chain otherwise. The object validators
    read objects and dates only. *)
Definition prop_get (o : value) (key : string) : value :=
  match o with
  | VObject props =>
      match obj_get key props with
      | Some x => x
      | None => Object_prototype key
      end
  | VDate _ => Date_prototype key
  | _ => VUndefined
  end.

(** ** The host environment *)

(** Built-ins of the JavaScript runtime that the library calls and whose
    results the development treats as given: the conversions behind template
    literals and the date parser behind [new Date(string)]. *)
Class Host : Type := {
  (** [`${n}`] for a number. *)
  Number_toString : number -> string;
  (** [date.toISOString()]. It raises [RangeError] on an invalid date; the
      library evaluates it only under a comparison with the date's time that
      came out true, which excludes [NaN]. *)
  Date_toISOString : Date -> string;
  (** [new Date(s)] for a string [s]; the result may be an invalid date. *)
  Date_parse : string -> Date;
}.

(** ** types.ts *)

(** [error?: string | Record<string, any>]: absent, a message, or a record
    whose fields hold error values again. *)
Inductive ErrorValue : Type :=
| EUndefined
| EString (message : string)
| ERecord (fields : obj ErrorValue).

(** [ValidationResult<T>]: the library builds only the two shapes
    [{ success: true, data }] and [{ success: false, error }]. *)
Inductive ValidationResult (T : Type) : Type :=
| Success (data : T)
| Failure (error : ErrorValue).

Arguments Success {T} data.
Arguments Failure {T} error.

Definition is_success {T : Type} (r : ValidationResult T) : bool :=
  match r with
  | Success _ => true
  | Failure _ => false
  end.

Definition result_map {T U : Type} (f : T -> U) (r : ValidationResult T) :
    ValidationResult U :=
  match r with
  | Success data => Success (f data)
  | Failure e => Failure e
  end.

(** The result of a rule: [{ success: boolean; error?: string }]. *)
Record RuleResult : Type := mkRuleResult {
  success : bool;
  error : option string;
}.

Definition rule_ok : RuleResult := {| success := true; error := None |}.

Definition rule_fail (message : string) : RuleResult :=
  {| success := false; error := Some message |}.

(** [ValidationRule<T>]. *)
Definition ValidationRule (T : Type) : Type := T -> RuleResult.

(** [result.error] copied into a [ValidationResult]. *)
Definition error_of_rule (r : RuleResult) : ErrorValue :=
  match error r with
  | Some message => EString message
  | None => EUndefined
  end.

(** [message || fallback]: an absent or empty message is falsy. *)
Definition or_default (message : option string) (fallback : string) : string :=
  match message with
  | Some m => if decide (m = "") then fallback else m
  | None => fallback
  end.

(** ** BaseValidator.ts *)

(** The fields of a [BaseValidator<T>] instance, read off the object store
    (see [Store.read_validator]): the rule array's contents, the two
    configuration fields and whether the instance carries the own property
    [validate] that [optional] installs over the class method. *)
Record BaseValidator (T : Type) : Type := mkBaseValidator {
  rules : list (ValidationRule T);
  isOptional : bool;
  baseErrorMessage : option string;
  ownValidate : bool;
}.

Arguments mkBaseValidator {T} rules isOptional baseErrorMessage ownValidate.
Arguments rules {T} _.
Arguments isOptional {T} _.
Arguments baseErrorMessage {T} _.
Arguments ownValidate {T} _.

Section BaseValidatorMethods.
Context {T : Type}.

(** [new C()]: the field initialisers, no [other]. *)
Definition BaseValidator_new : BaseValidator T :=
  {| rules := []; isOptional := false; baseErrorMessage := None;
     ownValidate := false |}.

(** [clone()], that is [new C(this)]: the constructor copies the three
    declared fields; an own [validate] property is not among them. *)
Definition BaseValidator_clone (this : BaseValidator T) : BaseValidator T :=
  {| rules := rules this;
     isOptional := isOptional this;
     baseErrorMessage := baseErrorMessage this;
     ownValidate := false |}.

Definition BaseValidator_addRule (this : BaseValidator T)
    (rule : ValidationRule T) : BaseValidator T :=
  let newValidator := BaseValidator_clone this in
  {| rules := rules newValidator ++ [rule];
     isOptional := isOptional newValidator;
     baseErrorMessage := baseErrorMessage newValidator;
     ownValidate := ownValidate newValidator |}.

Definition BaseValidator_optional (this : BaseValidator T) : BaseValidator T :=
  let newValidator := BaseValidator_clone this in
  {| rules := rules newValidator;
     isOptional := true;
     baseErrorMessage := baseErrorMessage newValidator;
     ownValidate := true |}.

Definition BaseValidator_withMessage (this : BaseValidator T)
    (message : string) : BaseValidator T :=
  let newValidator := BaseValidator_clone this in
  {| rules := rules newValidator;
     isOptional := isOptional newValidator;
     baseErrorMessage := Some message;
     ownValidate := ownValidate newValidator |}.

(** The loop of [validate] over [this.rules]. *)
Fixpoint run_rules (rs : list (ValidationRule T)) (typedValue : T) :
    ValidationResult T :=
  match rs with
  | [] => Success typedValue
  | rule :: rest =>
      let result := rule typedValue in
      if success result then run_rules rest typedValue
      else Failure (error_of_rule result)
  end.

(** [BaseValidator.validate], the class method; [validateType] is the
    abstract method the subclass supplies. *)
Definition BaseValidator_validate
    (validateType : value -> ValidationResult T)
    (this : BaseValidator T) (v : value) : ValidationResult T :=
  match validateType v with
  | Failure e => Failure e
  | Success typedValue => run_rules (rules this) typedValue
  end.

(** The first rule that fails on a value, in the spec's words: "the first
    rule to fail terminates evaluation and its error is returned". *)
Definition first_failing (rs : list (ValidationRule T)) (typedValue : T) :
    option (ValidationRule T) :=
  List.find (fun rule => negb (success (rule typedValue))) rs.

(** A call [v.validate(value)] on an instance: the own property installed
    by [optional] when there is one, the class method [classValidate]
    otherwise. The own property answers absent input itself and hands
    everything else to the class method it was bound to. *)
Definition call_validate (this : BaseValidator T)
    (classValidate : value -> ValidationResult value) (v : value) :
    ValidationResult value :=
  if ownValidate this then
    if is_absent v then Success VUndefined else classValidate v
  else classValidate v.
End BaseValidatorMethods.

(** ** The validator classes *)

Section Validators.
Context {host : Host}.

(** *** StringValidator.ts *)

Definition StringValidator_validateType (this : BaseValidator string)
    (v : value) : ValidationResult string :=
  match v with
  | VString s => Success s
  | _ => Failure (EString (or_default (baseErrorMessage this)
                             "Value must be a string"))
  end.

(** [value.length] of a string, counted in the characters of the model. *)
Definition string_length (s : string) : number :=
  number_of_nat (String.length s).

Definition StringValidator_minLength_rule (length : number)
    (message : option string) : ValidationRule string :=
  fun v =>
    if number_lt (string_length v) length then
      rule_fail (or_default message
        ("String must be at least " ++ Number_toString length
           ++ " characters long"))
    else rule_ok.

Definition StringValidator_maxLength_rule (length : number)
    (message : option string) : ValidationRule string :=
  fun v =>
    if number_gt (string_length v) length then
      rule_fail (or_default message
        ("String must be at most " ++ Number_toString length
           ++ " characters long"))
    else rule_ok.

Definition StringValidator_pattern_rule (pattern : RegExp)
    (message : option string) : ValidationRule string :=
  fun v =>
    if negb (test pattern v) then
      rule_fail (or_default message "String does not match required pattern")
    else rule_ok.

Definition StringValidator_minLength (this : BaseValidator string)
    (length : number) (message : option string) : BaseValidator string :=
  BaseValidator_addRule this (StringValidator_minLength_rule length message).

Definition StringValidator_maxLength (this : BaseValidator string)
    (length : number) (message : option string) : BaseValidator string :=
  BaseValidator_addRule this (StringValidator_maxLength_rule length message).

Definition StringValidator_pattern (this : BaseValidator string)
    (pattern : RegExp) (message : option string) : BaseValidator string :=
  BaseValidator_addRule this (StringValidator_pattern_rule pattern message).

(** *** NumberValidator.ts *)

Definition NumberValidator_validateType (this : BaseValidator number)
    (v : value) : ValidationResult number :=
  match v with
  | VNumber n =>
      if Number_isFinite n then Success n
      else Failure (EString (or_default (baseErrorMessage this)
                               "Value must be a valid number"))
  | _ => Failure (EString (or_default (baseErrorMessage this)
                             "Value must be a valid number"))
  end.

Definition NumberValidator_min_rule (bound : number)
    (message : option string) : ValidationRule number :=
  fun val =>
    if number_lt val bound then
      rule_fail (or_default message
        ("Number must be at least " ++ Number_toString bound))
    else rule_ok.

Definition NumberValidator_max_rule (bound : number)
    (message : option string) : ValidationRule number :=
  fun val =>
    if number_gt val bound then
      rule_fail (or_default message
        ("Number must be at most " ++ Number_toString bound))
    else rule_ok.

Definition NumberValidator_min (this : BaseValidator number)
    (bound : number) (message : option string) : BaseValidator number :=
  BaseValidator_addRule this (NumberValidator_min_rule bound message).

Definition NumberValidator_max (this : BaseValidator number)
    (bound : number) (message : option string) : BaseValidator number :=
  BaseValidator_addRule this (NumberValidator_max_rule bound message).

(** *** BooleanValidator.ts *)

Definition BooleanValidator_validateType (this : BaseValidator bool)
    (v : value) : ValidationResult bool :=
  match v with
  | VBoolean b => Success b
  | _ => Failure (EString (or_default (baseErrorMessage this)
                             "Value must be a boolean"))
  end.

(** *** DateValidator.ts *)

(** [!isNaN(d.getTime())]. *)
Definition date_valid (d : Date) : bool :=
  match time d with
  | Some _ => true
  | None => false
  end.

Definition DateValidator_validateType (this : BaseValidator Date)
    (v : value) : ValidationResult Date :=
  let failure :=
    Failure (EString (or_default (baseErrorMessage this)
      "Value must be a valid Date object or an ISO date string")) in
  match v with
  | VDate d => if date_valid d then Success d else failure
  | VString s =>
      let date := Date_parse s in
      if date_valid date then Success date else failure
  | _ => failure
  end.

Definition DateValidator_min_rule (date : Date) (message : option string) :
    ValidationRule Date :=
  fun v =>
    if number_lt (getTime v) (getTime date) then
      rule_fail (or_default message
        ("Date must be on or after " ++ Date_toISOString date))
    else rule_ok.

Definition DateValidator_max_rule (date : Date) (message : option string) :
    ValidationRule Date :=
  fun v =>
    if number_gt (getTime v) (getTime date) then
      rule_fail (or_default message
        ("Date must be on or before " ++ Date_toISOString date))
    else rule_ok.

(** [min] and [max] of [DateValidator.ts] return [this.addRule(...)] and do
    nothing else. *)
Definition DateValidator_min (this : BaseValidator Date) (date : Date)
    (message : option string) : BaseValidator Date :=
  BaseValidator_addRule this (DateValidator_min_rule date message).

Definition DateValidator_max (this : BaseValidator Date) (date : Date)
    (message : option string) : BaseValidator Date :=
  BaseValidator_addRule this (DateValidator_max_rule date message).

(** *** ArrayValidator.ts *)

Definition ArrayValidator_validateType (this : BaseValidator (list value))
    (v : value) : ValidationResult (list value) :=
  match v with
  | VArray items => Success items
  | _ => Failure (EString (or_default (baseErrorMessage this)
                             "Value must be an array"))
  end.

Definition array_length (items : list value) : number :=
  number_of_nat (List.length items).

Definition ArrayValidator_minLength_rule (length : number)
    (message : option string) : ValidationRule (list value) :=
  fun v =>
    if number_lt (array_length v) length then
      rule_fail (or_default message
        ("Array must contain at least " ++ Number_toString length
           ++ " items"))
    else rule_ok.

Definition ArrayValidator_maxLength_rule (length : number)
    (message : option string) : ValidationRule (list value) :=
  fun v =>
    if number_gt (array_length v) length then
      rule_fail (or_default message
        ("Array must contain at most " ++ Number_toString length
           ++ " items"))
    else rule_ok.

Definition ArrayValidator_minLength (this : BaseValidator (list value))
    (length : number) (message : option string) :
    BaseValidator (list value) :=
  BaseValidator_addRule this (ArrayValidator_minLength_rule length message).

Definition ArrayValidator_maxLength (this : BaseValidator (list value))
    (length : number) (message : option string) :
    BaseValidator (list value) :=
  BaseValidator_addRule this (ArrayValidator_maxLength_rule length message).

(** The [for] loop of [ArrayValidator.validate] from index [i] on, over the
    items not yet visited, with the two accumulators of the source. The
    index is the property key [String(i)] of [errors]. *)
Fixpoint ArrayValidator_items
    (itemValidate : value -> ValidationResult value)
    (items : list value) (i : nat)
    (validatedArray : list value) (errors : obj ErrorValue) :
    list value * obj ErrorValue :=
  match items with
  | [] => (validatedArray, errors)
  | item :: rest =>
      match itemValidate item with
      | Success data =>
          ArrayValidator_items itemValidate rest (S i)
            (validatedArray ++ [data]) errors
      | Failure e =>
          ArrayValidator_items itemValidate rest (S i)
            validatedArray (obj_set (pretty i) e errors)
      end
  end.

(** [ArrayValidator.validate], the class method; [itemValidate] is the call
    [this.itemValidator.validate]. *)
Definition ArrayValidator_validate
    (itemValidate : value -> ValidationResult value)
    (this : BaseValidator (list value)) (v : value) :
    ValidationResult (list value) :=
  match BaseValidator_validate (ArrayValidator_validateType this) this v with
  | Failure e => Failure e
  | Success arrayValue =>
      let '(validatedArray, errors) :=
        ArrayValidator_items itemValidate arrayValue 0 [] [] in
      if (0 <? List.length (obj_keys errors))%nat then
        Failure (ERecord [("message", EString "Array contains invalid items");
                          ("errors", ERecord errors)])
      else Success validatedArray
  end.

(** *** ObjectValidator.ts *)

(** [typeof value !== 'object' || value === null || Array.isArray(value)]
    rejects everything but non-array objects; a [Date] is one. *)
Definition ObjectValidator_validateType (this : BaseValidator value)
    (v : value) : ValidationResult value :=
  match v with
  | VObject _ | VDate _ => Success v
  | _ => Failure (EString (or_default (baseErrorMessage this)
                             "Value must be an object"))
  end.

(** The [for ... in] loop of [ObjectValidator.validate] over the schema's
    own keys; each field is given as its key and the call
    [validator.validate]. *)
Fixpoint ObjectValidator_fields
    (schema : list (string * (value -> ValidationResult value)))
    (objectValue : value)
    (validatedObject : obj value) (errors : obj ErrorValue) :
    obj value * obj ErrorValue :=
  match schema with
  | [] => (validatedObject, errors)
  | (key, validatorValidate) :: rest =>
      match validatorValidate (prop_get objectValue key) with
      | Success data =>
          ObjectValidator_fields rest objectValue
            (match data with
             | VUndefined => validatedObject
             | _ => obj_set key data validatedObject
             end)
            errors
      | Failure e =>
          ObjectValidator_fields rest objectValue
            validatedObject (obj_set key e errors)
      end
  end.

(** [ObjectValidator.validate], the class method. *)
Definition ObjectValidator_validate
    (schema : list (string * (value -> ValidationResult value)))
    (this : BaseValidator value) (v : value) : ValidationResult value :=
  match BaseValidator_validate (ObjectValidator_validateType this) this v with
  | Failure e => Failure e
  | Success objectValue =>
      let '(validatedObject, errors) :=
        ObjectValidator_fields schema objectValue [] [] in
      if (0 <? List.length (obj_keys errors))%nat then
        Failure (ERecord [("message", EString "Object validation failed");
                          ("errors", ERecord errors)])
      else Success (VObject validatedObject)
  end.

(** *** Validator trees *)

(** A validator with the validators it holds: the item validator of an
    array validator and the schema of an object validator are constructor
    parameters, kept as they were given. *)
Inductive validator : Type :=
| StringValidator (this : BaseValidator string)
| NumberValidator (this : BaseValidator number)
| BooleanValidator (this : BaseValidator bool)
| DateValidator (this : BaseValidator Date)
| ArrayValidator (itemValidator : validator)
    (this : BaseValidator (list value))
| ObjectValidator (schema : obj validator) (this : BaseValidator value).

(** [v.validate(value)] for any validator. *)
Fixpoint validate (v : validator) (x : value) {struct v} :
    ValidationResult value :=
  match v with
  | StringValidator this =>
      call_validate this
        (fun x => result_map VString
           (BaseValidator_validate (StringValidator_validateType this) this x))
        x
  | NumberValidator this =>
      call_validate this
        (fun x => result_map VNumber
           (BaseValidator_validate (NumberValidator_validateType this) this x))
        x
  | BooleanValidator this =>
      call_validate this
        (fun x => result_map VBoolean
           (BaseValidator_validate (BooleanValidator_validateType this) this x))
        x
  | DateValidator this =>
      call_validate this
        (fun x => result_map VDate
           (BaseValidator_validate (DateValidator_validateType this) this x))
        x
  | ArrayValidator itemValidator this =>
      call_validate this
        (fun x => result_map VArray
           (ArrayValidator_validate (validate itemValidator) this x))
        x
  | ObjectValidator schema this =>
      call_validate this
        (ObjectValidator_validate
           (map (fun field => (fst field, validate (snd field))) schema)
           this)
        x
  end.

(** [optional()] and [withMessage(message)] on any validator: the clone is
    an instance of the receiver's class with the receiver's constructor
    parameters. *)
Definition optional (v : validator) : validator :=
  match v with
  | StringValidator this => StringValidator (BaseValidator_optional this)
  | NumberValidator this => NumberValidator (BaseValidator_optional this)
  | BooleanValidator this => BooleanValidator (BaseValidator_optional this)
  | DateValidator this => DateValidator (BaseValidator_optional this)
  | ArrayValidator itemValidator this =>
      ArrayValidator itemValidator (BaseValidator_optional this)
  | ObjectValidator schema this =>
      ObjectValidator schema (BaseValidator_optional this)
  end.

Definition withMessage (v : validator) (message : string) : validator :=
  match v with
  | StringValidator this =>
      StringValidator (BaseValidator_withMessage this message)
  | NumberValidator this =>
      NumberValidator (BaseValidator_withMessage this message)
  | BooleanValidator this =>
      BooleanValidator (BaseValidator_withMessage this message)
  | DateValidator this =>
      DateValidator (BaseValidator_withMessage this message)
  | ArrayValidator itemValidator this =>
      ArrayValidator itemValidator (BaseValidator_withMessage this message)
  | ObjectValidator schema this =>
      ObjectValidator schema (BaseValidator_withMessage this message)
  end.

(** *** Schema.ts *)

Definition Schema_string : validator := StringValidator BaseValidator_new.
Definition Schema_number : validator := NumberValidator BaseValidator_new.
Definition Schema_boolean : validator := BooleanValidator BaseValidator_new.
Definition Schema_date : validator := DateValidator BaseValidator_new.
Definition Schema_array (itemValidator : validator) : validator :=
  ArrayValidator itemValidator BaseValidator_new.
Definition Schema_object (schema : obj validator) : validator :=
  ObjectValidator schema BaseValidator_new.
End Validators.

(** ** The object store of the configuration methods

    [BaseValidator]'s constructor, [clone], [addRule], [optional] and
    [withMessage] with the allocation and mutation the source performs: an
    instance is a cell holding its fields, [rules] points to a separate array
    cell, [[...other.rules]] allocates a copy, [push] and field assignment
    update a cell in place. [T] is the validated type of the class and [X]
    the constructor parameters of the subclass ([itemValidator], [schema]),
    which [clone] passes on by reference. *)
Module Store.
Section Store.
Context {T X : Type}.

(** A location is an index into the store. *)
#[local] Abbreviation loc := nat.

Record instance : Type := mkInstance {
  i_rules : loc;
  i_isOptional : bool;
  i_baseErrorMessage : option string;
  i_validate : bool;
  i_params : X;
}.

Inductive cell : Type :=
| RulesArray (rs : list (ValidationRule T))
| Instance (o : instance).

(** The store: the cells allocated so far, a location being an index. *)
#[local] Abbreviation store := (list cell).

Definition alloc (c : cell) (h : store) : store * loc :=
  (h ++ [c], length h).

Definition read_rules (h : store) (l : loc) :
    option (list (ValidationRule T)) :=
  match h !! l with
  | Some (RulesArray rs) => Some rs
  | _ => None
  end.

Definition read_instance (h : store) (l : loc) : option instance :=
  match h !! l with
  | Some (Instance o) => Some o
  | _ => None
  end.

(** Assignment to fields of the instance at [l]. *)
Definition assign (l : loc) (f : instance -> instance) (h : store) :
    option store :=
  o ← read_instance h l;
  Some (<[l := Instance (f o)]> h).

(** [array.push(rule)] on the array at [l]. *)
Definition push (l : loc) (rule : ValidationRule T) (h : store) :
    option store :=
  rs ← read_rules h l;
  Some (<[l := RulesArray (rs ++ [rule])]> h).

(** [new C(params, other)]: the field initialisers ([rules = []],
    [isOptional = false], no [baseErrorMessage]), then the body of
    [BaseValidator]'s constructor, then the subclass's
    [this.itemValidator = other.itemValidator] (or [schema]). *)
Definition construct (params : X) (other : option loc) (h : store) :
    option (store * loc) :=
  let '(h, r0) := alloc (RulesArray []) h in
  let '(h, this) :=
    alloc (Instance {| i_rules := r0; i_isOptional := false;
                       i_baseErrorMessage := None; i_validate := false;
                       i_params := params |}) h in
  match other with
  | None => Some (h, this)
  | Some other =>
      o ← read_instance h other;
      rs ← read_rules h (i_rules o);
      let '(h, r) := alloc (RulesArray rs) h in
      h ← assign this (fun n =>
             {| i_rules := r; i_isOptional := i_isOptional o;
                i_baseErrorMessage := i_baseErrorMessage o;
                i_validate := i_validate n; i_params := i_params n |}) h;
      h ← assign this (fun n =>
             {| i_rules := i_rules n; i_isOptional := i_isOptional n;
                i_baseErrorMessage := i_baseErrorMessage n;
                i_validate := i_validate n; i_params := i_params o |}) h;
      Some (h, this)
  end.

(** The store [clone] leaves when the receiver holds [o] and its rule array
    holds [rs]: three cells behind the old ones, namely the array of the
    field initialiser, the new instance and the copy of the rules. *)
Definition cloned (h : store) (o : instance) (rs : list (ValidationRule T)) :
    store :=
  h ++ [RulesArray [];
        Instance {| i_rules := length h + 2;
                    i_isOptional := i_isOptional o;
                    i_baseErrorMessage := i_baseErrorMessage o;
                    i_validate := false;
                    i_params := i_params o |};
        RulesArray rs].

(** [this.clone()]: [new C(this.params, this)]. *)
Definition clone (this : loc) (h : store) : option (store * loc) :=
  o ← read_instance h this;
  construct (i_params o) (Some this) h.

Definition addRule (rule : ValidationRule T) (this : loc) (h : store) :
    option (store * loc) :=
  '(h, newValidator) ← clone this h;
  n ← read_instance h newValidator;
  h ← push (i_rules n) rule h;
  Some (h, newValidator).

Definition optional (this : loc) (h : store) : option (store * loc) :=
  '(h, newValidator) ← clone this h;
  h ← assign newValidator (fun n =>
         {| i_rules := i_rules n; i_isOptional := true;
            i_baseErrorMessage := i_baseErrorMessage n;
            i_validate := i_validate n; i_params := i_params n |}) h;
  h ← assign newValidator (fun n =>
         {| i_rules := i_rules n; i_isOptional := i_isOptional n;
            i_baseErrorMessage := i_baseErrorMessage n;
            i_validate := true; i_params := i_params n |}) h;
  Some (h, newValidator).

Definition withMessage (message : string) (this : loc) (h : store) :
    option (store * loc) :=
  '(h, newValidator) ← clone this h;
  h ← assign newValidator (fun n =>
         {| i_rules := i_rules n; i_isOptional := i_isOptional n;
            i_baseErrorMessage := Some message;
            i_validate := i_validate n; i_params := i_params n |}) h;
  Some (h, newValidator).

(** The configuration methods. Every rule-adding method of a subclass
    ([minLength], [maxLength], [pattern], [min], [max]) is
    [this.addRule(closure)]. *)
Inductive config : Type :=
| AddRule (rule : ValidationRule T)
| Optional
| WithMessage (message : string).

Definition configure (c : config) (this : loc) (h : store) :
    option (store * loc) :=
  match c with
  | AddRule rule => addRule rule this h
  | Optional => optional this h
  | WithMessage message => withMessage message this h
  end.

(** The same method on the fields read off the store. *)
Definition configured (c : config) (b : BaseValidator T) : BaseValidator T :=
  match c with
  | AddRule rule => BaseValidator_addRule b rule
  | Optional => BaseValidator_optional b
  | WithMessage message => BaseValidator_withMessage b message
  end.

(** The instance at [l] as [validate] sees it: its fields, with the
    contents of the array [rules] points to, and its constructor
    parameters. *)
Definition read_validator (h : store) (l : loc) :
    option (BaseValidator T * X) :=
  o ← read_instance h l;
  rs ← read_rules h (i_rules o);
  Some ({| rules := rs; isOptional := i_isOptional o;
           baseErrorMessage := i_baseErrorMessage o;
           ownValidate := i_validate o |}, i_params o).
End Store.

Arguments instance : clear implicits.
Arguments cell : clear implicits.
Arguments config : clear implicits.

Abbreviation loc := nat.
Abbreviation store T X := (list (cell T X)).
End Store.

(** ** schema.ts: the date validator of the single-file implementation

    It differs from [DateValidator.ts] in keeping the two bounds in fields of
    the instance and in comparing them when either is set. [BaseValidator] is
    the same class in both files. *)
Module SchemaTs.
(** What a call does: it returns a value or throws [new Error(message)]. *)
Inductive outcome (A : Type) : Type :=
| Returned (a : A)
| Thrown (message : string).

Arguments Returned {A} a.
Arguments Thrown {A} message.

Section DateValidator.
Context {host : Host}.

Record DateValidator : Type := mkDateValidator {
  base : BaseValidator Date;
  minDateVal : option (Date * option string);
  maxDateVal : option (Date * option string);
}.

Definition new : DateValidator :=
  {| base := BaseValidator_new; minDateVal := None; maxDateVal := None |}.

(** [new DateValidator(this)]. *)
Definition clone (this : DateValidator) : DateValidator :=
  {| base := BaseValidator_clone (base this);
     minDateVal := minDateVal this;
     maxDateVal := maxDateVal this |}.

(** The inherited [addRule]; its [this.clone()] is the one above. *)
Definition addRule (this : DateValidator) (rule : ValidationRule Date) :
    DateValidator :=
  let newValidator := clone this in
  {| base := {| rules := rules (base newValidator) ++ [rule];
                isOptional := isOptional (base newValidator);
                baseErrorMessage := baseErrorMessage (base newValidator);
                ownValidate := ownValidate (base newValidator) |};
     minDateVal := minDateVal newValidator;
     maxDateVal := maxDateVal newValidator |}.

(** [a < b] on two [Date] objects compares their time values. *)
Definition date_lt (a b : Date) : bool := number_lt (getTime a) (getTime b).

Definition min_rule (date : Date) (message : option string) :
    ValidationRule Date :=
  fun v =>
    if date_lt v date then
      rule_fail (or_default message
        ("Date must be after " ++ Date_toISOString date))
    else rule_ok.

Definition max_rule (date : Date) (message : option string) :
    ValidationRule Date :=
  fun v =>
    if date_lt date v then
      rule_fail (or_default message
        ("Date must be before " ++ Date_toISOString date))
    else rule_ok.

Definition min (this : DateValidator) (date : Date)
    (message : option string) : outcome DateValidator :=
  let newValidator :=
    {| base := base (clone this);
       minDateVal := Some (date, message);
       maxDateVal := maxDateVal (clone this) |} in
  match maxDateVal newValidator with
  | Some (maxDate, _) =>
      if date_lt maxDate date then
        Thrown "Min date cannot be after max date"
      else Returned (addRule newValidator (min_rule date message))
  | None => Returned (addRule newValidator (min_rule date message))
  end.

Definition max (this : DateValidator) (date : Date)
    (message : option string) : outcome DateValidator :=
  let newValidator :=
    {| base := base (clone this);
       minDateVal := minDateVal (clone this);
       maxDateVal := Some (date, message) |} in
  match minDateVal newValidator with
  | Some (minDate, _) =>
      if date_lt date minDate then
        Thrown "Min date cannot be after max date"
      else Returned (addRule newValidator (max_rule date message))
  | None => Returned (addRule newValidator (max_rule date message))
  end.
End DateValidator.
End SchemaTs.

(** ** RegExp objects with the global or sticky flag

    [RegExp.prototype.test] of ECMAScript: with either flag the search starts
    at the object's [lastIndex] and leaves the end of the match there, or 0
    when nothing matches. The pattern rule of [StringValidator] calls [test]
    on the object it was given, so this state outlives a call of
    [validate]. Everywhere else the development takes patterns without
    these flags, which are the [RegExp] values above ([stateless]). *)
Module RegExpState.
(** A [RegExp] object with the state [test] reads and writes. *)
Record RegExpObject : Type := mkRegExpObject {
  (** A match of the pattern that starts exactly at an index of the string,
      with the index where it ends. *)
  matcher : string -> nat -> option nat;
  global : bool;
  sticky : bool;
}.

(** The loop of [RegExpBuiltinExec]: from [lastIndex] on, the first index at
    which the pattern matches, given as the end of that match; [steps] is the
    number of indices left up to the length of the string. A sticky pattern
    tries the first index only. *)
Fixpoint search (r : RegExpObject) (s : string) (steps lastIndex : nat) :
    option nat :=
  match steps with
  | O => None
  | S steps' =>
      match matcher r s lastIndex with
      | Some e => Some e
      | None => if sticky r then None else search r s steps' (S lastIndex)
      end
  end.

(** [r.test(s)] when [r.lastIndex] is [lastIndex]: the answer and the new
    [lastIndex]. Without the global and the sticky flag the search starts at
    0 and [lastIndex] is left alone. *)
Definition RegExp_test (r : RegExpObject) (s : string) (lastIndex : nat) :
    bool * nat :=
  let stateful := global r || sticky r in
  let start := if stateful then lastIndex else 0 in
  match search r s (S (String.length s) - start) start with
  | Some e => (true, if stateful then e else lastIndex)
  | None => (false, if stateful then 0 else lastIndex)
  end.

(** The pattern as the stateless [RegExp] of the development. *)
Definition stateless (r : RegExpObject) : RegExp :=
  {| test := fun s => fst (RegExp_test r s 0) |}.

(** The rule of [StringValidator.pattern], with [pattern.lastIndex] passed
    through. *)
Definition pattern_rule (pattern : RegExpObject) (message : option string)
    (v : string) (lastIndex : nat) : RuleResult * nat :=
  let '(matched, lastIndex') := RegExp_test pattern v lastIndex in
  (if negb matched then
     rule_fail (or_default message "String does not match required pattern")
   else rule_ok,
   lastIndex').

(** [string().pattern(pattern, message).validate(x)]: the type check, then
    the one rule. *)
Definition validate_pattern (pattern : RegExpObject) (message : option string)
    (x : value) (lastIndex : nat) : ValidationResult value * nat :=
  match StringValidator_validateType BaseValidator_new x with
  | Failure e => (Failure e, lastIndex)
  | Success typedValue =>
      let '(result, lastIndex') :=
        pattern_rule pattern message typedValue lastIndex in
      (if success result then Success (VString typedValue)
       else Failure (error_of_rule result),
       lastIndex')
  end.
(** The pattern [/a/g]. *)
Definition a_global : RegExpObject :=
  {| matcher := fun s i =>
       match String.get i s with
       | Some "a"%char => Some (S i)
       | _ => None
       end;
     global := true;
     sticky := false |}.
End RegExpState.

(** ** A host for closed examples

    Number formatting and the ISO 8601 date form of ECMAScript, written out
    so that examples evaluate. [Number_toString] is JavaScript's on the
    integers below 10^21 in magnitude and on the non-finite numbers; other
    rationals are printed as a fraction, which no example relies on.
    [Date_parse] reads the form [YYYY-MM-DDTHH:mm:ss.sssZ] that
    [toISOString] writes for the years 0 to 9999, and treats every other
    string as an invalid date. *)
Module ExampleHost.
Definition number_toString (n : number) : string :=
  match n with
  | NaN => "NaN"
  | PosInfinity => "Infinity"
  | NegInfinity => "-Infinity"
  | Finite q =>
      let r := Qred q in
      if decide (Qden r = 1%positive) then pretty (Qnum r)
      else (pretty (Qnum r) ++ "/" ++ pretty (Zpos (Qden r)))%string
  end.

Definition ms_per_day : Z := 86400000.

(** Left-pads the decimal digits of a natural number with zeros. *)
Definition pad (width : nat) (n : Z) : string :=
  let digits := pretty (Z.abs n) in
  (String.concat "" (replicate (width - String.length digits) "0")
     ++ digits)%string.

(** Year, month and day of a day number counted from 1970-01-01, in the
    proleptic Gregorian calendar. *)
Definition civil_from_days (day : Z) : Z * Z * Z :=
  let z := (day + 719468)%Z in
  let era := (z / 146097)%Z in
  let doe := (z - era * 146097)%Z in
  let yoe := ((doe - doe / 1460 + doe / 36524 - doe / 146096) / 365)%Z in
  let doy := (doe - (365 * yoe + yoe / 4 - yoe / 100))%Z in
  let mp := ((5 * doy + 2) / 153)%Z in
  let d := (doy - (153 * mp + 2) / 5 + 1)%Z in
  let m := (if mp <? 10 then mp + 3 else mp - 9)%Z in
  let y := (yoe + era * 400 + (if m <=? 2 then 1 else 0))%Z in
  (y, m, d).

Definition days_from_civil (y m d : Z) : Z :=
  let y' := (if m <=? 2 then y - 1 else y)%Z in
  let era := (y' / 400)%Z in
  let yoe := (y' - era * 400)%Z in
  let mp := (if 2 <? m then m - 3 else m + 9)%Z in
  let doy := ((153 * mp + 2) / 5 + d - 1)%Z in
  let doe := (yoe * 365 + yoe / 4 - yoe / 100 + doy)%Z in
  (era * 146097 + doe - 719468)%Z.

Definition date_toISOString (d : Date) : string :=
  match time d with
  | None => ""
  | Some t =>
      let '(y, m, day) := civil_from_days (t / ms_per_day) in
      let ms := (t mod ms_per_day)%Z in
      let year :=
        if ((0 <=? y) && (y <=? 9999))%Z then pad 4 y
        else ((if (y <? 0)%Z then "-" else "+") ++ pad 6 y)%string in
      (year ++ "-" ++ pad 2 m ++ "-" ++ pad 2 day
         ++ "T" ++ pad 2 (ms / 3600000) ++ ":" ++ pad 2 (ms / 60000 mod 60)
         ++ ":" ++ pad 2 (ms / 1000 mod 60) ++ "." ++ pad 3 (ms mod 1000)
         ++ "Z")%string
  end.

Definition digit_of (c : Ascii.ascii) : option Z :=
  let n := Z.of_nat (Ascii.nat_of_ascii c) in
  if ((48 <=? n) && (n <=? 57))%Z then Some (n - 48)%Z else None.

(** Reads [width] decimal digits off the front of a string. *)
Fixpoint read_digits (width : nat) (acc : Z) (s : string) :
    option (Z * string) :=
  match width with
  | O => Some (acc, s)
  | S width' =>
      match s with
      | String c rest =>
          d ← digit_of c; read_digits width' (acc * 10 + d)%Z rest
      | EmptyString => None
      end
  end.

(** Consumes one given character. *)
Definition read_char (c : Ascii.ascii) (s : string) : option string :=
  match s with
  | String c' rest => if decide (c' = c) then Some rest else None
  | EmptyString => None
  end.

Definition parse_iso (s : string) : option Z :=
  '(y, s) ← read_digits 4 0 s; s ← read_char "-"%char s;
  '(m, s) ← read_digits 2 0 s; s ← read_char "-"%char s;
  '(d, s) ← read_digits 2 0 s; s ← read_char "T"%char s;
  '(hh, s) ← read_digits 2 0 s; s ← read_char ":"%char s;
  '(mm, s) ← read_digits 2 0 s; s ← read_char ":"%char s;
  '(ss, s) ← read_digits 2 0 s; s ← read_char "."%char s;
  '(ms, s) ← read_digits 3 0 s; s ← read_char "Z"%char s;
  let day := days_from_civil y m d in
  if decide (s = "" ∧ civil_from_days day = (y, m, d)
             ∧ (hh < 24)%Z ∧ (mm < 60)%Z ∧ (ss < 60)%Z) then
    Some (day * ms_per_day + hh * 3600000 + mm * 60000 + ss * 1000 + ms)%Z
  else None.

Definition date_parse (s : string) : Date := mkDate (parse_iso s).

Definition host : Host :=
  {| Number_toString := number_toString;
     Date_toISOString := date_toISOString;
     Date_parse := date_parse |}.
End ExampleHost.

(** ** Notions used in the statements *)

Section Notions.
Context {host : Host}.

(** The fields of the instance a validator tree is rooted at. *)
Definition root_isOptional (v : validator) : bool :=
  match v with
  | StringValidator this => isOptional this
  | NumberValidator this => isOptional this
  | BooleanValidator this => isOptional this
  | DateValidator this => isOptional this
  | ArrayValidator _ this => isOptional this
  | ObjectValidator _ this => isOptional this
  end.

Definition root_ownValidate (v : validator) : bool :=
  match v with
  | StringValidator this => ownValidate this
  | NumberValidator this => ownValidate this
  | BooleanValidator this => ownValidate this
  | DateValidator this => ownValidate this
  | ArrayValidator _ this => ownValidate this
  | ObjectValidator _ this => ownValidate this
  end.

(** The message each class's [validateType] falls back to. *)
Definition default_type_message (v : validator) : string :=
  match v with
  | StringValidator _ => "Value must be a string"
  | NumberValidator _ => "Value must be a valid number"
  | BooleanValidator _ => "Value must be a boolean"
  | DateValidator _ =>
      "Value must be a valid Date object or an ISO date string"
  | ArrayValidator _ _ => "Value must be an array"
  | ObjectValidator _ _ => "Value must be an object"
  end.


(** The error value both container classes build around their [errors]
    record. *)
Definition aggregate (message : string) (errors : obj ErrorValue) :
    ErrorValue :=
  ERecord [("message", EString message); ("errors", ERecord errors)].

(** What the loop of [ArrayValidator.validate] collects, item by item: the
    data of the items that pass, and the errors of those that fail under the
    key of their index. *)
Fixpoint validated_items (itemValidate : value -> ValidationResult value)
    (items : list value) : list value :=
  match items with
  | [] => []
  | item :: rest =>
      match itemValidate item with
      | Success data => data :: validated_items itemValidate rest
      | Failure _ => validated_items itemValidate rest
      end
  end.

Fixpoint failing_items (itemValidate : value -> ValidationResult value)
    (items : list value) (i : nat) : obj ErrorValue :=
  match items with
  | [] => []
  | item :: rest =>
      match itemValidate item with
      | Success _ => failing_items itemValidate rest (S i)
      | Failure e => (pretty i, e) :: failing_items itemValidate rest (S i)
      end
  end.

(** The same for the loop of [ObjectValidator.validate]: the fields that
    pass with data other than [undefined], and the errors of those that
    fail. *)
Fixpoint validated_fields
    (schema : list (string * (value -> ValidationResult value)))
    (objectValue : value) : obj value :=
  match schema with
  | [] => []
  | (key, validatorValidate) :: rest =>
      match validatorValidate (prop_get objectValue key) with
      | Success VUndefined => validated_fields rest objectValue
      | Success data => (key, data) :: validated_fields rest objectValue
      | Failure _ => validated_fields rest objectValue
      end
  end.

Fixpoint failing_fields
    (schema : list (string * (value -> ValidationResult value)))
    (objectValue : value) : obj ErrorValue :=
  match schema with
  | [] => []
  | (key, validatorValidate) :: rest =>
      match validatorValidate (prop_get objectValue key) with
      | Success _ => failing_fields rest objectValue
      | Failure e => (key, e) :: failing_fields rest objectValue
      end
  end.

(** The schema as [ObjectValidator.validate] uses it: each key with the call
    [validator.validate]. *)
Definition schema_calls (schema : obj validator) :
    list (string * (value -> ValidationResult value)) :=
  map (fun field => (fst field, validate (snd field))) schema.

(** The rules the public methods of [ArrayValidator] can attach. *)
Definition ArrayValidator_rule (rule : ValidationRule (list value)) : Prop :=
  (exists length message, rule = ArrayValidator_minLength_rule length message)
  \/ (exists length message,
        rule = ArrayValidator_maxLength_rule length message).

(** Validator trees as the library's interface builds them: an array
    validator carries length rules only, an object validator carries no
    rule (the class has no rule method) and its schema, a JavaScript
    object, has each key once. *)
Inductive well_formed : validator -> Prop :=
| wf_string this : well_formed (StringValidator this)
| wf_number this : well_formed (NumberValidator this)
| wf_boolean this : well_formed (BooleanValidator this)
| wf_date this : well_formed (DateValidator this)
| wf_array itemValidator this :
    well_formed itemValidator ->
    Forall ArrayValidator_rule (rules this) ->
    well_formed (ArrayValidator itemValidator this)
| wf_object schema this :
    NoDup (obj_keys schema) ->
    Forall (fun field => well_formed (snd field)) schema ->
    rules this = [] ->
    well_formed (ObjectValidator schema this).

(** No key of a schema in the tree is one of [names]. *)
Fixpoint keys_avoid (names : list string) (v : validator) : bool :=
  match v with
  | ArrayValidator itemValidator _ => keys_avoid names itemValidator
  | ObjectValidator schema _ =>
      forallb (fun field =>
                 bool_decide (fst field ∉ names)
                 && keys_avoid names (snd field)) schema
  | _ => true
  end.


(** The validators the library's interface builds: the factory of
    [Schema.ts], then any sequence of configuration calls. A schema is an
    object literal, so its keys differ. *)
Inductive built : validator -> Prop :=
| built_string : built Schema_string
| built_number : built Schema_number
| built_boolean : built Schema_boolean
| built_date : built Schema_date
| built_array itemValidator :
    built itemValidator -> built (Schema_array itemValidator)
| built_object schema :
    NoDup (obj_keys schema) ->
    Forall (fun field => built (snd field)) schema ->
    built (Schema_object schema)
| built_optional v : built v -> built (optional v)
| built_withMessage v message : built v -> built (withMessage v message)
| built_string_minLength this length message :
    built (StringValidator this) ->
    built (StringValidator (StringValidator_minLength this length message))
| built_string_maxLength this length message :
    built (StringValidator this) ->
    built (StringValidator (StringValidator_maxLength this length message))
| built_string_pattern this pattern message :
    built (StringValidator this) ->
    built (StringValidator (StringValidator_pattern this pattern message))
| built_number_min this bound message :
    built (NumberValidator this) ->
    built (NumberValidator (NumberValidator_min this bound message))
| built_number_max this bound message :
    built (NumberValidator this) ->
    built (NumberValidator (NumberValidator_max this bound message))
| built_date_min this date message :
    built (DateValidator this) ->
    built (DateValidator (DateValidator_min this date message))
| built_date_max this date message :
    built (DateValidator this) ->
    built (DateValidator (DateValidator_max this date message))
| built_array_minLength itemValidator this length message :
    built (ArrayValidator itemValidator this) ->
    built (ArrayValidator itemValidator
             (ArrayValidator_minLength this length message))
| built_array_maxLength itemValidator this length message :
    built (ArrayValidator itemValidator this) ->
    built (ArrayValidator itemValidator
             (ArrayValidator_maxLength this length message)).
End Notions.

(** ** Validators and inputs of the examples *)

Module Examples.
Section Examples.
Context {host : Host}.

Definition num (z : Z) : value := VNumber (number_of_Z z).

(** [array(number().min(0))] and [[1, -2, 3, -4]]. *)
Definition array_of_nonnegative : validator :=
  Schema_array
    (NumberValidator (NumberValidator_min BaseValidator_new (number_of_Z 0) None)).

Definition one_to_four : value := VArray [num 1; num (-2); num 3; num (-4)].

(** [object({name: string(), age: number().optional()})]. *)
Definition person : validator :=
  Schema_object [("name", Schema_string); ("age", optional Schema_number)].



(** [number().min(5).max(3)]. *)
Definition inverted_range : validator :=
  NumberValidator
    (NumberValidator_max
       (NumberValidator_min BaseValidator_new (number_of_Z 5) None)
       (number_of_Z 3) None).

(** [date().min(future, 'too early').max(past, 'too late')] of
    [DateValidator.ts], for 2025-01-01 and 2024-01-01. *)
Definition future : Date := mkDate (Some 1735689600000%Z).
Definition past : Date := mkDate (Some 1704067200000%Z).

Definition inverted_dates : validator :=
  DateValidator
    (DateValidator_max
       (DateValidator_min BaseValidator_new future (Some "too early"))
       past (Some "too late")).

(** [v1 = string().minLength(3)] and [v2 = v1.maxLength(5)] on the store,
    starting from the empty store: the final store with the three
    instances. *)
Definition chain : option (Store.store string unit * (nat * nat * nat)) :=
  '(h, v0) ← Store.construct tt None [];
  '(h, v1) ← Store.addRule
               (StringValidator_minLength_rule (number_of_Z 3) None) v0 h;
  '(h, v2) ← Store.addRule
               (StringValidator_maxLength_rule (number_of_Z 5) None) v1 h;
  Some (h, (v0, v1, v2)).


End Examples.
End Examples.

(** ** The builder version of schema.ts

    A third implementation of the library, in one file, which the tests
    with string errors exercise: every validator keeps its constraints in
    fields, a configuration method assigns a field of the receiver and
    returns the receiver, and [optional] wraps the receiver in an
    [OptionalValidator]. An error is a string. A validator is given here by
    the fields [validate] reads when it is called, with the validators it
    holds. *)
Module Builders.
(** [ValidationResult<T>] with [error?: string]. *)
Inductive ValidationResult : Type :=
| Success (data : value)
| Failure (error : string).

Inductive validator : Type :=
| OptionalValidator (wrapped : validator)
| StringValidator (minLen maxLen : option number) (regex : option RegExp)
    (customMessage : option string)
| NumberValidator (minVal maxVal : option number)
    (customMessage : option string)
| BooleanValidator (customMessage : option string)
| DateValidator (minDate maxDate : option Date)
    (customMessage : option string)
| ArrayValidator (itemValidator : validator) (minLen maxLen : option number)
    (customMessage : option string)
| ObjectValidator (schema : obj validator) (customMessage : option string).

Section Validate.
Context {host : Host}.

(** The chain of [if (...) return] of a [validate] method for a lower and an
    upper bound that may be unset, followed by [rest]. *)
Definition check_bounds (size : number) (lower upper : option number)
    (tooLow tooHigh : number -> string) (rest : ValidationResult) :
    ValidationResult :=
  let check_upper :=
    match upper with
    | Some bound =>
        if number_gt size bound then Failure (tooHigh bound) else rest
    | None => rest
    end in
  match lower with
  | Some bound => if number_lt size bound then Failure (tooLow bound)
                  else check_upper
  | None => check_upper
  end.

(** The loop of [ArrayValidator.validate] from index [i] on: it returns at
    the first item that fails. *)
Fixpoint ArrayValidator_items (itemValidate : value -> ValidationResult)
    (customMessage : option string) (items : list value) (i : nat)
    (validatedItems : list value) : ValidationResult :=
  match items with
  | [] => Success (VArray validatedItems)
  | item :: rest =>
      match itemValidate item with
      | Failure e =>
          Failure (or_default customMessage
                     ("Array item at index " ++ pretty i ++ ": " ++ e))
      | Success data =>
          ArrayValidator_items itemValidate customMessage rest (S i)
            (validatedItems ++ [data])
      end
  end.

(** The loop of [ObjectValidator.validate] over [Object.entries(schema)]. *)
Fixpoint ObjectValidator_fields
    (schema : list (string * (value -> ValidationResult)))
    (customMessage : option string) (record : value)
    (validatedObject : obj value) : ValidationResult :=
  match schema with
  | [] => Success (VObject validatedObject)
  | (key, validatorValidate) :: rest =>
      match validatorValidate (prop_get record key) with
      | Failure e =>
          Failure (or_default customMessage
                     ("Object field '" ++ key ++ "': " ++ e))
      | Success data =>
          ObjectValidator_fields rest customMessage record
            (match data with
             | VUndefined => validatedObject
             | _ => obj_set key data validatedObject
             end)
      end
  end.

(** [DateValidator.validate] once [date] is the input or the [Date] made
    from the input string. *)
Definition DateValidator_check (minDate maxDate : option Date)
    (customMessage : option string) (date : Date) : ValidationResult :=
  if negb (date_valid date) then
    Failure (or_default customMessage "Value must be a valid date")
  else
    let check_max :=
      match maxDate with
      | Some bound =>
          if number_gt (getTime date) (getTime bound) then
            Failure (or_default customMessage
                       ("Date must be before " ++ Date_toISOString bound))
          else Success (VDate date)
      | None => Success (VDate date)
      end in
    match minDate with
    | Some bound =>
        if number_lt (getTime date) (getTime bound) then
          Failure (or_default customMessage
                     ("Date must be after " ++ Date_toISOString bound))
        else check_max
    | None => check_max
    end.

(** [v.validate(value)]. *)
Fixpoint validate (v : validator) (x : value) {struct v} : ValidationResult :=
  match v with
  | OptionalValidator wrapped =>
      if is_absent x then Success VUndefined else validate wrapped x
  | StringValidator minLen maxLen regex customMessage =>
      match x with
      | VString s =>
          check_bounds (string_length s) minLen maxLen
            (fun bound => or_default customMessage
               ("String must be at least " ++ Number_toString bound
                  ++ " characters long"))
            (fun bound => or_default customMessage
               ("String must be at most " ++ Number_toString bound
                  ++ " characters long"))
            match regex with
            | Some pattern =>
                if negb (test pattern s) then
                  Failure (or_default customMessage
                             "String does not match required pattern")
                else Success x
            | None => Success x
            end
      | _ => Failure (or_default customMessage "Value must be a string")
      end
  | NumberValidator minVal maxVal customMessage =>
      match x with
      | VNumber NaN =>
          Failure (or_default customMessage "Value must be a valid number")
      | VNumber n =>
          check_bounds n minVal maxVal
            (fun bound => or_default customMessage
               ("Number must be at least " ++ Number_toString bound))
            (fun bound => or_default customMessage
               ("Number must be at most " ++ Number_toString bound))
            (Success x)
      | _ => Failure (or_default customMessage "Value must be a valid number")
      end
  | BooleanValidator customMessage =>
      match x with
      | VBoolean _ => Success x
      | _ => Failure (or_default customMessage "Value must be a boolean")
      end
  | DateValidator minDate maxDate customMessage =>
      match x with
      | VDate d => DateValidator_check minDate maxDate customMessage d
      | VString s =>
          DateValidator_check minDate maxDate customMessage (Date_parse s)
      | _ => Failure (or_default customMessage "Value must be a valid date")
      end
  | ArrayValidator itemValidator minLen maxLen customMessage =>
      match x with
      | VArray items =>
          check_bounds (array_length items) minLen maxLen
            (fun bound => or_default customMessage
               ("Array must have at least " ++ Number_toString bound
                  ++ " items"))
            (fun bound => or_default customMessage
               ("Array must have at most " ++ Number_toString bound
                  ++ " items"))
            (ArrayValidator_items (validate itemValidator) customMessage
               items 0 [])
      | _ => Failure (or_default customMessage "Value must be an array")
      end
  | ObjectValidator schema customMessage =>
      match x with
      | VObject _ | VDate _ =>
          ObjectValidator_fields
            (map (fun field => (fst field, validate (snd field))) schema)
            customMessage x []
      | _ => Failure (or_default customMessage "Value must be an object")
      end
  end.
End Validate.

(** [v.optional()]: a wrapper around the receiver; on a wrapper, the
    receiver itself. *)
Definition optional (v : validator) : validator :=
  match v with
  | OptionalValidator _ => v
  | _ => OptionalValidator v
  end.

(** [v.withMessage(message)], as the fields are after the call: the
    validator's own [customMessage] is assigned; a wrapper passes the call
    on to the validator it wraps and wraps the result. *)
Fixpoint withMessage (v : validator) (message : string) : validator :=
  match v with
  | OptionalValidator wrapped => OptionalValidator (withMessage wrapped message)
  | StringValidator minLen maxLen regex _ =>
      StringValidator minLen maxLen regex (Some message)
  | NumberValidator minVal maxVal _ =>
      NumberValidator minVal maxVal (Some message)
  | BooleanValidator _ => BooleanValidator (Some message)
  | DateValidator minDate maxDate _ =>
      DateValidator minDate maxDate (Some message)
  | ArrayValidator itemValidator minLen maxLen _ =>
      ArrayValidator itemValidator minLen maxLen (Some message)
  | ObjectValidator schema _ => ObjectValidator schema (Some message)
  end.

(** The message [withMessage] set last, under any wrappers. *)
Fixpoint customMessage_of (v : validator) : option string :=
  match v with
  | OptionalValidator wrapped => customMessage_of wrapped
  | StringValidator _ _ _ customMessage => customMessage
  | NumberValidator _ _ customMessage => customMessage
  | BooleanValidator customMessage => customMessage
  | DateValidator _ _ customMessage => customMessage
  | ArrayValidator _ _ _ customMessage => customMessage
  | ObjectValidator _ customMessage => customMessage
  end.

Definition data_of (r : ValidationResult) : option value :=
  match r with
  | Success data => Some data
  | Failure _ => None
  end.
End Builders.

(** ** From the builder version to the modular implementation

    The validator of the modular implementation with the same constraints:
    a bound that is set becomes the rule of that bound, in the order in
    which the builder version's [validate] checks them, and the custom message
    becomes the message of the type check and of every rule. *)
Section ToModular.
Context {host : Host}.



End ToModular.


(** ** schema.ts: [validate] in the single-file implementation

    [BaseValidator] and the string, number and boolean validators of
    [schema.ts] are those of the modular files, and so are the type checks
    and the length rules of its array and object validators. Its date
    validator has a message of its own, and its two container validators
    return the record of the children's errors as the error itself, deciding
    by a flag [hasErrors] whether there is one. A date validator in a tree
    is given by the fields [validate] reads ([SchemaTs.base]). *)
Module SchemaTsValidate.
Section Validate.
Context {host : Host}.

Definition DateValidator_validateType (this : BaseValidator Date)
    (v : value) : ValidationResult Date :=
  let failure :=
    Failure (EString (or_default (baseErrorMessage this)
                        "Value must be a valid date")) in
  match v with
  | VDate d => if date_valid d then Success d else failure
  | VString s =>
      let date := Date_parse s in
      if date_valid date then Success date else failure
  | _ => failure
  end.

(** The [for] loop of [ArrayValidator.validate] from index [i] on, with its
    three accumulators. *)
Fixpoint ArrayValidator_items
    (itemValidate : value -> ValidationResult value)
    (items : list value) (i : nat)
    (validatedItems : list value) (errors : obj ErrorValue)
    (hasErrors : bool) : list value * obj ErrorValue * bool :=
  match items with
  | [] => (validatedItems, errors, hasErrors)
  | item :: rest =>
      match itemValidate item with
      | Success data =>
          ArrayValidator_items itemValidate rest (S i)
            (validatedItems ++ [data]) errors hasErrors
      | Failure e =>
          ArrayValidator_items itemValidate rest (S i)
            validatedItems (obj_set (pretty i) e errors) true
      end
  end.

Definition ArrayValidator_validate
    (itemValidate : value -> ValidationResult value)
    (this : BaseValidator (list value)) (v : value) :
    ValidationResult (list value) :=
  match BaseValidator_validate (ArrayValidator_validateType this) this v with
  | Failure e => Failure e
  | Success arrayValue =>
      let '(validatedItems, errors, hasErrors) :=
        ArrayValidator_items itemValidate arrayValue 0 [] [] false in
      if hasErrors then Failure (ERecord errors)
      else Success validatedItems
  end.

(** The [for ... in] loop of [ObjectValidator.validate] over the keys of the
    schema; [record] is the source's [obj]. *)
Fixpoint ObjectValidator_fields
    (schema : list (string * (value -> ValidationResult value)))
    (record : value)
    (validatedObject : obj value) (errors : obj ErrorValue)
    (hasErrors : bool) : obj value * obj ErrorValue * bool :=
  match schema with
  | [] => (validatedObject, errors, hasErrors)
  | (key, validatorValidate) :: rest =>
      match validatorValidate (prop_get record key) with
      | Success data =>
          ObjectValidator_fields rest record
            (match data with
             | VUndefined => validatedObject
             | _ => obj_set key data validatedObject
             end)
            errors hasErrors
      | Failure e =>
          ObjectValidator_fields rest record
            validatedObject (obj_set key e errors) true
      end
  end.

Definition ObjectValidator_validate
    (schema : list (string * (value -> ValidationResult value)))
    (this : BaseValidator value) (v : value) : ValidationResult value :=
  match BaseValidator_validate (ObjectValidator_validateType this) this v with
  | Failure e => Failure e
  | Success objectValue =>
      let '(validatedObject, errors, hasErrors) :=
        ObjectValidator_fields schema objectValue [] [] false in
      if hasErrors then Failure (ERecord errors)
      else Success (VObject validatedObject)
  end.

(** [v.validate(value)] for any validator of [schema.ts]. *)
Fixpoint validate (v : validator) (x : value) {struct v} :
    ValidationResult value :=
  match v with
  | StringValidator this =>
      call_validate this
        (fun x => result_map VString
           (BaseValidator_validate (StringValidator_validateType this) this x))
        x
  | NumberValidator this =>
      call_validate this
        (fun x => result_map VNumber
           (BaseValidator_validate (NumberValidator_validateType this) this x))
        x
  | BooleanValidator this =>
      call_validate this
        (fun x => result_map VBoolean
           (BaseValidator_validate (BooleanValidator_validateType this) this x))
        x
  | DateValidator this =>
      call_validate this
        (fun x => result_map VDate
           (BaseValidator_validate (DateValidator_validateType this) this x))
        x
  | ArrayValidator itemValidator this =>
      call_validate this
        (fun x => result_map VArray
           (ArrayValidator_validate (validate itemValidator) this x))
        x
  | ObjectValidator schema this =>
      call_validate this
        (ObjectValidator_validate
           (map (fun field => (fst field, validate (snd field))) schema)
           this)
        x
  end.
End Validate.
End SchemaTsValidate.

(** ** Fluent chains on the object store *)

(** A chain [this.c1(...).c2(...)...]: each method is called on the instance
    the call before it returned. *)
Fixpoint configure_all {T X : Type} (cs : list (Store.config T))
    (this : Store.loc) (h : Store.store T X) :
    option (Store.store T X * Store.loc) :=
  match cs with
  | [] => Some (h, this)
  | c :: rest =>
      '(h, newValidator) ← Store.configure c this h;
      configure_all rest newValidator h
  end.

(** A factory method of [Schema.ts] followed by a chain: the factory calls
    the constructor without [other]. *)
Definition factory_chain {T X : Type} (params : X)
    (cs : list (Store.config T)) (h : Store.store T X) :
    option (Store.store T X * Store.loc) :=
  '(h, this) ← Store.construct params None h;
  configure_all cs this h.

(** ** Notions used in the further properties *)

Section FurtherNotions.
Context {host : Host}.

Definition root_baseErrorMessage (v : validator) : option string :=
  match v with
  | StringValidator this => baseErrorMessage this
  | NumberValidator this => baseErrorMessage this
  | BooleanValidator this => baseErrorMessage this
  | DateValidator this => baseErrorMessage this
  | ArrayValidator _ this => baseErrorMessage this
  | ObjectValidator _ this => baseErrorMessage this
  end.

(** Whether the type check of a validator's class accepts a value. *)
Definition type_accepts (v : validator) (x : value) : bool :=
  match v with
  | StringValidator this => is_success (StringValidator_validateType this x)
  | NumberValidator this => is_success (NumberValidator_validateType this x)
  | BooleanValidator this => is_success (BooleanValidator_validateType this x)
  | DateValidator this => is_success (DateValidator_validateType this x)
  | ArrayValidator _ this => is_success (ArrayValidator_validateType this x)
  | ObjectValidator _ this => is_success (ObjectValidator_validateType this x)
  end.

(** [result.data] when there is one. *)
Definition data_of {T : Type} (r : ValidationResult T) : option T :=
  match r with
  | Success data => Some data
  | Failure _ => None
  end.

(** [result.error] rewritten by [f]. *)
Definition map_error {T : Type} (f : ErrorValue -> ErrorValue)
    (r : ValidationResult T) : ValidationResult T :=
  match r with
  | Success data => Success data
  | Failure e => Failure (f e)
  end.

(** An error of the modular container validators without the record
    [{ message, errors }] around the children's errors, at every level. *)
Fixpoint unwrap_errors (e : ErrorValue) : ErrorValue :=
  match e with
  | ERecord [(k1, _); (k2, ERecord errors)] =>
      if decide (k1 = "message" /\ k2 = "errors") then
        ERecord (map (fun entry => (fst entry, unwrap_errors (snd entry)))
                   errors)
      else e
  | _ => e
  end.

(** Validator trees without a date validator. *)
Fixpoint date_free (v : validator) : bool :=
  match v with
  | DateValidator _ => false
  | ArrayValidator itemValidator _ => date_free itemValidator
  | ObjectValidator schema _ =>
      forallb (fun field => date_free (snd field)) schema
  | _ => true
  end.

(** Two results that agree on success and on the data, with errors related
    by [E]. *)
Definition result_rel {T : Type} (E : ErrorValue -> ErrorValue -> Prop)
    (r1 r2 : ValidationResult T) : Prop :=
  match r1, r2 with
  | Success d1, Success d2 => d1 = d2
  | Failure e1, Failure e2 => E e1 e2
  | _, _ => False
  end.

(** Two records of errors with the same keys in the same order. *)
Definition entries_rel (E : ErrorValue -> ErrorValue -> Prop) :
    obj ErrorValue -> obj ErrorValue -> Prop :=
  Forall2 (fun entry1 entry2 =>
             fst entry1 = fst entry2 /\ E (snd entry1) (snd entry2)).

(** A rule that says why it fails: a failing result carries a message that
    is not empty. *)
Definition rule_reports {T : Type} (rule : ValidationRule T) : Prop :=
  forall t, success (rule t) = false ->
    exists m, error (rule t) = Some m /\ m <> "".

(** Validator trees all of whose rules report. *)
Inductive reporting : validator -> Prop :=
| reporting_string this :
    Forall rule_reports (rules this) -> reporting (StringValidator this)
| reporting_number this :
    Forall rule_reports (rules this) -> reporting (NumberValidator this)
| reporting_boolean this :
    Forall rule_reports (rules this) -> reporting (BooleanValidator this)
| reporting_date this :
    Forall rule_reports (rules this) -> reporting (DateValidator this)
| reporting_array itemValidator this :
    reporting itemValidator ->
    Forall rule_reports (rules this) ->
    reporting (ArrayValidator itemValidator this)
| reporting_object schema this :
    Forall (fun field => reporting (snd field)) schema ->
    Forall rule_reports (rules this) ->
    reporting (ObjectValidator schema this).

(** The two shapes of an error: a message, or the record of a container
    validator with the errors of its children, which have these shapes
    again. *)
Inductive error_shaped : ErrorValue -> Prop :=
| shaped_message m : m <> "" -> error_shaped (EString m)
| shaped_aggregate m errors :
    m <> "" -> errors <> [] ->
    Forall (fun entry => error_shaped (snd entry)) errors ->
    error_shaped (aggregate m errors).
End FurtherNotions.

(** * Properties *)

(** ** Records as association lists *)

Section ObjFacts.
Context {A : Type}.
Implicit Types (o : obj A) (k key : string).

Lemma obj_get_None key o : obj_get key o = None <-> key ∉ obj_keys o.
Proof.
  induction o as [|[k y] o IH]; simpl.
  - split; [intros _; apply not_elem_of_nil | done].
  - rewrite not_elem_of_cons. destruct (decide (k = key)) as [->|Hne].
    + split; [done | intros [? _]; done].
    + rewrite IH. split; [intros ?; split; [done | done] | intros [_ ?]; done].
Qed.

(** Assigning a property the record does not have appends it. *)
Lemma obj_set_fresh key (x : A) o :
  key ∉ obj_keys o -> obj_set key x o = o ++ [(key, x)].
Proof.
  induction o as [|[k y] o IH]; simpl; [done|].
  rewrite not_elem_of_cons. intros [Hne Hnin].
  rewrite decide_False by done. by rewrite IH.
Qed.

End ObjFacts.

(** ** The two phases of [BaseValidator.validate] *)

Section BaseFacts.
Context {T : Type}.
Implicit Types (rs : list (ValidationRule T)) (t : T).



Lemma run_rules_find rs t :
  run_rules rs t =
    match first_failing rs t with
    | Some rule => Failure (error_of_rule (rule t))
    | None => Success t
    end.
Proof.
  unfold first_failing. induction rs as [|rule rs IH]; simpl; [done|].
  destruct (success (rule t)); simpl; auto.
Qed.

(** A successful run of the rules hands back the value it was given. *)
Lemma run_rules_Success rs t t' : run_rules rs t = Success t' -> t' = t.
Proof.
  induction rs as [|rule rs IH]; simpl.
  - by intros [= ->].
  - destruct (success (rule t)); [done | discriminate].
Qed.

Lemma BaseValidator_validate_Success
    (validateType : value -> ValidationResult T) (this : BaseValidator T)
    (x : value) t :
  BaseValidator_validate validateType this x = Success t
  <-> validateType x = Success t /\ run_rules (rules this) t = Success t.
Proof.
  unfold BaseValidator_validate. split.
  - destruct (validateType x) as [t0|e]; [|done].
    intros H. pose proof (run_rules_Success _ _ _ H) as ->. done.
  - intros [-> H]. done.
Qed.
End BaseFacts.


(** ** The order of numbers *)

Section NumberFacts.
Implicit Types (p q : Q).

Lemma Qlt_bool_iff p q : Qlt_bool p q = true <-> (p < q)%Q.
Proof.
  unfold Qlt_bool. rewrite negb_true_iff. split.
  - intros H. apply Qnot_le_lt. intros Hle.
    apply Qle_bool_iff in Hle. congruence.
  - intros H. destruct (Qle_bool q p) eqn:E; [|done].
    apply Qle_bool_iff in E. exfalso. by apply (Qlt_not_le p q).
Qed.

Lemma Qlt_bool_false p q : Qlt_bool p q = false <-> (q <= p)%Q.
Proof. unfold Qlt_bool. rewrite negb_false_iff. apply Qle_bool_iff. Qed.
End NumberFacts.

(** ** The base method, optional validators and the number range *)

Section Leaves.
Context {host : Host}.

(** C5. For every validator [v], whatever its class and its rules:
    [v.optional().validate(undefined)] and [v.optional().validate(null)]
    are success with [undefined] data, and for every input [x] other than
    [undefined] and [null], [v.optional().validate(x)] is [v.validate(x)].
    The last part is the wrapper that [optional] installs, as one equation
    on every input. *)
Theorem optional_accepts_absent (v : validator) :
  validate (optional v) VUndefined = Success VUndefined
  /\ validate (optional v) VNull = Success VUndefined
  /\ (forall x, x <> VUndefined -> x <> VNull ->
        validate (optional v) x = validate v x)
  /\ (forall x,
        validate (optional v) x
          = if is_absent x then Success VUndefined else validate v x).
Proof.
  assert (Hwrapper : forall x,
            validate (optional v) x
              = match x with
                | VUndefined | VNull => Success VUndefined
                | _ => validate v x
                end).
  { intros x.
    destruct v as [this|this|this|this|item this|schema this];
      destruct this as [rs io msg [|]]; destruct x; reflexivity. }
  split; [apply Hwrapper|]. split; [apply Hwrapper|]. split.
  - intros x Hundefined Hnull. rewrite Hwrapper. by destruct x.
  - intros x. rewrite Hwrapper. by destruct x.
Qed.

(** The class method of every class rejects absent input in its type
    check. *)
Lemma type_check_rejects_absent (v : validator) (x : value) :
  root_ownValidate v = false -> is_absent x = true ->
  validate v x
    = Failure (EString (or_default
                 match v with
                 | StringValidator this => baseErrorMessage this
                 | NumberValidator this => baseErrorMessage this
                 | BooleanValidator this => baseErrorMessage this
                 | DateValidator this => baseErrorMessage this
                 | ArrayValidator _ this => baseErrorMessage this
                 | ObjectValidator _ this => baseErrorMessage this
                 end (default_type_message v))).
Proof.
  destruct v as [this|this|this|this|item this|schema this];
    destruct this as [rs io msg own]; simpl; intros ->;
    destruct x; try discriminate; intros _; reflexivity.
Qed.

(** C10, amended. For every validator [v], message [m] and absent input
    [x] ([undefined] or [null]): [v.optional().withMessage(m)] still has
    [isOptional] set but no longer carries the property installed by
    [optional], and its [validate(x)] is the failure of the type check. The
    error is [m] when [m] is not the empty string; for the empty string,
    which [| |] treats like an absent message, it is the default message of
    the class. *)
Theorem optional_then_withMessage (v : validator) (m : string) (x : value) :
  is_absent x = true ->
  root_isOptional (withMessage (optional v) m) = true
  /\ root_ownValidate (withMessage (optional v) m) = false
  /\ validate (withMessage (optional v) m) x
     = Failure (EString (if decide (m = "") then default_type_message v
                         else m)).
Proof.
  intros Habs. split; [|split].
  - by destruct v.
  - by destruct v.
  - rewrite type_check_rejects_absent; [|by destruct v|done].
    by destruct v.
Qed.

(** C8, amended. The type check of every number validator rejects
    everything that is not a finite number, [NaN] and the two infinities
    included. For [number().min(a).max(b)] with finite bounds [a <= b]
    (after an optional [withMessage], and with or without messages for the
    two rules): [a], [b] and every number between them validate to
    themselves; every finite number below [a] fails with the message of the
    [min] rule and every finite number above [b] with the message of the
    [max] rule. *)
Theorem number_range (bm ma mb : option string) (a b : Q) :
  (a <= b)%Q ->
  let this0 : BaseValidator number :=
    {| rules := []; isOptional := false; baseErrorMessage := bm;
       ownValidate := false |} in
  let v := NumberValidator
             (NumberValidator_max (NumberValidator_min this0 (Finite a) ma)
                (Finite b) mb) in
  (forall (this : BaseValidator number) x,
     (forall q, x <> VNumber (Finite q)) ->
     NumberValidator_validateType this x
       = Failure (EString (or_default (baseErrorMessage this)
                             "Value must be a valid number")))
  /\ (forall x, (forall q, x <> VNumber (Finite q)) ->
        validate v x
          = Failure (EString (or_default bm "Value must be a valid number")))
  /\ validate v (VNumber (Finite a)) = Success (VNumber (Finite a))
  /\ validate v (VNumber (Finite b)) = Success (VNumber (Finite b))
  /\ (forall q, (a <= q)%Q -> (q <= b)%Q ->
        validate v (VNumber (Finite q)) = Success (VNumber (Finite q)))
  /\ (forall q, (q < a)%Q ->
        validate v (VNumber (Finite q))
          = Failure (EString (or_default ma
              ("Number must be at least " ++ Number_toString (Finite a)))))
  /\ (forall q, (b < q)%Q ->
        validate v (VNumber (Finite q))
          = Failure (EString (or_default mb
              ("Number must be at most " ++ Number_toString (Finite b))))).
Proof.
  intros Hab this0 v.
  assert (Hin : forall q, (a <= q)%Q -> (q <= b)%Q ->
            validate v (VNumber (Finite q)) = Success (VNumber (Finite q))).
  { intros q Haq Hqb. cbn.
    unfold BaseValidator_validate; cbn.
    unfold NumberValidator_min_rule, NumberValidator_max_rule, number_gt; cbn.
    apply Qlt_bool_false in Haq, Hqb. by rewrite Haq, Hqb. }
  repeat split.
  - intros this x Hx. destruct x as [| | |[| | |q]| | | | |]; try reflexivity.
    by destruct (Hx q).
  - intros x Hx. destruct x as [| | |[| | |q]| | | | |]; try reflexivity.
    by destruct (Hx q).
  - apply Hin; [apply Qle_refl | done].
  - apply Hin; [done | apply Qle_refl].
  - exact Hin.
  - intros q Hq. cbn. unfold BaseValidator_validate; cbn.
    unfold NumberValidator_min_rule; cbn.
    apply Qlt_bool_iff in Hq. by rewrite Hq.
  - intros q Hq. cbn. unfold BaseValidator_validate; cbn.
    unfold NumberValidator_min_rule, NumberValidator_max_rule, number_gt; cbn.
    assert (Haq : (a <= q)%Q).
    { apply Qlt_le_weak. eapply Qle_lt_trans; eauto. }
    apply Qlt_bool_false in Haq. apply Qlt_bool_iff in Hq.
    by rewrite Haq, Hq.
Qed.
End Leaves.

(** ** The loops of the container validators *)

Section ArrayLoop.
Implicit Types (f : value -> ValidationResult value) (items : list value).

(** The loop of [ArrayValidator.validate], started on accumulators whose
    error keys are indices already passed, appends what [validated_items]
    and [failing_items] list. *)
Lemma ArrayValidator_items_spec f items i validatedArray errors :
  Forall (fun k => exists j, (j < i)%nat /\ k = pretty j) (obj_keys errors) ->
  ArrayValidator_items f items i validatedArray errors
    = (validatedArray ++ validated_items f items,
       errors ++ failing_items f items i).
Proof.
  revert i validatedArray errors.
  induction items as [|item rest IH]; intros i va errs Hkeys; simpl.
  - by rewrite !app_nil_r.
  - destruct (f item) as [data|e].
    + rewrite IH.
      * by rewrite <- app_assoc.
      * eapply Forall_impl; [exact Hkeys|].
        intros k (j & Hj & ->). exists j. split; [lia | done].
    + assert (Hfresh : pretty i ∉ obj_keys errs).
      { intros Hin. rewrite Forall_forall in Hkeys.
        destruct (Hkeys _ Hin) as (j & Hj & Heq).
        apply (inj pretty) in Heq. lia. }
      rewrite obj_set_fresh by done. rewrite IH.
      * by rewrite <- app_assoc.
      * unfold obj_keys. rewrite map_app, Forall_app. split.
        -- eapply Forall_impl; [exact Hkeys|].
           intros k (j & Hj & ->). exists j. split; [lia | done].
        -- repeat constructor. exists i. split; [lia | done].
Qed.


Lemma failing_items_nil f items i0 :
  failing_items f items i0 = []
  <-> Forall (fun item => is_success (f item) = true) items.
Proof.
  revert i0. induction items as [|item rest IH]; intros i0; simpl.
  - split; [constructor | done].
  - destruct (f item) eqn:Hf.
    + rewrite IH. split.
      * intros H. constructor; [by rewrite Hf | done].
      * by inversion 1.
    + split; [done | inversion 1; subst]. rewrite Hf in *. done.
Qed.
End ArrayLoop.

Section ObjectLoop.
Implicit Types (schema : list (string * (value -> ValidationResult value))).

(** The loop of [ObjectValidator.validate] over a schema whose keys differ
    from each other and from those already in the accumulators. *)
Lemma ObjectValidator_fields_spec schema o validatedObject errors :
  NoDup (map fst schema) ->
  Forall (fun k => (k ∉ obj_keys validatedObject) /\ (k ∉ obj_keys errors))
    (map fst schema) ->
  ObjectValidator_fields schema o validatedObject errors
    = (validatedObject ++ validated_fields schema o,
       errors ++ failing_fields schema o).
Proof.
  revert validatedObject errors.
  induction schema as [|[key f] rest IH]; intros vo errs Hnd Hfresh; simpl.
  - by rewrite !app_nil_r.
  - simpl in Hnd, Hfresh. apply NoDup_cons in Hnd as [Hkey Hnd].
    apply Forall_cons in Hfresh as [[Hvo Herr] Hfresh].
    destruct (f (prop_get o key)) as [data|e].
    + assert (Hstep : forall vo',
                (vo' = vo \/ vo' = vo ++ [(key, data)]) ->
                Forall (fun k => (k ∉ obj_keys vo') /\ (k ∉ obj_keys errs))
                  (map fst rest)).
      { intros vo' Hvo'. rewrite Forall_forall in Hfresh.
        apply Forall_forall. intros k Hk. destruct (Hfresh k Hk) as [H1 H2].
        split; [|done]. destruct Hvo' as [->| ->]; [done|].
        unfold obj_keys. rewrite map_app, elem_of_app. simpl.
        intros [?|Hin]; [done|]. apply list_elem_of_singleton in Hin.
        subst. done. }
      destruct data; try (rewrite obj_set_fresh by done; rewrite IH;
        [by rewrite <- app_assoc | done | apply Hstep; by right]).
      rewrite IH; [done | done | apply Hstep; by left].
    + rewrite obj_set_fresh by done. rewrite IH; [by rewrite <- app_assoc|done|].
      rewrite Forall_forall in Hfresh. apply Forall_forall. intros k Hk.
      destruct (Hfresh k Hk) as [H1 H2]. split; [done|].
      unfold obj_keys. rewrite map_app, elem_of_app. simpl.
      intros [?|Hin]; [done|]. apply list_elem_of_singleton in Hin.
      subst. done.
Qed.

Lemma failing_fields_keys schema o k :
  k ∈ obj_keys (failing_fields schema o) -> k ∈ map fst schema.
Proof.
  induction schema as [|[key f] rest IH]; simpl; [done|].
  destruct (f (prop_get o key)); simpl; rewrite !elem_of_cons; tauto.
Qed.

Lemma validated_fields_keys schema o k :
  k ∈ obj_keys (validated_fields schema o) -> k ∈ map fst schema.
Proof.
  induction schema as [|[key f] rest IH]; simpl; [done|].
  destruct (f (prop_get o key)) as [[]|]; simpl; rewrite !elem_of_cons;
    tauto.
Qed.

Lemma failing_fields_get schema o k e :
  NoDup (map fst schema) ->
  obj_get k (failing_fields schema o) = Some e
  <-> exists f, obj_get k schema = Some f /\ f (prop_get o k) = Failure e.
Proof.
  induction schema as [|[key f] rest IH]; simpl; intros Hnd.
  - split; [done | intros (f & ? & _); done].
  - apply NoDup_cons in Hnd as [Hkey Hnd].
    destruct (decide (key = k)) as [->|Hne].
    + destruct (f (prop_get o k)) as [data|e0] eqn:Hf; simpl.
      * split.
        -- intros Hget. exfalso. apply Hkey.
           apply (failing_fields_keys rest o).
           apply dec_stable. intros Hnin. apply obj_get_None in Hnin.
           congruence.
        -- intros (f' & [= <-] & Hfail). congruence.
      * rewrite decide_True by done. split.
        -- intros [= <-]. eauto.
        -- intros (f' & [= <-] & Hfail). congruence.
    + destruct (f (prop_get o key)) as [data|e0]; simpl;
        rewrite ?decide_False by done; by apply IH.
Qed.

Lemma validated_fields_get schema o k d :
  NoDup (map fst schema) ->
  obj_get k (validated_fields schema o) = Some d
  <-> exists f, obj_get k schema = Some f /\ f (prop_get o k) = Success d
                /\ d <> VUndefined.
Proof.
  induction schema as [|[key f] rest IH]; simpl; intros Hnd.
  - split; [done | intros (f & ? & _); done].
  - apply NoDup_cons in Hnd as [Hkey Hnd].
    destruct (decide (key = k)) as [->|Hne].
    + assert (Hnone : obj_get k (validated_fields rest o) = None).
      { apply obj_get_None. intros Hin. apply Hkey.
        by apply (validated_fields_keys rest o). }
      destruct (f (prop_get o k)) as [data|e0] eqn:Hf; simpl.
      * destruct data; simpl; rewrite ?decide_True by done;
          try (split; [intros [= <-]; eexists; split; [done|]; split; done
                      | intros (f' & [= <-] & Hs & _); congruence]).
        rewrite Hnone. split; [done|].
        intros (f' & [= <-] & Hs & Hd). congruence.
      * rewrite Hnone. split; [done|].
        intros (f' & [= <-] & Hs & _). congruence.
    + destruct (f (prop_get o key)) as [[]|e0]; simpl;
        rewrite ?decide_False by done; by apply IH.
Qed.

End ObjectLoop.

(** ** Array and object validators *)

Section Containers.
Context {host : Host}.

Lemma schema_calls_keys (schema : obj validator) :
  map fst (schema_calls schema) = obj_keys schema.
Proof.
  unfold schema_calls, obj_keys. rewrite map_map. by apply map_ext.
Qed.

Lemma schema_calls_get (schema : obj validator) k :
  obj_get k (schema_calls schema) = validate <$> obj_get k schema.
Proof.
  induction schema as [|[key v] rest IH]; simpl; [done|].
  destruct (decide (key = k)); done.
Qed.

(** [validate] of an array validator once the type check and the length
    rules have passed. *)
Lemma array_validate_spec itemValidator this x items :
  BaseValidator_validate (ArrayValidator_validateType this) this x
    = Success items ->
  validate (ArrayValidator itemValidator this) x
    = match failing_items (validate itemValidator) items 0 with
      | [] => Success (VArray (validated_items (validate itemValidator) items))
      | errors => Failure (aggregate "Array contains invalid items" errors)
      end.
Proof.
  intros Hbase. pose proof Hbase as [Htype _]%BaseValidator_validate_Success.
  destruct x; try discriminate. injection Htype as ->.
  cbn [validate]. unfold call_validate, is_absent.
  assert (Hclass :
    result_map VArray
      (ArrayValidator_validate (validate itemValidator) this (VArray items))
    = match failing_items (validate itemValidator) items 0 with
      | [] => Success (VArray (validated_items (validate itemValidator) items))
      | errors => Failure (aggregate "Array contains invalid items" errors)
      end).
  { unfold ArrayValidator_validate. rewrite Hbase.
    rewrite ArrayValidator_items_spec by constructor. simpl.
    by destruct (failing_items (validate itemValidator) items 0). }
  by destruct (ownValidate this).
Qed.

(** [validate] of an object validator once the type check has passed. *)
Lemma object_validate_spec schema this x objectValue :
  NoDup (obj_keys schema) ->
  BaseValidator_validate (ObjectValidator_validateType this) this x
    = Success objectValue ->
  validate (ObjectValidator schema this) x
    = match failing_fields (schema_calls schema) objectValue with
      | [] => Success (VObject
                (validated_fields (schema_calls schema) objectValue))
      | errors => Failure (aggregate "Object validation failed" errors)
      end.
Proof.
  intros Hnd Hbase.
  pose proof Hbase as [Htype _]%BaseValidator_validate_Success.
  assert (Habs : is_absent x = false) by (by destruct x).
  cbn [validate]. unfold call_validate. rewrite Habs.
  fold (schema_calls schema).
  assert (Hclass :
    ObjectValidator_validate (schema_calls schema) this x
    = match failing_fields (schema_calls schema) objectValue with
      | [] => Success (VObject
                (validated_fields (schema_calls schema) objectValue))
      | errors => Failure (aggregate "Object validation failed" errors)
      end).
  { unfold ObjectValidator_validate. rewrite Hbase.
    rewrite ObjectValidator_fields_spec.
    - simpl. by destruct (failing_fields (schema_calls schema) objectValue).
    - by rewrite schema_calls_keys.
    - apply Forall_forall. intros k _. split; apply not_elem_of_nil. }
  by destruct (ownValidate this).
Qed.





End Containers.

(** ** Patterns with state *)

Section PatternState.
Context {host : Host}.
Implicit Types (r : RegExpState.RegExpObject) (s : string).


End PatternState.

(** ** Validating the data again *)

(** Induction over validator trees, with the fields of a schema as
    subtrees. *)
Lemma validator_nested_ind (P : validator -> Prop) :
  (forall this, P (StringValidator this)) ->
  (forall this, P (NumberValidator this)) ->
  (forall this, P (BooleanValidator this)) ->
  (forall this, P (DateValidator this)) ->
  (forall itemValidator this, P itemValidator ->
     P (ArrayValidator itemValidator this)) ->
  (forall schema this, Forall (fun field => P (snd field)) schema ->
     P (ObjectValidator schema this)) ->
  forall v, P v.
Proof.
  intros Hs Hn Hb Hd Ha Ho.
  fix IH 1. intros [this|this|this|this|itemValidator this|schema this].
  - apply Hs.
  - apply Hn.
  - apply Hb.
  - apply Hd.
  - apply Ha, IH.
  - apply Ho. induction schema as [|[key v] rest IHrest]; constructor.
    + apply IH.
    + apply IHrest.
Qed.

(** Every validator of the interface is well formed. *)

Section Built.
Context {host : Host}.

Lemma well_formed_optional v : well_formed v -> well_formed (optional v).
Proof. destruct 1; simpl; by constructor. Qed.

Lemma well_formed_withMessage v m :
  well_formed v -> well_formed (withMessage v m).
Proof. destruct 1; simpl; by constructor. Qed.

Lemma well_formed_array_rule itemValidator this rule :
  ArrayValidator_rule rule ->
  well_formed (ArrayValidator itemValidator this) ->
  well_formed (ArrayValidator itemValidator (BaseValidator_addRule this rule)).
Proof.
  intros Hrule Hwf. inversion Hwf as [| | | |? ? Hitem Hrules|]; subst.
  constructor; [done|]. simpl. apply Forall_app. split; [done|].
  by constructor.
Qed.

Lemma built_well_formed : forall v, built v -> well_formed v.
Proof.
  fix IH 2. intros v [| | | |itemValidator Hitem|schema Hnd Hfields
    |v' Hv|v' m Hv|this l m Hv|this l m Hv|this p m Hv|this bnd m Hv
    |this bnd m Hv|this d m Hv|this d m Hv|item this l m Hv|item this l m Hv].
  - constructor.
  - constructor.
  - constructor.
  - constructor.
  - constructor; [by apply IH | constructor].
  - constructor; [done | | done]. clear Hnd.
    induction Hfields as [|field rest Hfield _ IHrest]; constructor.
    + by apply IH.
    + apply IHrest.
  - apply well_formed_optional, IH, Hv.
  - apply well_formed_withMessage, IH, Hv.
  - constructor.
  - constructor.
  - constructor.
  - constructor.
  - constructor.
  - constructor.
  - constructor.
  - apply well_formed_array_rule; [left; eauto | by apply IH].
  - apply well_formed_array_rule; [right; eauto | by apply IH].
Qed.
End Built.

Section RoundTrip.
Context {host : Host}.



Lemma validated_items_all f items :
  failing_items f items 0 = [] ->
  Forall2 (fun item d => f item = Success d) items (validated_items f items).
Proof.
  intros H%failing_items_nil. induction H as [|item rest Hitem _ IH]; simpl.
  - constructor.
  - destruct (f item) eqn:Hf; [|done]. by constructor.
Qed.


(** Validation through an instance, seen from its class method. *)
Lemma call_validate_Success {T} (this : BaseValidator T) classValidate x d :
  call_validate this classValidate x = Success d ->
  (ownValidate this = true /\ is_absent x = true /\ d = VUndefined)
  \/ classValidate x = Success d.
Proof.
  unfold call_validate. destruct (ownValidate this); [|by right].
  destruct (is_absent x); [|by right]. intros [= <-]. by left.
Qed.

Lemma call_validate_present {T} (this : BaseValidator T) classValidate x :
  is_absent x = false -> call_validate this classValidate x = classValidate x.
Proof. unfold call_validate. intros ->. by destruct (ownValidate this). Qed.


Lemma result_map_Success {T U} (f : T -> U) r d :
  result_map f r = Success d -> exists t, r = Success t /\ d = f t.
Proof. destruct r; [intros [= <-]; eauto | done]. Qed.







End RoundTrip.

(** ** The configuration methods on the object store *)

Section StoreFacts.
Context {T X : Type}.
Implicit Types (h : Store.store T X) (l this : Store.loc)
  (o : Store.instance X) (rs : list (ValidationRule T)).

Lemma read_instance_old h ext l :
  l < length h -> Store.read_instance (h ++ ext) l = Store.read_instance h l.
Proof. intros Hl. unfold Store.read_instance. by rewrite lookup_app_l. Qed.

Lemma read_rules_old h ext l :
  l < length h -> Store.read_rules (h ++ ext) l = Store.read_rules h l.
Proof. intros Hl. unfold Store.read_rules. by rewrite lookup_app_l. Qed.

Lemma read_instance_Some h l o :
  Store.read_instance h l = Some o -> h !! l = Some (Store.Instance o).
Proof.
  unfold Store.read_instance.
  destruct (h !! l) as [[rs|o']|]; try discriminate. by intros [= ->].
Qed.

Lemma read_rules_Some h l rs :
  Store.read_rules h l = Some rs -> h !! l = Some (Store.RulesArray rs).
Proof.
  unfold Store.read_rules.
  destruct (h !! l) as [[rs'|o]|]; try discriminate. by intros [= ->].
Qed.

(** [clone] allocates and initialises; it writes to no cell of the store it
    was given. *)
Lemma clone_shape h this o rs :
  Store.read_instance h this = Some o ->
  Store.read_rules h (Store.i_rules o) = Some rs ->
  Store.clone this h = Some (Store.cloned h o rs, length h + 1).
Proof.
  intros Ho Hrs.
  pose proof (lookup_lt_Some _ _ _ (read_instance_Some _ _ _ Ho)) as Hlt.
  pose proof (lookup_lt_Some _ _ _ (read_rules_Some _ _ _ Hrs)) as Hlt'.
  unfold Store.clone. rewrite Ho. simpl.
  unfold Store.construct, Store.alloc.
  rewrite <- app_assoc. simpl.
  rewrite read_instance_old by done. rewrite Ho. simpl.
  rewrite read_rules_old by done. rewrite Hrs. simpl.
  rewrite <- app_assoc. simpl.
  rewrite !length_app. simpl.
  unfold Store.assign, Store.read_instance.
  replace (length h + 1 + 1) with (length h + 2) by lia.
  rewrite lookup_app_r by lia.
  replace (length h + 1 - length h) with 1 by lia. simpl.
  rewrite insert_app_r_alt by lia.
  replace (length h + 1 - length h) with 1 by lia. simpl.
  rewrite lookup_app_r by lia.
  replace (length h + 1 - length h) with 1 by lia. simpl.
  rewrite insert_app_r_alt by lia.
  replace (length h + 1 - length h) with 1 by lia. simpl.
  done.
Qed.

(** The store a configuration method leaves: the cells of [clone], with the
    one write of the method in the new instance or in its rule array. *)
Lemma configure_shape (c : Store.config T) h this o rs :
  Store.read_instance h this = Some o ->
  Store.read_rules h (Store.i_rules o) = Some rs ->
  Store.configure c this h
  = Some (h ++ [Store.RulesArray [];
                Store.Instance
                  {| Store.i_rules := length h + 2;
                     Store.i_isOptional :=
                       match c with
                       | Store.Optional => true
                       | _ => Store.i_isOptional o
                       end;
                     Store.i_baseErrorMessage :=
                       match c with
                       | Store.WithMessage message => Some message
                       | _ => Store.i_baseErrorMessage o
                       end;
                     Store.i_validate :=
                       match c with
                       | Store.Optional => true
                       | _ => false
                       end;
                     Store.i_params := Store.i_params o |};
                Store.RulesArray
                  match c with
                  | Store.AddRule rule => rs ++ [rule]
                  | _ => rs
                  end],
          length h + 1).
Proof.
  intros Ho Hrs.
  assert (Hnew : forall f,
    Store.read_instance
      (<[length h + 1 := Store.Instance f]> (Store.cloned h o rs))
      (length h + 1) = Some f).
  { intros f. unfold Store.read_instance, Store.cloned.
    rewrite insert_app_r_alt by lia. rewrite lookup_app_r by lia.
    replace (length h + 1 - length h) with 1 by lia. done. }
  assert (Hnew0 : Store.read_instance (Store.cloned h o rs) (length h + 1)
            = Some {| Store.i_rules := length h + 2;
                      Store.i_isOptional := Store.i_isOptional o;
                      Store.i_baseErrorMessage := Store.i_baseErrorMessage o;
                      Store.i_validate := false;
                      Store.i_params := Store.i_params o |}).
  { unfold Store.read_instance, Store.cloned. rewrite lookup_app_r by lia.
    replace (length h + 1 - length h) with 1 by lia. done. }
  destruct c as [rule| |message]; simpl;
    unfold Store.addRule, Store.optional, Store.withMessage;
    rewrite (clone_shape _ _ _ _ Ho Hrs); simpl.
  - rewrite Hnew0. simpl. unfold Store.push, Store.read_rules, Store.cloned.
    rewrite lookup_app_r by lia.
    replace (length h + 2 - length h) with 2 by lia. simpl.
    rewrite insert_app_r_alt by lia.
    replace (length h + 2 - length h) with 2 by lia. done.
  - unfold Store.assign. rewrite Hnew0. simpl. rewrite Hnew. simpl.
    unfold Store.cloned. rewrite !insert_app_r_alt by lia.
    replace (length h + 1 - length h) with 1 by lia. done.
  - unfold Store.assign. rewrite Hnew0. simpl.
    unfold Store.cloned. rewrite !insert_app_r_alt by lia.
    replace (length h + 1 - length h) with 1 by lia. done.
Qed.

(** What a validator reads as is not changed by cells allocated later. *)
Lemma read_validator_old h ext l b params :
  Store.read_validator h l = Some (b, params) ->
  Store.read_validator (h ++ ext) l = Some (b, params).
Proof.
  unfold Store.read_validator.
  destruct (Store.read_instance h l) as [o|] eqn:Ho; [|done]. simpl.
  destruct (Store.read_rules h (Store.i_rules o)) as [rs|] eqn:Hrs; [|done].
  pose proof (lookup_lt_Some _ _ _ (read_instance_Some _ _ _ Ho)).
  pose proof (lookup_lt_Some _ _ _ (read_rules_Some _ _ _ Hrs)).
  rewrite read_instance_old by done. rewrite Ho. simpl.
  rewrite read_rules_old by done. by rewrite Hrs.
Qed.

Lemma configure_spec (c : Store.config T) h this b params :
  Store.read_validator h this = Some (b, params) ->
  exists h' newValidator,
    Store.configure c this h = Some (h', newValidator)
    /\ length h <= newValidator
    /\ (forall l, l < length h -> h' !! l = h !! l)
    /\ Store.read_validator h' this = Some (b, params)
    /\ Store.read_validator h' newValidator
       = Some (Store.configured c b, params).
Proof.
  intros Hread. pose proof Hread as Hread'.
  unfold Store.read_validator in Hread'.
  destruct (Store.read_instance h this) as [o|] eqn:Ho; [|done].
  simpl in Hread'.
  destruct (Store.read_rules h (Store.i_rules o)) as [rs|] eqn:Hrs; [|done].
  injection Hread' as <- <-.
  eexists _, _. split; [by apply configure_shape|].
  split; [lia|]. split; [|split].
  - intros l Hl. by rewrite lookup_app_l.
  - by apply read_validator_old.
  - unfold Store.read_validator, Store.read_instance, Store.read_rules.
    rewrite lookup_app_r by lia.
    replace (length h + 1 - length h) with 1 by lia. simpl.
    rewrite lookup_app_r by lia.
    replace (length h + 2 - length h) with 2 by lia. simpl.
    by destruct c.
Qed.
End StoreFacts.

(** ** Configuration: immutability and the date range *)

Section Configuration.
Context {host : Host}.

(** C4. On the object store, for an instance of any class: every
    configuration method ([optional], [withMessage], and [addRule] with the
    closure of [minLength], [maxLength], [pattern], [min] or [max]) returns
    a location that was not allocated before and leaves every cell of the
    store it was given as it was, so the receiver reads as the same
    validator afterwards, rules and configuration included; the new
    instance reads as the receiver with the method's change. After
    [v1 = string().minLength(3)] and [v2 = v1.maxLength(5)], [v1] and [v2]
    are two instances, [v1] holds the one rule of [minLength], [v2] holds
    both rules, and [v1.validate("ab")] fails with the message of
    [minLength]. *)
Theorem configuration_leaves_receiver_unchanged :
  (forall (T X : Type) (c : Store.config T) (h : Store.store T X)
          (this : Store.loc) (b : BaseValidator T) (params : X),
     Store.read_validator h this = Some (b, params) ->
     exists h' newValidator,
       Store.configure c this h = Some (h', newValidator)
       /\ length h <= newValidator
       /\ (forall l, l < length h -> h' !! l = h !! l)
       /\ Store.read_validator h' this = Some (b, params)
       /\ Store.read_validator h' newValidator
          = Some (Store.configured c b, params))
  /\ (exists h v0 v1 v2 b1 b2,
        Examples.chain = Some (h, (v0, v1, v2))
        /\ v1 <> v2
        /\ Store.read_validator h v1 = Some (b1, tt)
        /\ Store.read_validator h v2 = Some (b2, tt)
        /\ rules b1 = [StringValidator_minLength_rule (number_of_Z 3) None]
        /\ rules b2 = [StringValidator_minLength_rule (number_of_Z 3) None;
                       StringValidator_maxLength_rule (number_of_Z 5) None]
        /\ validate (StringValidator b1) (VString "ab")
           = Failure (EString ("String must be at least "
                                 ++ Number_toString (number_of_Z 3)
                                 ++ " characters long"))).
Proof.
  split.
  - intros T X c h this b params. apply configure_spec.
  - do 6 eexists. split; [reflexivity|]. split; [|repeat split].
    simpl. lia.
Qed.

(** The two date validators on a range whose minimum exceeds its maximum.
    That of [schema.ts] throws at the second call, in either order: after a
    [min] that returned, [max] with an earlier date throws "Min date cannot
    be after max date", and so does [min] with a later date after a [max]
    that returned; on a fresh [date()] the first of the two calls returns.
    That of [DateValidator.ts] has no such check: [min] and [max] append
    one rule each and return, and [date().min(a).max(b)] then rejects every
    input. *)
Lemma date_range_checks :
  (forall this minDate maxDate m1 m2 v,
     number_lt (getTime maxDate) (getTime minDate) = true ->
     (SchemaTs.min this minDate m1 = SchemaTs.Returned v ->
      SchemaTs.max v maxDate m2
        = SchemaTs.Thrown "Min date cannot be after max date")
     /\ (SchemaTs.max this maxDate m2 = SchemaTs.Returned v ->
         SchemaTs.min v minDate m1
           = SchemaTs.Thrown "Min date cannot be after max date"))
  /\ (forall minDate maxDate m1 m2,
        (exists v, SchemaTs.min SchemaTs.new minDate m1 = SchemaTs.Returned v)
        /\ (exists v, SchemaTs.max SchemaTs.new maxDate m2
                      = SchemaTs.Returned v))
  /\ (forall this minDate maxDate m1 m2,
        rules (DateValidator_max (DateValidator_min this minDate m1)
                 maxDate m2)
        = rules this ++ [DateValidator_min_rule minDate m1;
                         DateValidator_max_rule maxDate m2])
  /\ (forall minDate maxDate m1 m2 x,
        number_lt (getTime maxDate) (getTime minDate) = true ->
        is_success
          (validate
             (DateValidator
                (DateValidator_max
                   (DateValidator_min BaseValidator_new minDate m1)
                   maxDate m2)) x) = false).
Proof.
  split; [|split; [|split]].
  - intros this minDate maxDate m1 m2 v Hlt. split.
    + unfold SchemaTs.min. simpl.
      destruct (SchemaTs.maxDateVal this) as [[d m]|];
        [destruct (SchemaTs.date_lt d minDate)|]; try discriminate;
        intros [= <-]; unfold SchemaTs.max, SchemaTs.date_lt; simpl;
        by rewrite Hlt.
    + unfold SchemaTs.max. simpl.
      destruct (SchemaTs.minDateVal this) as [[d m]|];
        [destruct (SchemaTs.date_lt maxDate d)|]; try discriminate;
        intros [= <-]; unfold SchemaTs.min, SchemaTs.date_lt; simpl;
        by rewrite Hlt.
  - intros. split; eexists; reflexivity.
  - intros. simpl. by rewrite <- app_assoc.
  - intros minDate maxDate m1 m2 x Hlt. cbn.
    unfold BaseValidator_validate.
    destruct (DateValidator_validateType _ x) as [t|e] eqn:Hty; [|done].
    cbn. unfold DateValidator_min_rule, DateValidator_max_rule, number_gt.
    destruct (number_lt (getTime t) (getTime minDate)) eqn:Hmin; [done|].
    cbn.
    assert (number_lt (getTime maxDate) (getTime t) = true) as ->; [|done].
    revert Hlt Hmin. unfold getTime.
    assert (date_valid t = true) as Hvalid.
    { destruct x as [| | | |s|d0| | |]; try discriminate; simpl in Hty.
      - destruct (date_valid (Date_parse s)) eqn:E;
          [by injection Hty as <- | discriminate].
      - destruct (date_valid d0) eqn:E;
          [by injection Hty as <- | discriminate]. }
    unfold date_valid in Hvalid.
    destruct (time t) as [tt|]; [|done].
    destruct (time maxDate) as [tmax|], (time minDate) as [tmin|];
      simpl; try done.
    rewrite !Qlt_bool_iff, Qlt_bool_false. intros H1 H2.
    eapply Qlt_le_trans; eauto.
Qed.
End Configuration.

(** ** The examples, evaluated *)

Section Closed.
#[local] Existing Instance ExampleHost.host.



(** C2 at [date().min(future, 'too early').max(past, 'too late')], with
    2025-01-01 for [future] and 2024-01-01 for [past]. In
    [DateValidator.ts] both calls return: the result is a validator with
    the two rules, no call has failed, and the inverted range shows only
    when [validate] runs, which rejects every input. The same two calls on
    the date validator of [schema.ts] throw at [max]. *)
Lemma date_range_unchecked :
  number_lt (getTime Examples.past) (getTime Examples.future) = true
  /\ Schema_date = DateValidator BaseValidator_new
  /\ Examples.inverted_dates
     = DateValidator
         {| rules := [DateValidator_min_rule Examples.future
                        (Some "too early");
                      DateValidator_max_rule Examples.past
                        (Some "too late")];
            isOptional := false; baseErrorMessage := None;
            ownValidate := false |}
  /\ validate Examples.inverted_dates (VDate (mkDate (Some 1720000000000%Z)))
     = Failure (EString "too early")
  /\ validate Examples.inverted_dates (VDate Examples.future)
     = Failure (EString "too late")
  /\ validate Examples.inverted_dates (VDate Examples.past)
     = Failure (EString "too early")
  /\ (forall x, is_success (validate Examples.inverted_dates x) = false)
  /\ exists v,
       SchemaTs.min SchemaTs.new Examples.future (Some "too early")
         = SchemaTs.Returned v
       /\ SchemaTs.max v Examples.past (Some "too late")
          = SchemaTs.Thrown "Min date cannot be after max date".
Proof.
  split; [reflexivity|]. split; [reflexivity|]. split; [reflexivity|].
  split; [reflexivity|]. split; [reflexivity|]. split; [reflexivity|]. split.
  - intros x. by apply (proj2 (proj2 (proj2 date_range_checks))).
  - eexists. split; reflexivity.
Qed.

(** C8, as stated, fails when the bounds are inverted:
    [number().min(5).max(3).validate(5)] fails on the [max] rule. *)
Lemma number_range_counterexample :
  validate Examples.inverted_range (Examples.num 5)
    = Failure (EString "Number must be at most 3").
Proof. reflexivity. Qed.

(** The amended C8 for [number().min(0).max(10)] at its upper bound. *)
Lemma number_range_witness :
  (0 <= 10)%Q
  /\ validate
       (NumberValidator
          (NumberValidator_max
             (NumberValidator_min BaseValidator_new (Finite 0) None)
             (Finite 10) None))
       (VNumber (Finite 10))
     = Success (VNumber (Finite 10)).
Proof.
  assert (H : (0 <= 10)%Q) by (vm_compute; discriminate).
  split; [exact H|].
  exact (proj1 (proj2 (proj2 (proj2 (number_range None None None 0 10 H))))).
Defined.

(** C10, as stated, fails for the empty message:
    [string().optional().withMessage('').validate(null)] carries the default
    message of the class, not the empty string. *)
Lemma optional_then_withMessage_counterexample :
  validate (withMessage (optional Schema_string) "") VNull
    = Failure (EString "Value must be a string")
  /\ validate (withMessage (optional Schema_string) "") VNull
     <> Failure (EString "").
Proof. split; [reflexivity | discriminate]. Qed.

(** The amended C10 for [string().optional().withMessage('Required')]. *)
Lemma optional_then_withMessage_witness :
  is_absent VNull = true
  /\ validate (withMessage (optional Schema_string) "Required") VNull
     = Failure (EString "Required").
Proof.
  split; [reflexivity|].
  exact (proj2 (proj2
           (optional_then_withMessage Schema_string "Required" VNull eq_refl))).
Defined.

(** C5 at [string().minLength(3).optional()]: [undefined] and [null] are
    accepted with [undefined] data although the validator alone rejects
    both, the present input ["abcd"] is returned, and the present input
    ["ab"] fails on the rule. *)
Lemma optional_accepts_absent_witness :
  validate
    (optional
       (StringValidator
          (StringValidator_minLength BaseValidator_new (number_of_Z 3) None)))
    VUndefined = Success VUndefined
  /\ validate
       (optional
          (StringValidator
             (StringValidator_minLength BaseValidator_new (number_of_Z 3)
                None)))
       VNull = Success VUndefined
  /\ validate
       (StringValidator
          (StringValidator_minLength BaseValidator_new (number_of_Z 3) None))
       VNull = Failure (EString "Value must be a string")
  /\ validate
       (optional
          (StringValidator
             (StringValidator_minLength BaseValidator_new (number_of_Z 3)
                None)))
       (VString "abcd") = Success (VString "abcd")
  /\ validate
       (optional
          (StringValidator
             (StringValidator_minLength BaseValidator_new (number_of_Z 3)
                None)))
       (VString "ab")
     = Failure (EString "String must be at least 3 characters long").
Proof.
  pose proof (optional_accepts_absent
                (StringValidator
                   (StringValidator_minLength BaseValidator_new
                      (number_of_Z 3) None)))
    as (Hundefined & Hnull & Hpresent & _).
  split; [exact Hundefined|]. split; [exact Hnull|].
  split; [reflexivity|]. split.
  - exact (eq_trans (Hpresent (VString "abcd") ltac:(discriminate)
                       ltac:(discriminate)) eq_refl).
  - exact (eq_trans (Hpresent (VString "ab") ltac:(discriminate)
                       ltac:(discriminate)) eq_refl).
Defined.





(** C4 at the store holding [string()] alone, for [withMessage]. *)
Lemma configuration_witness :
  Store.read_validator (T := string) (X := unit)
    [Store.RulesArray [];
     Store.Instance
       {| Store.i_rules := 0; Store.i_isOptional := false;
          Store.i_baseErrorMessage := None; Store.i_validate := false;
          Store.i_params := tt |}] 1
    = Some (BaseValidator_new, tt)
  /\ exists (h' : Store.store string unit) newValidator,
       Store.configure (Store.WithMessage "Name is required") 1
         [Store.RulesArray [];
          Store.Instance
            {| Store.i_rules := 0; Store.i_isOptional := false;
               Store.i_baseErrorMessage := None; Store.i_validate := false;
               Store.i_params := tt |}]
       = Some (h', newValidator)
       /\ 2 <= newValidator
       /\ Store.read_validator h' 1 = Some (BaseValidator_new, tt)
       /\ Store.read_validator h' newValidator
          = Some (BaseValidator_withMessage BaseValidator_new
                    "Name is required", tt).
Proof.
  split; [reflexivity|].
  destruct (proj1 configuration_leaves_receiver_unchanged string unit
              (Store.WithMessage "Name is required")
              [Store.RulesArray [];
               Store.Instance
                 {| Store.i_rules := 0; Store.i_isOptional := false;
                    Store.i_baseErrorMessage := None;
                    Store.i_validate := false; Store.i_params := tt |}]
              1 BaseValidator_new tt eq_refl)
    as (h' & n & H1 & H2 & _ & H4 & H5).
  exists h', n. done.
Defined.


End Closed.

(** * Further properties

    What follows covers the code around the statements above: the rule
    methods of the string, date and array validators, how [optional],
    [withMessage] and the rule methods compose, the type checks, the shape
    of errors, fluent chains on the object store, [validate] of [schema.ts]
    against the modular one, and patterns with state. *)

(** ** Lengths and times as numbers *)

Section NumberOrder.
Lemma number_lt_nat (m n : nat) :
  number_lt (number_of_nat m) (number_of_nat n) = bool_decide (m < n)%nat.
Proof.
  unfold number_of_nat; simpl. case_bool_decide as H.
  - apply Qlt_bool_iff. rewrite <- Zlt_Qlt. lia.
  - apply Qlt_bool_false. rewrite <- Zle_Qle. lia.
Qed.

Lemma number_lt_Z (m n : Z) :
  number_lt (number_of_Z m) (number_of_Z n) = bool_decide (m < n)%Z.
Proof.
  unfold number_of_Z; simpl. case_bool_decide as H.
  - apply Qlt_bool_iff. rewrite <- Zlt_Qlt. lia.
  - apply Qlt_bool_false. rewrite <- Zle_Qle. lia.
Qed.
End NumberOrder.

(** ** Failures of the base method *)

Section Failures.
Context {T : Type}.

Lemma run_rules_Failure (rs : list (ValidationRule T)) t e :
  run_rules rs t = Failure e ->
  exists rule, rule ∈ rs /\ success (rule t) = false
               /\ e = error_of_rule (rule t).
Proof.
  induction rs as [|rule rs IH]; cbn; [done|].
  destruct (success (rule t)) eqn:E.
  - intros H. destruct (IH H) as (r & Hin & Hr). exists r.
    split; [by apply list_elem_of_further|done].
  - intros [= <-]. exists rule. split; [apply list_elem_of_here|done].
Qed.

Lemma run_rules_snoc (rs : list (ValidationRule T)) rule t :
  run_rules (rs ++ [rule]) t = Success t
  <-> run_rules rs t = Success t /\ success (rule t) = true.
Proof.
  induction rs as [|r rs IH]; cbn.
  - destruct (success (rule t)); [done|]. split; [done|by intros [_ ?]].
  - destruct (success (r t)); [done|]. split; [done|by intros [? _]].
Qed.

Lemma call_validate_Failure (this : BaseValidator T) classValidate x e :
  call_validate this classValidate x = Failure e -> classValidate x = Failure e.
Proof.
  unfold call_validate. destruct (ownValidate this); [|done].
  by destruct (is_absent x).
Qed.

Lemma result_map_Failure {U : Type} (f : T -> U) r e :
  result_map f r = Failure e -> r = Failure e.
Proof. destruct r; cbn; [done|by intros [= ->]]. Qed.

(** A failure of the base method is a rule's error or the type check's: it
    is never a record. *)
Lemma base_failure_message (validateType : value -> ValidationResult T)
    (this : BaseValidator T) x e :
  (forall e', validateType x = Failure e' -> exists m, e' = EString m) ->
  BaseValidator_validate validateType this x = Failure e ->
  forall fields, e <> ERecord fields.
Proof.
  intros Htype. unfold BaseValidator_validate.
  destruct (validateType x) as [t|e'] eqn:Et.
  - rewrite run_rules_find. destruct (first_failing (rules this) t) as [rule|];
      [|done].
    intros [= <-] fields. unfold error_of_rule. by destruct (error (rule t)).
  - intros [= <-] fields. destruct (Htype e') as [m ->]; done.
Qed.

(** The step from a validator to the one a rule method returns. *)
Lemma narrowed (inj : T -> value)
    (validateType validateType' : value -> ValidationResult T)
    (this : BaseValidator T) rule x d :
  (forall t, validateType' x = Success t -> validateType x = Success t) ->
  (forall t, validateType x = Success t -> is_absent x = false) ->
  result_map inj
    (BaseValidator_validate validateType' (BaseValidator_addRule this rule) x)
    = Success d ->
  call_validate this
    (fun y => result_map inj (BaseValidator_validate validateType this y)) x
    = Success d
  /\ exists t, validateType x = Success t /\ d = inj t
               /\ success (rule t) = true.
Proof.
  intros Htype Habsent H.
  apply result_map_Success in H as (t & H & ->).
  apply BaseValidator_validate_Success in H as [Ht Hrules].
  cbn in Hrules. apply run_rules_snoc in Hrules as [Hrules Hrule].
  apply Htype in Ht. split; [|by exists t].
  rewrite call_validate_present by (by eapply Habsent).
  assert (BaseValidator_validate validateType this x = Success t) as ->
    by (by apply BaseValidator_validate_Success).
  done.
Qed.
End Failures.

(** ** Rule methods, [optional] and [withMessage] on the leaf validators *)

Section Chains.
Context {host : Host}.

(** X1. [string().minLength(a).maxLength(b).pattern(p)] with natural
    numbers [a] and [b], whatever messages are given: a string shorter than
    [a] fails with the message of [minLength], otherwise one longer than
    [b] fails with the message of [maxLength], otherwise one the pattern
    does not match fails with the message of [pattern], and every other
    string is returned as it is; the checks are made in the order of the
    calls, so a length message takes precedence over the pattern's. Any
    input that is not a string, [null] and [undefined] included, fails
    with the type-check message. *)
Theorem string_chain (bm ma mb mp : option string) (a b : nat) (p : RegExp) :
  let this0 : BaseValidator string :=
    {| rules := []; isOptional := false; baseErrorMessage := bm;
       ownValidate := false |} in
  let v := StringValidator
             (StringValidator_pattern
                (StringValidator_maxLength
                   (StringValidator_minLength this0 (number_of_nat a) ma)
                   (number_of_nat b) mb) p mp) in
  (forall s,
     validate v (VString s)
       = if bool_decide (String.length s < a)%nat then
           Failure (EString (or_default ma
             ("String must be at least " ++ Number_toString (number_of_nat a)
                ++ " characters long")))
         else if bool_decide (b < String.length s)%nat then
           Failure (EString (or_default mb
             ("String must be at most " ++ Number_toString (number_of_nat b)
                ++ " characters long")))
         else if test p s then Success (VString s)
         else Failure (EString (or_default mp
                "String does not match required pattern")))
  /\ (forall x, (forall s, x <> VString s) ->
        validate v x
          = Failure (EString (or_default bm "Value must be a string"))).
Proof.
  intros this0 v. split.
  - intros s. cbn.
    unfold StringValidator_minLength_rule, StringValidator_maxLength_rule,
      StringValidator_pattern_rule, number_gt, string_length.
    rewrite !number_lt_nat.
    repeat case_bool_decide; cbn; try done.
    destruct (test p s); done.
  - intros x Hx. destruct x; cbn; try done. by destruct (Hx s).
Qed.

(** X2. [withMessage] changes the message of the type check and nothing
    else: on an input the type check of the class accepts, the validator
    [v.withMessage(m)] gives the result of [v], with the messages of the
    rules and of the children as they were; on any other input it fails
    with [m], or with the default message of the class when [m] is empty,
    whether or not [v] was optional. *)
Theorem withMessage_type_check_only (v : validator) (m : string) (x : value) :
  validate (withMessage v m) x
    = if type_accepts v x then validate v x
      else Failure (EString (or_default (Some m) (default_type_message v))).
Proof.
  destruct v as [this|this|this|this|item this|schema this];
    destruct x as [| |b|n|s|d|items|props|]; cbn; try done;
    unfold call_validate, BaseValidator_validate; cbn;
    try (by destruct (ownValidate this)).
  - destruct (Number_isFinite n); cbn; [by destruct (ownValidate this)|done].
  - destruct (date_valid (Date_parse s)); cbn;
      [by destruct (ownValidate this)|done].
  - destruct (date_valid d); cbn; [by destruct (ownValidate this)|done].
Qed.

(** X3. How the configuration methods compose: [optional] twice is
    [optional] once; of two calls of [withMessage] the later one counts;
    [optional] as the last call gives the same validator whether or not
    [optional] was called before [withMessage]; an [optional] before
    [withMessage] has no effect on validation; and [withMessage] commutes
    with adding a rule. *)
Theorem configuration_composes :
  (forall v, optional (optional v) = optional v)
  /\ (forall v m1 m2, withMessage (withMessage v m1) m2 = withMessage v m2)
  /\ (forall v m, optional (withMessage (optional v) m)
                  = optional (withMessage v m))
  /\ (forall v m x,
        validate (withMessage (optional v) m) x
          = validate (withMessage v m) x)
  /\ (forall (T : Type) (this : BaseValidator T) rule m,
        BaseValidator_withMessage (BaseValidator_addRule this rule) m
          = BaseValidator_addRule (BaseValidator_withMessage this m) rule).
Proof.
  split; [|split; [|split; [|split]]].
  - by intros [].
  - by intros [].
  - by intros [].
  - by intros [].
  - done.
Qed.

(** X4. A rule method called after [optional] undoes it: on [null] and
    [undefined] the validator [v.optional().rule(...)] fails with the
    type-check message, for the string, number, date and array validators
    and any rule, while [v.rule(...).optional()] succeeds with
    [undefined]. *)
Theorem rule_after_optional (x : value) :
  is_absent x = true ->
  (forall this rule,
     validate (StringValidator
                 (BaseValidator_addRule (BaseValidator_optional this) rule)) x
       = Failure (EString (or_default (baseErrorMessage this)
                             "Value must be a string"))
     /\ validate (StringValidator
                    (BaseValidator_optional (BaseValidator_addRule this rule)))
          x = Success VUndefined)
  /\ (forall this rule,
        validate (NumberValidator
                    (BaseValidator_addRule (BaseValidator_optional this) rule))
          x
          = Failure (EString (or_default (baseErrorMessage this)
                                "Value must be a valid number"))
        /\ validate (NumberValidator
                       (BaseValidator_optional
                          (BaseValidator_addRule this rule))) x
           = Success VUndefined)
  /\ (forall this rule,
        validate (DateValidator
                    (BaseValidator_addRule (BaseValidator_optional this) rule))
          x
          = Failure (EString (or_default (baseErrorMessage this)
               "Value must be a valid Date object or an ISO date string"))
        /\ validate (DateValidator
                       (BaseValidator_optional
                          (BaseValidator_addRule this rule))) x
           = Success VUndefined)
  /\ (forall itemValidator this rule,
        validate (ArrayValidator itemValidator
                    (BaseValidator_addRule (BaseValidator_optional this) rule))
          x
          = Failure (EString (or_default (baseErrorMessage this)
                                "Value must be an array"))
        /\ validate (ArrayValidator itemValidator
                       (BaseValidator_optional
                          (BaseValidator_addRule this rule))) x
           = Success VUndefined).
Proof.
  intros Hx. destruct x; try discriminate Hx; repeat split.
Qed.

(** X5. Adding a rule only narrows what a validator accepts: whatever
    [v.rule(...)] accepts, [v] accepts with the same data, and the new rule
    passes on the type-checked value; for the string, number, date and
    array validators and any rule. *)
Theorem rules_only_narrow :
  (forall this rule x d,
     validate (StringValidator (BaseValidator_addRule this rule)) x
       = Success d ->
     validate (StringValidator this) x = Success d
     /\ exists s, x = VString s /\ d = x /\ success (rule s) = true)
  /\ (forall this rule x d,
        validate (NumberValidator (BaseValidator_addRule this rule)) x
          = Success d ->
        validate (NumberValidator this) x = Success d
        /\ exists n, x = VNumber n /\ d = x /\ success (rule n) = true)
  /\ (forall this rule x d,
        validate (DateValidator (BaseValidator_addRule this rule)) x
          = Success d ->
        validate (DateValidator this) x = Success d
        /\ exists date, d = VDate date /\ success (rule date) = true)
  /\ (forall itemValidator this rule x d,
        validate (ArrayValidator itemValidator
                    (BaseValidator_addRule this rule)) x = Success d ->
        validate (ArrayValidator itemValidator this) x = Success d
        /\ exists items, x = VArray items /\ success (rule items) = true).
Proof.
  split; [|split; [|split]].
  - intros this rule x d H. cbn in H.
    apply (narrowed VString (StringValidator_validateType this)) in H
      as (H & t & Ht & -> & Hrule).
    + split; [done|]. exists t. by destruct x; try discriminate Ht;
        injection Ht as ->.
    + by destruct x.
    + by destruct x.
  - intros this rule x d H. cbn in H.
    apply (narrowed VNumber (NumberValidator_validateType this)) in H
      as (H & t & Ht & -> & Hrule).
    + split; [done|]. exists t.
      destruct x as [| | |n| | | | |]; try discriminate Ht. cbn in Ht.
      destruct (Number_isFinite n); [|discriminate Ht]. by injection Ht as ->.
    + by destruct x.
    + by destruct x.
  - intros this rule x d H. cbn in H.
    apply (narrowed VDate (DateValidator_validateType this)) in H
      as (H & t & Ht & -> & Hrule).
    + split; [done|]. by exists t.
    + by destruct x.
    + by destruct x.
  - intros itemValidator this rule x d H.
    destruct x as [| | | | | |items| |]; try discriminate H.
    destruct (run_rules (rules this ++ [rule]) items) as [items'|e] eqn:Er.
    2:{ cbn in H. unfold ArrayValidator_validate, BaseValidator_validate in H.
        cbn in H. rewrite Er in H. discriminate H. }
    pose proof (run_rules_Success _ _ _ Er) as ->.
    apply run_rules_snoc in Er as Hr. destruct Hr as [Hrules Hrule].
    rewrite (array_validate_spec _ _ _ items) in H
      by (unfold BaseValidator_validate; cbn; done).
    rewrite (array_validate_spec _ this _ items)
      by (unfold BaseValidator_validate; cbn; done).
    split; [done|]. by exists items.
Qed.

(** X6. The string, number and boolean validators return the value they
    were given: a successful result carries the input itself, a string, a
    finite number or a boolean, and nothing is converted; the one exception
    is an optional validator on [null] or [undefined], whose data is
    [undefined]. *)
Theorem primitives_returned_unchanged :
  (forall this x d,
     validate (StringValidator this) x = Success d ->
     (exists s, x = VString s /\ d = x)
     \/ (ownValidate this = true /\ is_absent x = true /\ d = VUndefined))
  /\ (forall this x d,
        validate (NumberValidator this) x = Success d ->
        (exists q, x = VNumber (Finite q) /\ d = x)
        \/ (ownValidate this = true /\ is_absent x = true /\ d = VUndefined))
  /\ (forall this x d,
        validate (BooleanValidator this) x = Success d ->
        (exists b, x = VBoolean b /\ d = x)
        \/ (ownValidate this = true /\ is_absent x = true /\ d = VUndefined)).
Proof.
  repeat split; intros this x d H; cbn in H;
    apply call_validate_Success in H as [H|H]; try (by right);
    apply result_map_Success in H as (t & H & ->);
    apply BaseValidator_validate_Success in H as [H _]; left.
  - destruct x; try discriminate H. injection H as ->. by eexists.
  - destruct x as [| | |n| | | | |]; try discriminate H.
    cbn in H. destruct n; try discriminate H. injection H as <-.
    eexists; split; reflexivity.
  - destruct x; try discriminate H. injection H as ->. by eexists.
Qed.

(** X7. A date validator treats a string as the [Date] it parses to: the
    result for a string is the result for [new Date(string)], so a string
    that does not parse fails like an invalid [Date]. The data of a
    successful result is a valid [Date], the input itself or the parsed
    string, never the string ([undefined] for an optional validator on
    absent input). *)
Theorem date_strings_are_parsed (this : BaseValidator Date) :
  (forall s,
     validate (DateValidator this) (VString s)
       = validate (DateValidator this) (VDate (Date_parse s)))
  /\ (forall x d,
        validate (DateValidator this) x = Success d ->
        (exists date, d = VDate date /\ date_valid date = true
           /\ (x = VDate date \/ exists s, x = VString s /\ date = Date_parse s))
        \/ (ownValidate this = true /\ is_absent x = true /\ d = VUndefined)).
Proof.
  split.
  - intros s. cbn. unfold call_validate, BaseValidator_validate. cbn.
    by destruct (date_valid (Date_parse s)).
  - intros x d H. cbn in H.
    apply call_validate_Success in H as [H|H]; [by right|left].
    apply result_map_Success in H as (t & H & ->).
    apply BaseValidator_validate_Success in H as [H _].
    exists t. split; [done|].
    destruct x as [| | | |s|dt| | |]; try discriminate H; cbn in H.
    + destruct (date_valid (Date_parse s)) eqn:E; [|discriminate H].
      injection H as <-. split; [done|]. right. by eexists.
    + destruct (date_valid dt) eqn:E; [|discriminate H].
      injection H as <-. split; [done|]. by left.
Qed.

End Chains.

(** ** Arrays and objects *)

Section ContainerFacts.
Context {host : Host}.

(** X9. [array(item).minLength(a).maxLength(b)] with natural numbers [a]
    and [b]: an array shorter than [a] fails with the message of
    [minLength] and one longer than [b] with the message of [maxLength],
    as a plain message and whatever its items are, since the length rules
    run before any item is validated; an array of a permitted length is
    validated as [array(item)] validates it. *)
Theorem array_length_before_items (bm ma mb : option string) (a b : nat)
    (itemValidator : validator) :
  let this0 : BaseValidator (list value) :=
    {| rules := []; isOptional := false; baseErrorMessage := bm;
       ownValidate := false |} in
  let v := ArrayValidator itemValidator
             (ArrayValidator_maxLength
                (ArrayValidator_minLength this0 (number_of_nat a) ma)
                (number_of_nat b) mb) in
  forall items,
    validate v (VArray items)
      = if bool_decide (length items < a)%nat then
          Failure (EString (or_default ma
            ("Array must contain at least " ++ Number_toString (number_of_nat a)
               ++ " items")))
        else if bool_decide (b < length items)%nat then
          Failure (EString (or_default mb
            ("Array must contain at most " ++ Number_toString (number_of_nat b)
               ++ " items")))
        else validate (ArrayValidator itemValidator this0) (VArray items).
Proof.
  intros this0 v items.
  destruct (bool_decide (length items < a)%nat) eqn:Ea;
    [|destruct (bool_decide (b < length items)%nat) eqn:Eb].
  - cbn. unfold call_validate, ArrayValidator_validate, BaseValidator_validate.
    cbn. unfold ArrayValidator_minLength_rule, array_length.
    rewrite number_lt_nat, Ea. done.
  - cbn. unfold call_validate, ArrayValidator_validate, BaseValidator_validate.
    cbn. unfold ArrayValidator_minLength_rule, ArrayValidator_maxLength_rule,
      number_gt, array_length.
    rewrite !number_lt_nat, Ea, Eb. done.
  - rewrite (array_validate_spec _ this0 _ items) by done.
    subst v. rewrite (array_validate_spec _ _ _ items); [done|].
    unfold BaseValidator_validate. cbn.
    unfold ArrayValidator_minLength_rule, ArrayValidator_maxLength_rule,
      number_gt, array_length.
    rewrite !number_lt_nat, Ea, Eb. done.
Qed.

(** X10. When an array validator succeeds: exactly when the rules of the
    array pass and every item is accepted by the item validator. The data
    is then an array of the same length holding, position by position, the
    data the item validator returned for the item, [undefined] for an
    absent item of an optional item validator included. *)
Theorem array_success_iff (itemValidator : validator)
    (this : BaseValidator (list value)) (items : list value) (out : value) :
  validate (ArrayValidator itemValidator this) (VArray items) = Success out
  <-> run_rules (rules this) items = Success items
      /\ exists ds, out = VArray ds
           /\ Forall2 (fun item d => validate itemValidator item = Success d)
                items ds.
Proof.
  destruct (run_rules (rules this) items) as [items'|e] eqn:Er.
  - pose proof (run_rules_Success _ _ _ Er) as ->.
    rewrite (array_validate_spec _ _ _ items)
      by (unfold BaseValidator_validate; cbn; done).
    destruct (failing_items (validate itemValidator) items 0)
      as [|er ers] eqn:Ef.
    + split.
      * intros [= <-]. split; [done|]. eexists; split; [done|].
        by apply validated_items_all.
      * intros (_ & ds & -> & Hall). do 2 f_equal.
        clear Er Ef. induction Hall as [|item d items ds Hd _ IH]; cbn; [done|].
        rewrite Hd. by f_equal.
    + split; [done|]. intros (_ & ds & -> & Hall). exfalso.
      assert (failing_items (validate itemValidator) items 0 = []) as Hnil.
      { apply failing_items_nil. clear -Hall.
        induction Hall as [|item d items ds Hd _ IH]; constructor; [|done].
        by rewrite Hd. }
      congruence.
  - split.
    + intros H. cbn in H. unfold call_validate, ArrayValidator_validate,
        BaseValidator_validate in H. cbn in H. rewrite Er in H.
      by destruct (ownValidate this).
    + intros [? _]. done.
Qed.

Lemma ObjectValidator_fields_props
    (schema : list (string * (value -> ValidationResult value))) o o'
    validatedObject errors :
  (forall k, k ∈ map fst schema -> prop_get o k = prop_get o' k) ->
  ObjectValidator_fields schema o validatedObject errors
    = ObjectValidator_fields schema o' validatedObject errors.
Proof.
  revert validatedObject errors.
  induction schema as [|[key f] schema IH]; intros ? ? Hp; cbn; [done|].
  rewrite (Hp key) by (cbn; apply list_elem_of_here).
  destruct (f (prop_get o' key)) as [d|e]; apply IH;
    intros k Hk; apply Hp; cbn; by apply list_elem_of_further.
Qed.

(** Every class rejects a function in its type check, optional or not. *)
Lemma type_check_rejects_function (v : validator) :
  validate v VFunction
    = Failure (EString (or_default (root_baseErrorMessage v)
                          (default_type_message v))).
Proof.
  destruct v as [this|this|this|this|? this|? this]; cbn;
    unfold call_validate; destruct (ownValidate this); cbn;
    unfold ArrayValidator_validate, ObjectValidator_validate,
      BaseValidator_validate; cbn; done.
Qed.

(** X11. An object validator accepts a [Date]: the type check lets every
    non-array object through. A [Date] has no own property, so at every key
    it reads what its prototype chain gives: when no key of the schema
    names a member of [Date.prototype] or is [__proto__], the [Date] is
    validated as the empty object [{}] is, failing on the required fields
    and succeeding with [{}] when every field is optional. A key that does
    name a member reads the method: [object({getTime: string().optional()})]
    accepts [{}] and rejects every [Date]. *)
Theorem date_validated_as_empty_object :
  (forall (schema : obj validator) (this : BaseValidator value) (d : Date),
     rules this = [] ->
     (forall key, key ∈ obj_keys schema ->
        key ∉ "__proto__" :: Date_prototype_members) ->
     validate (ObjectValidator schema this) (VDate d)
       = validate (ObjectValidator schema this) (VObject []))
  /\ (forall d : Date,
        validate (Schema_object [("getTime", optional Schema_string)])
          (VDate d)
        = Failure (aggregate "Object validation failed"
                     [("getTime", EString "Value must be a string")]))
  /\ validate (Schema_object [("getTime", optional Schema_string)])
       (VObject [])
     = Success (VObject []).
Proof.
  split; [|split; [intros d|]; reflexivity].
  intros schema this d Hr Hkeys. cbn.
  unfold call_validate, ObjectValidator_validate, BaseValidator_validate.
  cbn. rewrite Hr. cbn.
  rewrite (ObjectValidator_fields_props _ (VDate d) (VObject [])); [done|].
  intros k Hk. cbn. unfold Date_prototype.
  destruct (decide (k ∈ Date_prototype_members)) as [Hin|_]; [|done].
  exfalso. apply (Hkeys k); [|by apply list_elem_of_further].
  change (k ∈ map fst (schema_calls schema)) in Hk.
  by rewrite schema_calls_keys in Hk.
Qed.

(** X12. A field of the schema at which the input reads [null] or
    [undefined]: when the field's validator is not optional, the object
    fails and the error of that field is the type-check message of the
    field's validator; when it is optional, the field is neither in the
    errors nor in the data, so a [null] in the input is dropped from the
    output. An input without the key reads [undefined] there unless the key
    names a member of [Object.prototype]; at such a key it reads the
    inherited method, and the object fails with the type-check message of
    the field's validator, optional or not. The schema is one without the
    key [__proto__]. *)
Theorem absent_field (schema : obj validator) (this : BaseValidator value)
    (props : obj value) (key : string) (validator : validator) :
  NoDup (obj_keys schema) ->
  "__proto__" ∉ obj_keys schema ->
  rules this = [] ->
  obj_get key schema = Some validator ->
  (is_absent (prop_get (VObject props) key) = true ->
   (root_ownValidate validator = false ->
    exists errors,
      validate (ObjectValidator schema this) (VObject props)
        = Failure (aggregate "Object validation failed" errors)
      /\ obj_get key errors
         = Some (EString (or_default (root_baseErrorMessage validator)
                            (default_type_message validator))))
   /\ (root_ownValidate validator = true ->
       (forall out,
          validate (ObjectValidator schema this) (VObject props)
            = Success (VObject out) -> obj_get key out = None)
       /\ (forall errors,
             validate (ObjectValidator schema this) (VObject props)
               = Failure (aggregate "Object validation failed" errors) ->
             obj_get key errors = None)))
  /\ (prop_get (VObject props) key = VFunction ->
      exists errors,
        validate (ObjectValidator schema this) (VObject props)
          = Failure (aggregate "Object validation failed" errors)
        /\ obj_get key errors
           = Some (EString (or_default (root_baseErrorMessage validator)
                              (default_type_message validator))))
  /\ (obj_get key props = None ->
      prop_get (VObject props) key
      = if decide (key ∈ Object_prototype_members) then VFunction
        else VUndefined).
Proof.
  intros Hnd Hproto Hr Hk.
  assert (BaseValidator_validate (ObjectValidator_validateType this) this
            (VObject props) = Success (VObject props)) as Hbase.
  { unfold BaseValidator_validate. cbn. by rewrite Hr. }
  rewrite (object_validate_spec _ _ _ _ Hnd Hbase).
  assert (NoDup (map fst (schema_calls schema))) as Hnd'
    by (by rewrite schema_calls_keys).
  assert (Hfails : forall e,
            validate validator (prop_get (VObject props) key) = Failure e ->
            exists errors,
              match failing_fields (schema_calls schema) (VObject props) with
              | [] => Success (VObject (validated_fields
                                          (schema_calls schema)
                                          (VObject props)))
              | p :: l =>
                  Failure (aggregate "Object validation failed" (p :: l))
              end
              = Failure (aggregate "Object validation failed" errors)
              /\ obj_get key errors = Some e).
  { intros e Hfail.
    assert (obj_get key (failing_fields (schema_calls schema) (VObject props))
            = Some e) as Hget.
    { apply failing_fields_get; [done|]. exists (validate validator).
      by rewrite schema_calls_get, Hk. }
    destruct (failing_fields (schema_calls schema) (VObject props)) eqn:Ef;
      [discriminate Hget|].
    eexists; split; done. }
  split; [|split].
  - intros Habs. split.
    + intros Hown. apply Hfails.
      rewrite (type_check_rejects_absent validator _ Hown Habs).
      by destruct validator.
    + intros Hown.
      assert (validate validator (prop_get (VObject props) key)
              = Success VUndefined) as Hok.
      { revert Habs. generalize (prop_get (VObject props) key) as y.
        intros y Habs.
        destruct validator; cbn in Hown |- *; unfold call_validate;
          by rewrite Hown, Habs. }
      split.
      * intros out H.
        destruct (failing_fields (schema_calls schema) (VObject props));
          [|discriminate H].
        injection H as <-.
        destruct (obj_get key (validated_fields _ _)) as [d|] eqn:E; [|done].
        apply validated_fields_get in E as (f & Hf & Hd & Hne); [|done].
        rewrite schema_calls_get, Hk in Hf. injection Hf as <-. congruence.
      * intros errors H.
        destruct (failing_fields (schema_calls schema) (VObject props)) eqn:Ef;
          [discriminate H|].
        injection H as <-. rewrite <- Ef.
        destruct (obj_get key (failing_fields _ _)) as [e|] eqn:E; [|done].
        apply failing_fields_get in E as (f & Hf & He); [|done].
        rewrite schema_calls_get, Hk in Hf. injection Hf as <-. congruence.
  - intros Hfun. apply Hfails. rewrite Hfun.
    apply type_check_rejects_function.
  - intros Hnone. cbn. rewrite Hnone. unfold Object_prototype.
    destruct (decide (key = "__proto__")) as [->|_]; [|done].
    apply obj_get_None in Hproto. congruence.
Qed.
End ContainerFacts.

(** ** The shape of errors *)

Section Shapes.
Context {host : Host}.

Lemma or_default_nonempty message fallback :
  fallback <> "" -> or_default message fallback <> "".
Proof.
  intros Hf. unfold or_default. destruct message as [m|]; [|done].
  by destruct (decide (m = "")).
Qed.

Lemma rule_fail_reports {T : Type} (c : T -> bool) (m : T -> string) :
  (forall t, m t <> "") ->
  rule_reports (fun t => if c t then rule_fail (m t) else rule_ok).
Proof.
  intros Hm t. destruct (c t); [|done]. intros _. by eexists.
Qed.

Lemma builtin_rules_report :
  (forall l m, rule_reports (StringValidator_minLength_rule l m))
  /\ (forall l m, rule_reports (StringValidator_maxLength_rule l m))
  /\ (forall p m, rule_reports (StringValidator_pattern_rule p m))
  /\ (forall b m, rule_reports (NumberValidator_min_rule b m))
  /\ (forall b m, rule_reports (NumberValidator_max_rule b m))
  /\ (forall d m, rule_reports (DateValidator_min_rule d m))
  /\ (forall d m, rule_reports (DateValidator_max_rule d m))
  /\ (forall l m, rule_reports (ArrayValidator_minLength_rule l m))
  /\ (forall l m, rule_reports (ArrayValidator_maxLength_rule l m)).
Proof.
  repeat split; intros; apply rule_fail_reports; intros;
    by apply or_default_nonempty.
Qed.

Lemma reporting_addRule {T : Type} (this : BaseValidator T) rule :
  rule_reports rule -> Forall rule_reports (rules this) ->
  Forall rule_reports (rules (BaseValidator_addRule this rule)).
Proof. intros ? ?. cbn. apply Forall_app. split; [done|by constructor]. Qed.

Lemma reporting_optional v : reporting v -> reporting (optional v).
Proof. destruct 1; simpl; by constructor. Qed.

Lemma reporting_withMessage v m : reporting v -> reporting (withMessage v m).
Proof. destruct 1; simpl; by constructor. Qed.

(** Every rule of a validator of the interface reports. *)
Lemma built_reporting : forall v, built v -> reporting v.
Proof.
  pose proof builtin_rules_report
    as (Hsmin & Hsmax & Hspat & Hnmin & Hnmax & Hdmin & Hdmax & Hamin & Hamax).
  fix IH 2. intros v [| | | |itemValidator Hitem|schema Hnd Hfields
    |v' Hv|v' m Hv|this l m Hv|this l m Hv|this p m Hv|this bnd m Hv
    |this bnd m Hv|this d m Hv|this d m Hv|item this l m Hv|item this l m Hv].
  - by constructor.
  - by constructor.
  - by constructor.
  - by constructor.
  - constructor; [by apply IH | constructor].
  - constructor; [|constructor]. clear Hnd.
    induction Hfields as [|field rest Hfield _ IHrest]; constructor.
    + by apply IH.
    + apply IHrest.
  - apply reporting_optional, IH, Hv.
  - apply reporting_withMessage, IH, Hv.
  - apply IH in Hv. inversion Hv; subst. constructor.
    by apply reporting_addRule.
  - apply IH in Hv. inversion Hv; subst. constructor.
    by apply reporting_addRule.
  - apply IH in Hv. inversion Hv; subst. constructor.
    by apply reporting_addRule.
  - apply IH in Hv. inversion Hv; subst. constructor.
    by apply reporting_addRule.
  - apply IH in Hv. inversion Hv; subst. constructor.
    by apply reporting_addRule.
  - apply IH in Hv. inversion Hv; subst. constructor.
    by apply reporting_addRule.
  - apply IH in Hv. inversion Hv; subst. constructor.
    by apply reporting_addRule.
  - apply IH in Hv. inversion Hv; subst. constructor; [done|].
    by apply reporting_addRule.
  - apply IH in Hv. inversion Hv; subst. constructor; [done|].
    by apply reporting_addRule.
Qed.

Lemma base_failure_shaped {T : Type}
    (validateType : value -> ValidationResult T) (this : BaseValidator T)
    x e :
  (forall e', validateType x = Failure e' -> error_shaped e') ->
  Forall rule_reports (rules this) ->
  BaseValidator_validate validateType this x = Failure e -> error_shaped e.
Proof.
  intros Htype Hrules. unfold BaseValidator_validate.
  destruct (validateType x) as [t|e'] eqn:E.
  - intros H. apply run_rules_Failure in H as (rule & Hin & Hfail & ->).
    rewrite Forall_forall in Hrules.
    destruct (Hrules _ Hin _ Hfail) as (m & Hm & Hne).
    unfold error_of_rule. rewrite Hm. by constructor.
  - intros [= <-]. by apply Htype.
Qed.

Lemma failing_items_entries (f : value -> ValidationResult value) items i :
  Forall (fun entry => exists item, f item = Failure (snd entry))
    (failing_items f items i).
Proof.
  revert i. induction items as [|item items IH]; intros i; cbn; [constructor|].
  destruct (f item) eqn:E; [apply IH|]. constructor; [by exists item|apply IH].
Qed.

Lemma obj_set_entries {A : Type} (Q : A -> Prop) key (a : A) (o : obj A) :
  Q a -> Forall (fun entry => Q (snd entry)) o ->
  Forall (fun entry => Q (snd entry)) (obj_set key a o).
Proof.
  intros Ha. induction 1 as [|[k y] o Hy Ho IH]; cbn.
  - by repeat constructor.
  - destruct (decide (k = key)); constructor; done.
Qed.

Lemma ObjectValidator_fields_entries (Q : ErrorValue -> Prop)
    (schema : list (string * (value -> ValidationResult value))) o
    validatedObject errors :
  Forall (fun field => forall y e, snd field y = Failure e -> Q e) schema ->
  Forall (fun entry => Q (snd entry)) errors ->
  Forall (fun entry => Q (snd entry))
    (ObjectValidator_fields schema o validatedObject errors).2.
Proof.
  intros Hschema. revert validatedObject errors.
  induction Hschema as [|[key f] schema Hf _ IH]; intros vo errors He; cbn;
    [done|].
  destruct (f (prop_get o key)) as [d|e] eqn:E.
  - by apply IH.
  - apply IH. apply obj_set_entries; [|done]. by eapply Hf.
Qed.

(** X13. Every failure says why: for a validator built by the factory and
    the configuration methods, with any messages given, the error of a
    failed validation is either a message that is not empty or, from an
    array or object validator, the record of a message and of at least one
    child's error, each of these two shapes again; it is never absent and
    never an empty message, an empty custom message being replaced by the
    default one. *)
Theorem failures_explain_themselves :
  forall v, built v ->
  forall x e, validate v x = Failure e -> error_shaped e.
Proof.
  intros v Hb. apply built_reporting in Hb. revert Hb.
  induction v as [this|this|this|this|itemValidator this IH|schema this IH]
    using validator_nested_ind; intros Hrep x e H; inversion Hrep; subst;
    pose proof H as Hv; cbn in H; apply call_validate_Failure in H.
  - apply result_map_Failure in H. revert H. apply base_failure_shaped; [|done].
    intros e'. destruct x; cbn; intros [= <-]; constructor;
      by apply or_default_nonempty.
  - apply result_map_Failure in H. revert H. apply base_failure_shaped; [|done].
    intros e'. destruct x as [| | |[]| | | | |]; cbn; intros [= <-]; constructor;
      by apply or_default_nonempty.
  - apply result_map_Failure in H. revert H. apply base_failure_shaped; [|done].
    intros e'. destruct x; cbn; intros [= <-]; constructor;
      by apply or_default_nonempty.
  - apply result_map_Failure in H. revert H. apply base_failure_shaped; [|done].
    intros e'. destruct x as [| | | |s|d| | |]; cbn;
      try destruct (date_valid _); intros [= <-]; constructor;
      by apply or_default_nonempty.
  - apply result_map_Failure in H. unfold ArrayValidator_validate in H.
    destruct (BaseValidator_validate (ArrayValidator_validateType this) this x)
      as [items|e'] eqn:Eb.
    + clear H. rewrite (array_validate_spec _ _ _ _ Eb) in Hv.
      pose proof (failing_items_entries (validate itemValidator) items 0)
        as Hentries.
      destruct (failing_items (validate itemValidator) items 0)
        as [|entry errors]; [discriminate Hv|].
      injection Hv as <-. constructor; [done|done|].
      eapply Forall_impl; [exact Hentries|].
      intros entry' [item Hitem]. by eapply IH.
    + injection H as <-. revert Eb. apply base_failure_shaped; [|done].
      intros e0. destruct x; cbn; intros [= <-]; constructor;
        by apply or_default_nonempty.
  - unfold ObjectValidator_validate in H.
    destruct (BaseValidator_validate (ObjectValidator_validateType this) this x)
      as [objectValue|e'] eqn:Eb.
    + clear Hv.
      pose proof (ObjectValidator_fields_entries error_shaped
        (map (fun field => (fst field, validate (snd field))) schema)
        objectValue [] []) as Hentries.
      destruct (ObjectValidator_fields _ objectValue [] [])
        as [validatedObject errors].
      destruct errors as [|entry errors]; [discriminate H|].
      cbn in H. injection H as <-.
      apply (shaped_aggregate "Object validation failed"); [done|done|].
      apply Hentries; [|constructor].
      apply Forall_fmap, Forall_forall. intros field Hin y e He.
      rewrite Forall_forall in IH. rewrite Forall_forall in H2.
      eapply IH; [exact Hin|by apply H2|exact He].
    + injection H as <-. revert Eb. apply base_failure_shaped; [|done].
      intros e0. destruct x; cbn; intros [= <-]; constructor;
        by apply or_default_nonempty.
Qed.
End Shapes.

(** ** Fluent chains *)

Section FluentChains.
Context {T X : Type}.
Implicit Types (h : Store.store T X) (l this : Store.loc).

Lemma read_validator_lt h this b params :
  Store.read_validator h this = Some (b, params) -> this < length h.
Proof.
  unfold Store.read_validator, Store.read_instance. intros H.
  apply lookup_lt_is_Some. destruct (h !! this); [by eexists|done].
Qed.

Lemma configure_all_spec (cs : list (Store.config T)) h this b params :
  Store.read_validator h this = Some (b, params) ->
  exists h' last,
    configure_all cs this h = Some (h', last)
    /\ this <= last
    /\ (forall l, l < length h -> h' !! l = h !! l)
    /\ Store.read_validator h' last
       = Some (fold_left (fun b c => Store.configured c b) cs b, params).
Proof.
  revert h this b. induction cs as [|c cs IH]; intros h this b Hread.
  - exists h, this. done.
  - destruct (configure_spec c h this b params Hread)
      as (h1 & v1 & Hc & Hfresh & Hold1 & _ & Hread1).
    destruct (IH h1 v1 _ Hread1) as (h' & last & Hall & Hle & Hold & Hlast).
    exists h', last. cbn. rewrite Hc. cbn. split; [done|].
    split; [|split; [|done]].
    + apply read_validator_lt in Hread. lia.
    + intros l Hl. rewrite <- Hold1 by done. apply Hold.
      apply lookup_lt_is_Some. rewrite Hold1 by done.
      by apply lookup_lt_is_Some.
Qed.

(** X14. A factory call followed by any chain of configuration calls, run
    on the object store with its allocations and in-place updates: the
    chain never fails; it returns a new instance; it leaves every cell that
    existed before as it was, so no validator built earlier changes; and
    the instance it returns has the fields that the configuration methods,
    as functions on the fields, compute from a fresh validator in the order
    of the calls. *)
Theorem fluent_chain (params : X) (cs : list (Store.config T)) h :
  exists h' last,
    factory_chain params cs h = Some (h', last)
    /\ length h < last
    /\ (forall l, l < length h -> h' !! l = h !! l)
    /\ Store.read_validator h' last
       = Some (fold_left (fun b c => Store.configured c b) cs
                 BaseValidator_new, params).
Proof.
  set (h0 := h ++ [Store.RulesArray [];
                   Store.Instance
                     {| Store.i_rules := length h;
                        Store.i_isOptional := false;
                        Store.i_baseErrorMessage := None;
                        Store.i_validate := false;
                        Store.i_params := params |}]).
  assert (Store.construct params None h = Some (h0, length h + 1)) as Hnew.
  { unfold Store.construct, Store.alloc. cbn. subst h0.
    rewrite <- app_assoc. cbn. rewrite length_app. cbn. done. }
  assert (Store.read_validator h0 (length h + 1)
          = Some (BaseValidator_new, params)) as Hread.
  { unfold Store.read_validator, Store.read_instance, Store.read_rules.
    subst h0. rewrite lookup_app_r by lia.
    replace (length h + 1 - length h) with 1 by lia. cbn.
    rewrite lookup_app_r by lia. rewrite Nat.sub_diag. done. }
  destruct (configure_all_spec cs h0 _ _ _ Hread)
    as (h' & last & Hall & Hle & Hold & Hlast).
  exists h', last. unfold factory_chain. rewrite Hnew. cbn.
  split; [done|]. split; [lia|]. split; [|done].
  intros l Hl. rewrite Hold by (subst h0; rewrite length_app; cbn; lia).
  subst h0. by rewrite lookup_app_l.
Qed.
End FluentChains.

(** ** [schema.ts] against the modular implementation *)

Section SingleFile.
Context {host : Host}.

(** The loops of [schema.ts] are the loops of the modular files with a flag
    beside them. *)
Lemma schema_ts_items f items i validatedItems errors hasErrors :
  SchemaTsValidate.ArrayValidator_items f items i validatedItems errors
    hasErrors
  = (ArrayValidator_items f items i validatedItems errors,
     hasErrors || negb (forallb (fun item => is_success (f item)) items)).
Proof.
  revert i validatedItems errors hasErrors.
  induction items as [|item items IH]; intros; cbn.
  - by rewrite orb_false_r.
  - destruct (f item); cbn; rewrite IH; [done|].
    by rewrite orb_true_r.
Qed.

Lemma schema_ts_fields schema o validatedObject errors hasErrors :
  SchemaTsValidate.ObjectValidator_fields schema o validatedObject errors
    hasErrors
  = (ObjectValidator_fields schema o validatedObject errors,
     hasErrors
     || negb (forallb
                (fun field => is_success (snd field (prop_get o (fst field))))
                schema)).
Proof.
  revert validatedObject errors hasErrors.
  induction schema as [|[key f] schema IH]; intros; cbn.
  - by rewrite orb_false_r.
  - destruct (f (prop_get o key)); cbn; rewrite IH; [done|].
    by rewrite orb_true_r.
Qed.






(** The two implementations on one validator tree, for a relation [E]
    between their errors and a class [P] of trees. *)
Section Agreement.
Variable E : ErrorValue -> ErrorValue -> Prop.
Variable P : validator -> Prop.
Hypothesis E_message : forall e, (forall fields, e <> ERecord fields) -> E e e.
Hypothesis E_aggregate : forall m errors1 errors2,
  entries_rel E errors1 errors2 -> E (aggregate m errors1) (ERecord errors2).
Hypothesis P_date : forall this x,
  P (DateValidator this) ->
  result_rel E (validate (DateValidator this) x)
    (SchemaTsValidate.validate (DateValidator this) x).
Hypothesis P_array : forall itemValidator this,
  P (ArrayValidator itemValidator this) -> P itemValidator.
Hypothesis P_object : forall schema this,
  P (ObjectValidator schema this) -> Forall (fun field => P (snd field)) schema.

Lemma result_rel_refl {T : Type} (r : ValidationResult T) :
  (forall e, r = Failure e -> forall fields, e <> ERecord fields) ->
  result_rel E r r.
Proof. destruct r as [d|e]; cbn; [done|]. intros H. apply E_message. eauto. Qed.

Lemma obj_set_rel key e1 e2 errors1 errors2 :
  E e1 e2 -> entries_rel E errors1 errors2 ->
  entries_rel E (obj_set key e1 errors1) (obj_set key e2 errors2).
Proof.
  intros He.
  induction 1 as [|[k1 x1] [k2 x2] errors1 errors2 [Hk Hx] Hrest IH];
    cbn in *.
  - by repeat constructor.
  - subst k2. destruct (decide (k1 = key)); constructor;
      [done|exact Hrest|done|exact IH].
Qed.

Lemma ArrayValidator_items_rel f g items i validatedArray errors1 errors2 :
  Forall (fun item => result_rel E (f item) (g item)) items ->
  entries_rel E errors1 errors2 ->
  (ArrayValidator_items f items i validatedArray errors1).1
    = (ArrayValidator_items g items i validatedArray errors2).1
  /\ entries_rel E (ArrayValidator_items f items i validatedArray errors1).2
       (ArrayValidator_items g items i validatedArray errors2).2.
Proof.
  intros Hitems. revert i validatedArray errors1 errors2.
  induction Hitems as [|item items Hitem _ IH]; intros; cbn; [done|].
  destruct (f item) as [d1|e1], (g item) as [d2|e2]; cbn in Hitem; try done.
  - subst d2. by apply IH.
  - apply IH. by apply obj_set_rel.
Qed.

Lemma ObjectValidator_fields_rel
    (schema1 schema2 : list (string * (value -> ValidationResult value)))
    o validatedObject errors1 errors2 :
  Forall2 (fun field1 field2 =>
             fst field1 = fst field2
             /\ forall y, result_rel E (snd field1 y) (snd field2 y))
    schema1 schema2 ->
  entries_rel E errors1 errors2 ->
  (ObjectValidator_fields schema1 o validatedObject errors1).1
    = (ObjectValidator_fields schema2 o validatedObject errors2).1
  /\ entries_rel E (ObjectValidator_fields schema1 o validatedObject errors1).2
       (ObjectValidator_fields schema2 o validatedObject errors2).2.
Proof.
  intros Hschema. revert validatedObject errors1 errors2.
  induction Hschema as [|[k1 f] [k2 g] schema1 schema2 [Hk Hfg] _ IH];
    intros; cbn in *; [done|].
  subst k2. specialize (Hfg (prop_get o k1)).
  destruct (f (prop_get o k1)) as [d1|e1], (g (prop_get o k1)) as [d2|e2];
    cbn in Hfg; try done.
  - subst d2. by apply IH.
  - apply IH. by apply obj_set_rel.
Qed.

Lemma forallb_rel {A : Type} (f g : A -> ValidationResult value) l :
  Forall (fun a => result_rel E (f a) (g a)) l ->
  forallb (fun a => is_success (f a)) l = forallb (fun a => is_success (g a)) l.
Proof.
  induction 1 as [|a l Ha _ IH]; cbn; [done|]. rewrite IH. f_equal.
  by destruct (f a), (g a).
Qed.

Lemma ArrayValidator_items_errors f items i validatedArray errors :
  (ArrayValidator_items f items i validatedArray errors).2 = []
  <-> errors = [] /\ forallb (fun item => is_success (f item)) items = true.
Proof.
  revert i validatedArray errors.
  induction items as [|item items IH]; intros; cbn; [tauto|].
  destruct (f item) as [d|e] eqn:Ef; cbn; rewrite ?Ef; cbn; rewrite IH;
    [done|].
  split; [|by intros [_ ?]]. intros [H _].
  by destruct errors as [|[k y] errors];
    [|cbn in H; destruct (decide (k = pretty i))].
Qed.

Lemma ObjectValidator_fields_errors
    (schema : list (string * (value -> ValidationResult value))) o
    validatedObject errors :
  (ObjectValidator_fields schema o validatedObject errors).2 = []
  <-> errors = []
      /\ forallb (fun field => is_success (snd field (prop_get o (fst field))))
           schema = true.
Proof.
  revert validatedObject errors.
  induction schema as [|[key f] schema IH]; intros; cbn; [tauto|].
  destruct (f (prop_get o key)) as [d|e] eqn:Ef; cbn; rewrite ?Ef; cbn;
    rewrite IH; [done|].
  split; [|by intros [_ ?]]. intros [H _].
  by destruct errors as [|[k y] errors];
    [|cbn in H; destruct (decide (k = key))].
Qed.

Lemma call_validate_rel {T : Type} (this : BaseValidator T) f g x :
  result_rel E (f x) (g x) ->
  result_rel E (call_validate this f x) (call_validate this g x).
Proof.
  unfold call_validate. destruct (ownValidate this); [|done].
  by destruct (is_absent x).
Qed.

Lemma implementations_related :
  forall v, P v ->
  forall x, result_rel E (validate v x) (SchemaTsValidate.validate v x).
Proof.
  induction v as [this|this|this|this|itemValidator this IH|schema this IH]
    using validator_nested_ind; intros HP x.
  - apply result_rel_refl. cbn.
    intros e H%call_validate_Failure%result_map_Failure. revert H.
    apply base_failure_message. intros e'.
    destruct x; cbn; intros [= <-]; eauto.
  - apply result_rel_refl. cbn.
    intros e H%call_validate_Failure%result_map_Failure. revert H.
    apply base_failure_message. intros e'.
    destruct x as [| | |[]| | | | |]; cbn; intros [= <-]; eauto.
  - apply result_rel_refl. cbn.
    intros e H%call_validate_Failure%result_map_Failure. revert H.
    apply base_failure_message. intros e'.
    destruct x; cbn; intros [= <-]; eauto.
  - by apply P_date.
  - cbn. apply call_validate_rel.
    unfold ArrayValidator_validate, SchemaTsValidate.ArrayValidator_validate.
    destruct (BaseValidator_validate (ArrayValidator_validateType this) this x)
      as [items|e] eqn:Eb.
    + rewrite schema_ts_items. cbn.
      assert (Forall (fun item => result_rel E (validate itemValidator item)
                (SchemaTsValidate.validate itemValidator item)) items)
        as Hitems.
      { apply Forall_forall. intros item _. apply IH. by eapply P_array. }
      pose proof (ArrayValidator_items_rel _ _ items 0 [] [] [] Hitems
                    ltac:(constructor)) as [Hdata Herrors].
      pose proof (ArrayValidator_items_errors (validate itemValidator)
                    items 0 [] []) as Hnil.
      rewrite <- (forallb_rel _ _ _ Hitems).
      destruct (ArrayValidator_items (validate itemValidator) items 0 [] [])
        as [validated1 errors1].
      destruct (ArrayValidator_items (SchemaTsValidate.validate itemValidator)
                  items 0 [] []) as [validated2 errors2].
      cbn in *. subst validated2.
      destruct errors1 as [|entry errors1].
      * destruct Hnil as [Hnil _]. destruct (Hnil eq_refl) as [_ ->]. done.
      * destruct (forallb _ items); [|by apply E_aggregate].
        destruct Hnil as [_ Hnil]. by discriminate Hnil.
    + cbn. apply E_message. revert Eb. apply base_failure_message.
      intros e'. destruct x; cbn; intros [= <-]; eauto.
  - cbn. apply call_validate_rel.
    unfold ObjectValidator_validate, SchemaTsValidate.ObjectValidator_validate.
    destruct (BaseValidator_validate (ObjectValidator_validateType this) this x)
      as [objectValue|e] eqn:Eb.
    + rewrite schema_ts_fields. cbn.
      set (calls1 := map (fun field => (fst field, validate (snd field)))
                       schema).
      set (calls2 := map (fun field =>
                            (fst field, SchemaTsValidate.validate (snd field)))
                       schema).
      assert (Forall2 (fun field1 field2 =>
                fst field1 = fst field2
                /\ forall y, result_rel E (snd field1 y) (snd field2 y))
                calls1 calls2) as Hcalls.
      { subst calls1 calls2. apply P_object in HP. clear -IH HP.
        induction schema as [|field schema IHs]; cbn; constructor.
        - split; [done|]. cbn. intros y.
          apply (Forall_inv IH). apply (Forall_inv HP).
        - apply IHs; [exact (Forall_inv_tail IH)|exact (Forall_inv_tail HP)]. }
      pose proof (ObjectValidator_fields_rel _ _ objectValue [] [] [] Hcalls
                    ltac:(constructor)) as [Hdata Herrors].
      pose proof (ObjectValidator_fields_errors calls1 objectValue [] [])
        as Hnil.
      assert (forallb (fun field =>
                         is_success (snd field
                                       (prop_get objectValue (fst field))))
                calls2
              = forallb (fun field =>
                           is_success (snd field
                                         (prop_get objectValue (fst field))))
                  calls1) as ->.
      { clear -Hcalls.
        induction Hcalls as [|[k1 f] [k2 g] c1 c2 [Hk Hfg] _ IHc];
          cbn in *; [done|]. subst k2. rewrite IHc. f_equal.
        specialize (Hfg (prop_get objectValue k1)).
        by destruct (f (prop_get objectValue k1)),
             (g (prop_get objectValue k1)). }
      destruct (ObjectValidator_fields calls1 objectValue [] [])
        as [validated1 errors1].
      destruct (ObjectValidator_fields calls2 objectValue [] [])
        as [validated2 errors2].
      cbn in *. subst validated2.
      destruct errors1 as [|entry errors1].
      * destruct Hnil as [Hnil _]. destruct (Hnil eq_refl) as [_ ->]. done.
      * destruct (forallb _ calls1); [|by apply E_aggregate].
        destruct Hnil as [_ Hnil]. by discriminate Hnil.
    + cbn. apply E_message. revert Eb. apply base_failure_message.
      intros e'. destruct x; cbn; intros [= <-]; eauto.
Qed.
End Agreement.

(** X16. [validate] of [schema.ts] against [validate] of the modular
    files, both run on one validator tree, that is with the same classes,
    rules, flags, messages and fields, whose schemas have no key
    [__proto__]. On every such tree and every input the one succeeds
    exactly when the other does, and with the same data. On a tree without
    a date validator the errors agree as well, up to the wrapping: the
    error of [schema.ts] is the modular error with every record
    [{ message, errors }] replaced by its [errors]. On a date validator the
    results are equal wherever the type check accepts the input or the
    validator is optional and the input absent; elsewhere both fail, each
    with the message of [withMessage] or else its own default. *)
Theorem implementations_agree :
  (forall v x,
     keys_avoid ["__proto__"] v = true ->
     data_of (SchemaTsValidate.validate v x) = data_of (validate v x))
  /\ (forall v x,
        keys_avoid ["__proto__"] v = true ->
        date_free v = true ->
        SchemaTsValidate.validate v x
          = map_error unwrap_errors (validate v x))
  /\ (forall this x,
        (ownValidate this && is_absent x)
        || type_accepts (DateValidator this) x = true ->
        SchemaTsValidate.validate (DateValidator this) x
          = validate (DateValidator this) x)
  /\ (forall this x,
        (ownValidate this && is_absent x)
        || type_accepts (DateValidator this) x = false ->
        SchemaTsValidate.validate (DateValidator this) x
          = Failure (EString (or_default (baseErrorMessage this)
                                "Value must be a valid date"))
        /\ validate (DateValidator this) x
           = Failure
               (EString
                  (or_default (baseErrorMessage this)
                     "Value must be a valid Date object or an ISO date string"))).
Proof.
  split; [|split; [|split]].
  - intros v x _.
    assert (result_rel (fun _ _ => True) (validate v x)
              (SchemaTsValidate.validate v x)) as H.
    { apply (implementations_related (fun _ _ => True) (fun _ => True));
        try done.
      - clear. intros this x _. cbn. apply call_validate_rel.
        unfold BaseValidator_validate.
        destruct x as [| | | |s|d| | |]; cbn; try done.
        + destruct (date_valid (Date_parse s)); cbn; [|done].
          by destruct (run_rules (rules this) (Date_parse s)).
        + destruct (date_valid d); cbn; [|done].
          by destruct (run_rules (rules this) d).
      - intros schema this _. by apply Forall_forall. }
    by destruct (validate v x), (SchemaTsValidate.validate v x); cbn in *;
      subst.
  - intros v x _ Hfree.
    assert (result_rel (fun e1 e2 => e2 = unwrap_errors e1) (validate v x)
              (SchemaTsValidate.validate v x)) as H.
    { apply (implementations_related (fun e1 e2 => e2 = unwrap_errors e1)
               (fun v => date_free v = true)); try done.
      - intros [| |fields]; try done. intros H. by destruct (H fields).
      - intros m errors1 errors2 Hrel. cbn. f_equal.
        induction Hrel as [|[k1 e1] [k2 e2] errors1 errors2 [Hk He] _ IH];
          cbn in *; [done|]. by subst.
      - intros schema this H. cbn in H. apply Forall_forall.
        intros field Hin. rewrite forallb_forall in H. apply H.
        by apply list_elem_of_In. }
    by destruct (validate v x), (SchemaTsValidate.validate v x); cbn in *;
      subst.
  - intros this x. cbn. unfold call_validate, BaseValidator_validate.
    destruct (ownValidate this); destruct x as [| | | |s|d| | |]; cbn;
      try done.
    + by destruct (date_valid (Date_parse s)).
    + by destruct (date_valid d).
    + by destruct (date_valid (Date_parse s)).
    + by destruct (date_valid d).
  - intros this x. cbn. unfold call_validate, BaseValidator_validate.
    destruct (ownValidate this); destruct x as [| | | |s|d| | |]; cbn;
      try done.
    + by destruct (date_valid (Date_parse s)).
    + by destruct (date_valid d).
    + by destruct (date_valid (Date_parse s)).
    + by destruct (date_valid d).
Qed.

(** X17. The date range of [schema.ts]: on a fresh [date()], [min(a)]
    always returns, and [max(b)] after it throws exactly when [b] is before
    [a], otherwise returning the validator with the two rules; the same
    holds with [max(b)] first. Equal bounds and bounds that are invalid
    dates never throw. For valid bounds the returned validator rejects a
    date before [a] with the message of [min], one after [b] with the
    message of [max], and accepts every date from [a] to [b], both
    included. *)
Theorem schema_ts_date_range :
  (forall a b ma mb,
     exists v1,
       SchemaTs.min SchemaTs.new a ma = SchemaTs.Returned v1
       /\ SchemaTs.max v1 b mb
          = if SchemaTs.date_lt b a then
              SchemaTs.Thrown "Min date cannot be after max date"
            else
              SchemaTs.Returned
                {| SchemaTs.base :=
                     {| rules := [SchemaTs.min_rule a ma;
                                  SchemaTs.max_rule b mb];
                        isOptional := false; baseErrorMessage := None;
                        ownValidate := false |};
                   SchemaTs.minDateVal := Some (a, ma);
                   SchemaTs.maxDateVal := Some (b, mb) |})
  /\ (forall a b ma mb,
        exists v1,
          SchemaTs.max SchemaTs.new b mb = SchemaTs.Returned v1
          /\ SchemaTs.min v1 a ma
             = if SchemaTs.date_lt b a then
                 SchemaTs.Thrown "Min date cannot be after max date"
               else
                 SchemaTs.Returned
                   {| SchemaTs.base :=
                        {| rules := [SchemaTs.max_rule b mb;
                                     SchemaTs.min_rule a ma];
                           isOptional := false; baseErrorMessage := None;
                           ownValidate := false |};
                      SchemaTs.minDateVal := Some (a, ma);
                      SchemaTs.maxDateVal := Some (b, mb) |})
  /\ (forall (ta tb t : Z) ma mb bm,
        SchemaTsValidate.validate
          (DateValidator
             {| rules := [SchemaTs.min_rule (mkDate (Some ta)) ma;
                          SchemaTs.max_rule (mkDate (Some tb)) mb];
                isOptional := false; baseErrorMessage := bm;
                ownValidate := false |})
          (VDate (mkDate (Some t)))
        = if bool_decide (t < ta)%Z then
            Failure (EString (or_default ma
              ("Date must be after "
                 ++ Date_toISOString (mkDate (Some ta)))))
          else if bool_decide (tb < t)%Z then
            Failure (EString (or_default mb
              ("Date must be before "
                 ++ Date_toISOString (mkDate (Some tb)))))
          else Success (VDate (mkDate (Some t)))).
Proof.
  split; [|split].
  - intros a b ma mb. eexists; split; [done|].
    cbn. by destruct (SchemaTs.date_lt b a).
  - intros a b ma mb. eexists; split; [done|].
    cbn. by destruct (SchemaTs.date_lt b a).
  - intros ta tb t ma mb bm. cbn.
    unfold SchemaTs.min_rule, SchemaTs.max_rule, SchemaTs.date_lt, getTime.
    cbn [time]. rewrite !number_lt_Z.
    repeat case_bool_decide; cbn; done.
Qed.
End SingleFile.

(** ** A pattern whose [lastIndex] is not 0 *)

Section StalePattern.
Context {host : Host}.
Implicit Types (r : RegExpState.RegExpObject) (s : string).

(** Without the sticky flag the search finds a match exactly when there is
    one at an index it visits. *)
Lemma search_is_Some r s steps k :
  RegExpState.sticky r = false ->
  is_Some (RegExpState.search r s steps k)
  <-> exists j, k <= j < k + steps /\ is_Some (RegExpState.matcher r s j).
Proof.
  intros Hs. revert k. induction steps as [|steps IH]; intros k; cbn.
  - split; [by intros [? ?]|]. intros (j & Hj & _). lia.
  - destruct (RegExpState.matcher r s k) as [e|] eqn:Em.
    + split; [|by eexists]. intros _. exists k. rewrite Em.
      split; [lia|by eexists].
    + rewrite Hs, IH. split.
      * intros (j & Hj & Hm). exists j. split; [lia|done].
      * intros (j & Hj & Hm). exists j. split; [|done].
        destruct (decide (j = k)) as [->|]; [|lia].
        rewrite Em in Hm. by destruct Hm.
Qed.

Lemma validate_pattern_fresh r (message : option string) x :
  (RegExpState.validate_pattern r message x 0).1
  = validate
      (StringValidator
         (StringValidator_pattern BaseValidator_new
            (RegExpState.stateless r) message)) x.
Proof.
  destruct x as [| | | |s| | | |]; try done.
  cbn -[RegExpState.RegExp_test].
  unfold RegExpState.pattern_rule, StringValidator_pattern_rule.
  cbn [test RegExpState.stateless].
  destruct (RegExpState.RegExp_test r s 0) as [[] i]; done.
Qed.

(** X18. What a pattern with the global flag can do to
    [string().pattern(p)] when its [lastIndex] was left above 0: it can
    reject a string the pattern matches, but it never accepts one the
    pattern does not match, so every success is the result of the
    validator with a fresh pattern; and a rejection of a string sets
    [lastIndex] back to 0, so the validation that follows a rejection is
    the one with a fresh pattern. This is for patterns without the sticky
    flag. *)
Theorem stale_lastIndex_only_rejects r (message : option string) :
  RegExpState.sticky r = false ->
  (forall x lastIndex,
     is_success (RegExpState.validate_pattern r message x lastIndex).1 = true ->
     (RegExpState.validate_pattern r message x lastIndex).1
     = validate
         (StringValidator
            (StringValidator_pattern BaseValidator_new
               (RegExpState.stateless r) message)) x)
  /\ (forall s lastIndex,
        RegExpState.global r = true ->
        is_success
          (RegExpState.validate_pattern r message (VString s) lastIndex).1
          = false ->
        forall y,
          (RegExpState.validate_pattern r message y
             (RegExpState.validate_pattern r message (VString s)
                lastIndex).2).1
          = validate
              (StringValidator
                 (StringValidator_pattern BaseValidator_new
                    (RegExpState.stateless r) message)) y).
Proof.
  intros Hs. split.
  - intros x lastIndex. rewrite <- validate_pattern_fresh.
    destruct x as [| | | |s| | | |]; try done.
    cbn -[RegExpState.RegExp_test]. unfold RegExpState.pattern_rule.
    destruct (RegExpState.RegExp_test r s lastIndex) as [matched i'] eqn:Et.
    destruct matched; cbn -[RegExpState.RegExp_test]; [|done]. intros _.
    assert ((RegExpState.RegExp_test r s 0).1 = true) as H0.
    { unfold RegExpState.RegExp_test in *. rewrite Hs, orb_false_r in *.
      assert (is_Some (RegExpState.search r s (S (String.length s) - 0) 0))
        as [e He].
      { apply search_is_Some; [done|].
        destruct (RegExpState.search r s _ _) as [e|] eqn:E in Et;
          [|by destruct (RegExpState.global r)].
        assert (is_Some (RegExpState.search r s
                  (S (String.length s)
                   - (if RegExpState.global r then lastIndex else 0))
                  (if RegExpState.global r then lastIndex else 0))) as Hsome
          by (by eexists).
        apply search_is_Some in Hsome as (j & Hj & Hm); [|done].
        exists j. split; [|done]. lia. }
      destruct (RegExpState.global r); by rewrite He. }
    destruct (RegExpState.RegExp_test r s 0) as [[] i0]; [done|].
    discriminate H0.
  - intros s lastIndex Hg Hfail y. rewrite <- validate_pattern_fresh.
    assert ((RegExpState.validate_pattern r message (VString s) lastIndex).2
            = 0) as ->; [|done].
    revert Hfail. cbn -[RegExpState.RegExp_test].
    unfold RegExpState.pattern_rule, RegExpState.RegExp_test.
    rewrite Hs, Hg. cbn [orb].
    by destruct (RegExpState.search r s (S (String.length s) - lastIndex)
                   lastIndex).
Qed.
End StalePattern.

(** ** The builder version of schema.ts *)

Section BuilderVersion.
Context {host : Host}.

(** Induction over the validators of the builder version, with the fields of
    a schema as subtrees. *)
Lemma builders_nested_ind (P : Builders.validator -> Prop) :
  (forall wrapped, P wrapped -> P (Builders.OptionalValidator wrapped)) ->
  (forall minLen maxLen regex customMessage,
     P (Builders.StringValidator minLen maxLen regex customMessage)) ->
  (forall minVal maxVal customMessage,
     P (Builders.NumberValidator minVal maxVal customMessage)) ->
  (forall customMessage, P (Builders.BooleanValidator customMessage)) ->
  (forall minDate maxDate customMessage,
     P (Builders.DateValidator minDate maxDate customMessage)) ->
  (forall itemValidator minLen maxLen customMessage, P itemValidator ->
     P (Builders.ArrayValidator itemValidator minLen maxLen customMessage)) ->
  (forall schema customMessage, Forall (fun field => P (snd field)) schema ->
     P (Builders.ObjectValidator schema customMessage)) ->
  forall v, P v.
Proof.
  intros Ho Hs Hn Hb Hd Ha Hobj.
  fix IH 1. intros [wrapped| | | | |itemValidator ? ? ?|schema ?].
  - apply Ho, IH.
  - apply Hs.
  - apply Hn.
  - apply Hb.
  - apply Hd.
  - apply Ha, IH.
  - apply Hobj. induction schema as [|[key v] rest IHrest]; constructor.
    + apply IH.
    + apply IHrest.
Qed.

Lemma check_bounds_Failure size lower upper tooLow tooHigh rest e :
  Builders.check_bounds size lower upper tooLow tooHigh rest
    = Builders.Failure e ->
  (exists bound, e = tooLow bound) \/ (exists bound, e = tooHigh bound)
  \/ rest = Builders.Failure e.
Proof.
  unfold Builders.check_bounds.
  destruct lower as [l|], upper as [u|];
    repeat match goal with
           | |- context [if ?c then _ else _] => destruct c
           end; intros H; try (injection H as <-); eauto.
Qed.

Lemma or_default_custom m fallback : m <> "" -> or_default (Some m) fallback = m.
Proof. intros Hm. unfold or_default. by destruct (decide (m = "")). Qed.

Lemma DateValidator_check_Failure minDate maxDate m date e :
  m <> "" ->
  Builders.DateValidator_check minDate maxDate (Some m) date
    = Builders.Failure e -> e = m.
Proof.
  intros Hm. unfold Builders.DateValidator_check.
  destruct minDate, maxDate;
    repeat match goal with
           | |- context [if ?c then _ else _] => destruct c
           end; intros H; try (injection H as <-);
    try (by apply or_default_custom); done.
Qed.

(** X19. In the builder version of [schema.ts] a custom message replaces
    every message of the validator it is set on: when [withMessage] has set
    a message that is not empty, every failure of that validator carries
    exactly this message, be it the failure of the type check, of a bound,
    of the pattern, or of an item or a field, whose own error is then not
    reported; this holds under any number of [optional] wrappers. *)
Theorem custom_message_replaces_every_message :
  forall v m x e,
    Builders.customMessage_of v = Some m -> m <> "" ->
    Builders.validate v x = Builders.Failure e -> e = m.
Proof.
  intros v m x e Hcm Hm. revert x e.
  induction v as [wrapped IH|minLen maxLen regex cm|minVal maxVal cm|cm
                 |minDate maxDate cm|itemValidator minLen maxLen cm IH
                 |schema cm IH] using builders_nested_ind;
    intros x e H; cbn in Hcm; try subst cm.
  - cbn in H. destruct (is_absent x); [done|]. by eapply IH.
  - cbn in H. destruct x; try (injection H as <-; by apply or_default_custom).
    apply check_bounds_Failure in H as [[b ->]|[[b ->]|H]];
      try by apply or_default_custom.
    destruct regex as [p|]; [|done]. destruct (negb (test p s)); [|done].
    injection H as <-. by apply or_default_custom.
  - cbn in H. destruct x as [| | |[]| | | | |];
      try (injection H as <-; by apply or_default_custom);
      apply check_bounds_Failure in H as [[b ->]|[[b ->]|H]];
      try (by apply or_default_custom); done.
  - cbn in H. destruct x; try (injection H as <-; by apply or_default_custom).
    done.
  - cbn in H. destruct x; try (injection H as <-; by apply or_default_custom);
      by eapply DateValidator_check_Failure.
  - cbn in H. destruct x; try (injection H as <-; by apply or_default_custom).
    apply check_bounds_Failure in H as [[b ->]|[[b ->]|H]];
      try by apply or_default_custom.
    revert H. generalize 0 at 1. generalize (@nil value).
    induction items as [|item items IHitems]; intros acc i H; cbn in H;
      [done|].
    destruct (Builders.validate itemValidator item).
    + by eapply IHitems.
    + injection H as <-. by apply or_default_custom.
  - cbn in H.
    assert (forall record acc,
      Builders.ObjectValidator_fields
        (map (fun field => (fst field, Builders.validate (snd field))) schema)
        (Some m) record acc = Builders.Failure e -> e = m) as Hloop.
    { clear -Hm. intros record.
      induction schema as [|[key v] schema IHs]; intros acc H; cbn in H;
        [done|].
      destruct (Builders.validate v (prop_get record key)).
      - by eapply IHs.
      - injection H as <-. by apply or_default_custom. }
    destruct x; try (injection H as <-; by apply or_default_custom);
      by eapply Hloop.
Qed.

Lemma builders_items_first (f : value -> Builders.ValidationResult)
    cm before item after e i acc :
  Forall (fun y => exists d, f y = Builders.Success d) before ->
  f item = Builders.Failure e ->
  Builders.ArrayValidator_items f cm (before ++ item :: after) i acc
    = Builders.Failure
        (or_default cm ("Array item at index " ++ pretty (i + length before)
                          ++ ": " ++ e)).
Proof.
  intros Hbefore Hitem. revert i acc.
  induction Hbefore as [|y before [d Hy] _ IH]; intros i acc; cbn.
  - by rewrite Hitem, Nat.add_0_r.
  - rewrite Hy, IH.
    by replace (S i + length before) with (i + S (length before)) by lia.
Qed.

Lemma builders_fields_first
    (before after : list (string * (value -> Builders.ValidationResult)))
    key (f : value -> Builders.ValidationResult) cm record e acc :
  Forall (fun field => exists d, snd field (prop_get record (fst field))
                                 = Builders.Success d) before ->
  f (prop_get record key) = Builders.Failure e ->
  Builders.ObjectValidator_fields (before ++ (key, f) :: after) cm record acc
    = Builders.Failure (or_default cm ("Object field '" ++ key ++ "': " ++ e)).
Proof.
  intros Hbefore Hf. revert acc.
  induction Hbefore as [|[k g] before [d Hg] _ IH]; intros acc; cbn.
  - by rewrite Hf.
  - cbn in Hg. by rewrite Hg, IH.
Qed.

(** X20. The containers of the builder version stop at the first failure:
    for an array whose length is within the bounds, when the items before
    an item pass and that item fails with an error, the result is the
    failure "Array item at index i: error" for the index [i] of that item,
    or the custom message, whatever items follow; for an object, when the
    fields before a field in the order of the schema pass and that field
    fails, the result is "Object field 'key': error", or the custom
    message, whatever fields follow. *)
Theorem first_failure_only :
  (forall itemValidator minLen maxLen cm before item after e,
     (forall bound, minLen = Some bound ->
        number_lt (array_length (before ++ item :: after)) bound = false) ->
     (forall bound, maxLen = Some bound ->
        number_gt (array_length (before ++ item :: after)) bound = false) ->
     Forall (fun y => exists d,
               Builders.validate itemValidator y = Builders.Success d)
       before ->
     Builders.validate itemValidator item = Builders.Failure e ->
     Builders.validate
       (Builders.ArrayValidator itemValidator minLen maxLen cm)
       (VArray (before ++ item :: after))
     = Builders.Failure
         (or_default cm ("Array item at index " ++ pretty (length before)
                           ++ ": " ++ e)))
  /\ (forall before key validator after cm props e,
        Forall (fun field => exists d,
                  Builders.validate (snd field)
                    (prop_get (VObject props) (fst field))
                  = Builders.Success d) before ->
        Builders.validate validator (prop_get (VObject props) key)
          = Builders.Failure e ->
        Builders.validate
          (Builders.ObjectValidator (before ++ (key, validator) :: after) cm)
          (VObject props)
        = Builders.Failure
            (or_default cm ("Object field '" ++ key ++ "': " ++ e))).
Proof.
  split.
  - intros itemValidator minLen maxLen cm before item after e Hmin Hmax
      Hbefore Hitem.
    cbn. unfold Builders.check_bounds.
    assert (Builders.ArrayValidator_items (Builders.validate itemValidator) cm
              (before ++ item :: after) 0 []
            = Builders.Failure
                (or_default cm ("Array item at index " ++ pretty (length before)
                                  ++ ": " ++ e))) as ->
      by (by rewrite (builders_items_first _ _ _ _ _ e)).
    destruct minLen as [l|], maxLen as [u|];
      rewrite ?(Hmin _ eq_refl), ?(Hmax _ eq_refl); done.
  - intros before key validator after cm props e Hbefore Hfield.
    cbn. rewrite map_app. cbn.
    apply builders_fields_first; [|done].
    apply Forall_fmap. eapply Forall_impl; [exact Hbefore|].
    by intros [k v].
Qed.

(** X21. In the builder version [optional] survives [withMessage]: an
    optional validator answers [null] and [undefined] with success and
    [undefined] and passes everything else to the validator it wraps;
    [withMessage] on an optional validator gives the optional validator of
    the one with the message, so [v.optional().withMessage(m)] still
    accepts absent input. *)
Theorem optional_survives_withMessage (v : Builders.validator) :
  (forall x,
     Builders.validate (Builders.optional v) x
       = if is_absent x then Builders.Success VUndefined
         else Builders.validate v x)
  /\ (forall m,
        Builders.withMessage (Builders.optional v) m
          = Builders.optional (Builders.withMessage v m))
  /\ (forall m x, is_absent x = true ->
        Builders.validate (Builders.withMessage (Builders.optional v) m) x
          = Builders.Success VUndefined).
Proof.
  split; [|split].
  - intros x. destruct v; cbn; by destruct (is_absent x).
  - intros m. by destruct v.
  - intros m x Hx. destruct v; cbn; by rewrite Hx.
Qed.





End BuilderVersion.

(** ** The further properties, evaluated *)

Section ClosedFurther.
#[local] Existing Instance ExampleHost.host.

(** X1 at [string().minLength(2).maxLength(30).pattern(p)] and [null],
    for a pattern that matches the strings starting with ["a"]. *)
Lemma string_chain_witness :
  (forall s, VNull <> VString s)
  /\ validate
       (StringValidator
          (StringValidator_pattern
             (StringValidator_maxLength
                (StringValidator_minLength BaseValidator_new (number_of_nat 2)
                   None)
                (number_of_nat 30) None)
             {| test := String.prefix "a" |} None)) VNull
     = Failure (EString "Value must be a string").
Proof.
  assert (H : forall s, VNull <> VString s) by discriminate.
  split; [exact H|].
  exact (proj2 (string_chain None None None None 2 30
                  {| test := String.prefix "a" |}) VNull H).
Defined.

(** X4 at [string().optional().minLength(3)] and [null]. *)
Lemma rule_after_optional_witness :
  is_absent VNull = true
  /\ validate
       (StringValidator
          (BaseValidator_addRule (BaseValidator_optional BaseValidator_new)
             (StringValidator_minLength_rule (number_of_Z 3) None))) VNull
     = Failure (EString "Value must be a string").
Proof.
  split; [reflexivity|].
  exact (proj1 (proj1 (rule_after_optional VNull eq_refl) BaseValidator_new
                  (StringValidator_minLength_rule (number_of_Z 3) None))).
Defined.

(** X5 at [string().minLength(2)] and ["abc"]. *)
Lemma rules_only_narrow_witness :
  validate
    (StringValidator
       (BaseValidator_addRule BaseValidator_new
          (StringValidator_minLength_rule (number_of_Z 2) None)))
    (VString "abc") = Success (VString "abc")
  /\ validate (StringValidator BaseValidator_new) (VString "abc")
     = Success (VString "abc").
Proof.
  split; [reflexivity|].
  exact (proj1 (proj1 rules_only_narrow BaseValidator_new
                  (StringValidator_minLength_rule (number_of_Z 2) None)
                  (VString "abc") (VString "abc") eq_refl)).
Defined.

(** X6 at [number()] and 7. *)
Lemma primitives_returned_unchanged_witness :
  validate (NumberValidator BaseValidator_new) (Examples.num 7)
    = Success (Examples.num 7)
  /\ ((exists q, Examples.num 7 = VNumber (Finite q)
         /\ Examples.num 7 = Examples.num 7)
      \/ (ownValidate (BaseValidator_new (T := number)) = true
          /\ is_absent (Examples.num 7) = true
          /\ Examples.num 7 = VUndefined)).
Proof.
  split; [reflexivity|].
  exact (proj1 (proj2 primitives_returned_unchanged) BaseValidator_new
           (Examples.num 7) (Examples.num 7) eq_refl).
Defined.

(** X7 at [date()] and the string of 2024-01-15. *)
Lemma date_strings_are_parsed_witness :
  validate (DateValidator BaseValidator_new)
    (VString "2024-01-15T00:00:00.000Z")
    = Success (VDate (mkDate (Some 1705276800000%Z)))
  /\ ((exists date,
         VDate (mkDate (Some 1705276800000%Z)) = VDate date
         /\ date_valid date = true
         /\ (VString "2024-01-15T00:00:00.000Z" = VDate date
             \/ exists s, VString "2024-01-15T00:00:00.000Z" = VString s
                          /\ date = Date_parse s))
      \/ (ownValidate (BaseValidator_new (T := Date)) = true
          /\ is_absent (VString "2024-01-15T00:00:00.000Z") = true
          /\ VDate (mkDate (Some 1705276800000%Z)) = VUndefined)).
Proof.
  assert (Hrun : validate (DateValidator BaseValidator_new)
                   (VString "2024-01-15T00:00:00.000Z")
                 = Success (VDate (mkDate (Some 1705276800000%Z))))
    by (vm_compute; reflexivity).
  split; [exact Hrun|].
  exact (proj2 (date_strings_are_parsed BaseValidator_new) _ _ Hrun).
Defined.

(** X10 at [array(number().min(0))] and [[1, 3]]. *)
Lemma array_success_iff_witness :
  validate Examples.array_of_nonnegative
    (VArray [Examples.num 1; Examples.num 3])
    = Success (VArray [Examples.num 1; Examples.num 3])
  /\ exists ds,
       VArray [Examples.num 1; Examples.num 3] = VArray ds
       /\ Forall2
            (fun item d =>
               validate
                 (NumberValidator
                    (NumberValidator_min BaseValidator_new (number_of_Z 0)
                       None)) item = Success d)
            [Examples.num 1; Examples.num 3] ds.
Proof.
  assert (Hrun : validate Examples.array_of_nonnegative
                   (VArray [Examples.num 1; Examples.num 3])
                 = Success (VArray [Examples.num 1; Examples.num 3]))
    by (vm_compute; reflexivity).
  split; [exact Hrun|].
  exact (proj2 (proj1 (array_success_iff _ BaseValidator_new _ _) Hrun)).
Defined.

(** X11 at [object({name: string(), age: number().optional()})] and a
    [Date]: neither key names a member of [Date.prototype]. *)
Lemma date_validated_as_empty_object_witness :
  rules (BaseValidator_new (T := value)) = []
  /\ (forall key,
        key ∈ obj_keys [("name", Schema_string);
                        ("age", optional Schema_number)] ->
        key ∉ "__proto__" :: Date_prototype_members)
  /\ validate Examples.person (VDate Examples.past)
     = validate Examples.person (VObject []).
Proof.
  assert (Hkeys : forall key,
            key ∈ obj_keys [("name", Schema_string);
                            ("age", optional Schema_number)] ->
            key ∉ "__proto__" :: Date_prototype_members).
  { apply Forall_forall. apply (bool_decide_unpack _). vm_compute. exact I. }
  split; [reflexivity|]. split; [exact Hkeys|].
  exact (proj1 date_validated_as_empty_object
           [("name", Schema_string); ("age", optional Schema_number)]
           BaseValidator_new Examples.past eq_refl Hkeys).
Defined.

(** X12 at the same validator, the input [{age: null}] and the required
    field [name]; and at [object({toString: string().optional()})] and the
    input [{}], which reads a method at [toString]. *)
Lemma absent_field_witness :
  NoDup (obj_keys [("name", Schema_string); ("age", optional Schema_number)])
  /\ ("__proto__" ∉ obj_keys [("name", Schema_string);
                              ("age", optional Schema_number)])
  /\ is_absent (prop_get (VObject [("age", VNull)]) "name") = true
  /\ (exists errors,
        validate Examples.person (VObject [("age", VNull)])
          = Failure (aggregate "Object validation failed" errors)
        /\ obj_get "name" errors = Some (EString "Value must be a string"))
  /\ NoDup (obj_keys [("toString", optional Schema_string)])
  /\ ("__proto__" ∉ obj_keys [("toString", optional Schema_string)])
  /\ prop_get (VObject []) "toString" = VFunction
  /\ exists errors,
       validate (Schema_object [("toString", optional Schema_string)])
         (VObject [])
         = Failure (aggregate "Object validation failed" errors)
       /\ obj_get "toString" errors
          = Some (EString "Value must be a string").
Proof.
  assert (Hnd : NoDup (obj_keys [("name", Schema_string);
                                 ("age", optional Schema_number)])).
  { apply (bool_decide_unpack _). vm_compute. exact I. }
  assert (Hnd' : NoDup (obj_keys [("toString", optional Schema_string)])).
  { apply (bool_decide_unpack _). vm_compute. exact I. }
  assert (Hproto : "__proto__" ∉ obj_keys [("name", Schema_string);
                                           ("age", optional Schema_number)]).
  { apply (bool_decide_unpack _). vm_compute. exact I. }
  assert (Hproto' : "__proto__"
                    ∉ obj_keys [("toString", optional Schema_string)]).
  { apply (bool_decide_unpack _). vm_compute. exact I. }
  split; [exact Hnd|]. split; [exact Hproto|]. split; [reflexivity|]. split.
  - exact (proj1 (proj1 (absent_field
                    [("name", Schema_string); ("age", optional Schema_number)]
                    BaseValidator_new [("age", VNull)] "name" Schema_string
                    Hnd Hproto eq_refl eq_refl) eq_refl) eq_refl).
  - split; [exact Hnd'|]. split; [exact Hproto'|]. split; [reflexivity|].
    exact (proj1 (proj2 (absent_field
                    [("toString", optional Schema_string)]
                    BaseValidator_new [] "toString" (optional Schema_string)
                    Hnd' Hproto' eq_refl eq_refl)) eq_refl).
Defined.

(** X13 at [array(number().min(0))] and [[1, -2, 3, -4]]. *)
Lemma failures_explain_themselves_witness :
  built Examples.array_of_nonnegative
  /\ validate Examples.array_of_nonnegative Examples.one_to_four
     = Failure (aggregate "Array contains invalid items"
         [("1", EString "Number must be at least 0");
          ("3", EString "Number must be at least 0")])
  /\ error_shaped
       (aggregate "Array contains invalid items"
          [("1", EString "Number must be at least 0");
           ("3", EString "Number must be at least 0")]).
Proof.
  assert (Hb : built Examples.array_of_nonnegative).
  { apply built_array.
    exact (built_number_min BaseValidator_new (number_of_Z 0) None
             built_number). }
  assert (Hrun : validate Examples.array_of_nonnegative Examples.one_to_four
     = Failure (aggregate "Array contains invalid items"
         [("1", EString "Number must be at least 0");
          ("3", EString "Number must be at least 0")]))
    by (vm_compute; reflexivity).
  split; [exact Hb|]. split; [exact Hrun|].
  exact (failures_explain_themselves _ Hb _ _ Hrun).
Defined.


(** X16 at the same validator and input: the error of [schema.ts] is the
    mapping inside the modular error. *)
Lemma implementations_agree_witness :
  keys_avoid ["__proto__"] Examples.array_of_nonnegative = true
  /\ date_free Examples.array_of_nonnegative = true
  /\ SchemaTsValidate.validate Examples.array_of_nonnegative
       Examples.one_to_four
     = map_error unwrap_errors
         (Failure (aggregate "Array contains invalid items"
            [("1", EString "Number must be at least 0");
             ("3", EString "Number must be at least 0")])).
Proof.
  split; [reflexivity|]. split; [reflexivity|].
  exact (proj1 (proj2 implementations_agree) Examples.array_of_nonnegative
           Examples.one_to_four eq_refl eq_refl).
Defined.

(** X18 at the pattern [/a/g] and the string ["a"] with [lastIndex] 1: the
    validation fails, and the one after it succeeds. *)
Lemma stale_lastIndex_only_rejects_witness :
  RegExpState.sticky RegExpState.a_global = false
  /\ RegExpState.global RegExpState.a_global = true
  /\ is_success
       (RegExpState.validate_pattern RegExpState.a_global None (VString "a")
          1).1 = false
  /\ (RegExpState.validate_pattern RegExpState.a_global None (VString "a")
        (RegExpState.validate_pattern RegExpState.a_global None (VString "a")
           1).2).1
     = validate
         (StringValidator
            (StringValidator_pattern BaseValidator_new
               (RegExpState.stateless RegExpState.a_global) None))
         (VString "a").
Proof.
  split; [reflexivity|]. split; [reflexivity|]. split; [reflexivity|].
  exact (proj2 (stale_lastIndex_only_rejects RegExpState.a_global None eq_refl)
           "a" 1 eq_refl eq_refl (VString "a")).
Defined.

(** X19 at [string().minLength(5).withMessage('Name is too short!')] and
    ["hi"], as in the tests of the builder version. *)
Lemma custom_message_replaces_every_message_witness :
  Builders.customMessage_of
    (Builders.StringValidator (Some (number_of_Z 5)) None None
       (Some "Name is too short!")) = Some "Name is too short!"
  /\ "Name is too short!" <> ""
  /\ exists e,
       Builders.validate
         (Builders.StringValidator (Some (number_of_Z 5)) None None
            (Some "Name is too short!")) (VString "hi") = Builders.Failure e
       /\ e = "Name is too short!".
Proof.
  assert (Hne : "Name is too short!" <> "") by discriminate.
  assert (Hrun : Builders.validate
            (Builders.StringValidator (Some (number_of_Z 5)) None None
               (Some "Name is too short!")) (VString "hi")
          = Builders.Failure "Name is too short!") by reflexivity.
  split; [reflexivity|]. split; [exact Hne|].
  exists "Name is too short!". split; [exact Hrun|].
  exact (custom_message_replaces_every_message
           (Builders.StringValidator (Some (number_of_Z 5)) None None
              (Some "Name is too short!"))
           "Name is too short!" (VString "hi") "Name is too short!"
           eq_refl Hne Hrun).
Defined.

(** X20 at [array(string())] and [["developer", 12345]]. *)
Lemma first_failure_only_witness :
  Forall (fun y => exists d,
            Builders.validate (Builders.StringValidator None None None None) y
            = Builders.Success d) [VString "developer"]
  /\ Builders.validate (Builders.StringValidator None None None None)
       (Examples.num 12345) = Builders.Failure "Value must be a string"
  /\ Builders.validate
       (Builders.ArrayValidator (Builders.StringValidator None None None None)
          None None None)
       (VArray [VString "developer"; Examples.num 12345])
     = Builders.Failure "Array item at index 1: Value must be a string".
Proof.
  assert (Hbefore : Forall (fun y => exists d,
            Builders.validate (Builders.StringValidator None None None None) y
            = Builders.Success d) [VString "developer"]).
  { constructor; [|constructor]. by eexists. }
  assert (Hmin : forall bound : number,
            @None number = Some bound ->
            number_lt
              (array_length ([VString "developer"] ++ [Examples.num 12345]))
              bound = false) by discriminate.
  assert (Hmax : forall bound : number,
            @None number = Some bound ->
            number_gt
              (array_length ([VString "developer"] ++ [Examples.num 12345]))
              bound = false) by discriminate.
  split; [exact Hbefore|]. split; [reflexivity|].
  exact (proj1 first_failure_only
           (Builders.StringValidator None None None None) None None None
           [VString "developer"] (Examples.num 12345) []
           "Value must be a string" Hmin Hmax Hbefore eq_refl).
Defined.

(** X21 at [string().minLength(3).optional().withMessage('Required')] and
    [null]. *)
Lemma optional_survives_withMessage_witness :
  is_absent VNull = true
  /\ Builders.validate
       (Builders.withMessage
          (Builders.optional
             (Builders.StringValidator (Some (number_of_Z 3)) None None None))
          "Required") VNull
     = Builders.Success VUndefined.
Proof.
  split; [reflexivity|].
  exact (proj2 (proj2 (optional_survives_withMessage
                         (Builders.StringValidator (Some (number_of_Z 3))
                            None None None))) "Required" VNull eq_refl).
Defined.

End ClosedFurther.
